(** * Admissions bot (src/main.py): scheduling, booking dialogue and retrieval ranking

    A shallow embedding of the booking and retrieval core of [src/main.py]
    and the properties its specification states about it.

    Python values are modelled as the program has them: a [str] is a list of
    Unicode code points, the SQLite tables are lists of rows, the aiogram
    session is a state tag with a dictionary, a [float] is a binary64 number.
    Functions of the Python runtime that the program calls but does not
    define ([str.lower], the case-insensitive and digit classes of [re],
    [difflib]'s similarity ratio, [strptime]) are collected in the class
    [PyLib], and the [Command] filter of aiogram in the class [Aiogram];
    every property is proved for any such runtime, under the laws it names. *)

From Stdlib Require Import ZArith NArith String Ascii List Bool Lia Floats.
From Stdlib Require Import Sorting.Permutation Sorting.Sorted.
From stdpp Require Import base option list gmap strings.
From Equations Require Import Equations.

Import ListNotations.
#[local] Open Scope Z_scope.

(** * Part I: the program *)

(** ** Python strings *)

(** A Python [str]: the sequence of its code points. *)
Definition pystr : Type := list N.

(** String literals of this file are UTF-8 bytes; [utf8_decode] reads them
    back into code points, so that [u "да"] is the two-character string. *)
Definition utf8_cont (b : N) : N := (b - 128)%N.

Fixpoint utf8_decode (bs : list N) : pystr :=
  match bs with
  | [] => []
  | b :: r1 =>
      if (b <? 128)%N then b :: utf8_decode r1 else
      match r1 with
      | [] => [b]
      | b2 :: r2 =>
          if (b <? 224)%N then ((b - 192) * 64 + utf8_cont b2)%N :: utf8_decode r2 else
          match r2 with
          | [] => [b; b2]
          | b3 :: r3 =>
              if (b <? 240)%N
              then ((b - 224) * 4096 + utf8_cont b2 * 64 + utf8_cont b3)%N
                     :: utf8_decode r3
              else
              match r3 with
              | [] => [b; b2; b3]
              | b4 :: r4 =>
                  ((b - 240) * 262144 + utf8_cont b2 * 4096
                   + utf8_cont b3 * 64 + utf8_cont b4)%N :: utf8_decode r4
              end
          end
      end
  end.

Fixpoint utf8_bytes (s : string) : list N :=
  match s with
  | EmptyString => []
  | String a r => N_of_ascii a :: utf8_bytes r
  end.

(** [u "..."] is the Python string written between the quotes. *)
Definition u (s : string) : pystr := utf8_decode (utf8_bytes s).

(** The single character written between the quotes. *)
Definition chr (s : string) : N := hd 0%N (u s).

Definition chr_eqb (a b : N) : bool := (a =? b)%N.

(** [a == b] on [str]. *)
Fixpoint pystr_eqb (a b : pystr) : bool :=
  match a, b with
  | [], [] => true
  | x :: a', y :: b' => chr_eqb x y && pystr_eqb a' b'
  | _, _ => false
  end.

(** [a <= b] on [str]: lexicographic, by code point. *)
Fixpoint pystr_leb (a b : pystr) : bool :=
  match a, b with
  | [], _ => true
  | _ :: _, [] => false
  | x :: a', y :: b' =>
      if (x <? y)%N then true else if (y <? x)%N then false else pystr_leb a' b'
  end.

(** [s in (a, b, c)] *)
Definition pystr_in (s : pystr) (l : list pystr) : bool := existsb (pystr_eqb s) l.

(** [len(s)] *)
Definition len {A} (s : list A) : Z := Z.of_nat (length s).

(** [s[:n]] for a literal [n >= 0]. *)
Definition slice_to {A} (n : nat) (s : list A) : list A := firstn n s.

(** [c] lies in the character range [lo-hi] of a regular-expression class. *)
Definition in_range (lo hi : string) (c : N) : bool :=
  ((chr lo <=? c) && (c <=? chr hi))%N.

(** [c] is one of the characters of [s]. *)
Definition one_of (s : string) (c : N) : bool := existsb (chr_eqb c) (u s).

(** *** Whitespace

    [str.isspace], [str.strip], [str.split] and the class [\s] of [re] agree
    on what a whitespace character is. *)
Definition py_isspace (c : N) : bool :=
  ((9 <=? c) && (c <=? 13) || (28 <=? c) && (c <=? 32) || (c =? 133) || (c =? 160)
   || (c =? 5760) || (8192 <=? c) && (c <=? 8202) || (c =? 8232) || (c =? 8233)
   || (c =? 8239) || (c =? 8287) || (c =? 12288))%N.

Definition SPACE : N := 32%N.

Fixpoint lstrip (s : pystr) : pystr :=
  match s with
  | [] => []
  | c :: r => if py_isspace c then lstrip r else s
  end.

Fixpoint rstrip (s : pystr) : pystr :=
  match s with
  | [] => []
  | c :: r =>
      match rstrip r with
      | [] => if py_isspace c then [] else [c]
      | r' => c :: r'
      end
  end.

(** [s.strip()] *)
Definition strip (s : pystr) : pystr := rstrip (lstrip s).

(** [s.split()]: the maximal runs of non-whitespace characters, in order.
    [split_aux cur s] carries the token being read, reversed. *)
Fixpoint split_aux (cur : pystr) (s : pystr) : list pystr :=
  match s with
  | [] => match cur with [] => [] | _ => [rev cur] end
  | c :: r =>
      if py_isspace c
      then match cur with [] => split_aux [] r | _ => rev cur :: split_aux [] r end
      else split_aux (c :: cur) r
  end.

Definition split (s : pystr) : list pystr := split_aux [] s.

(** [" ".join(parts)] *)
Fixpoint join_sp (parts : list pystr) : pystr :=
  match parts with
  | [] => []
  | [p] => p
  | p :: rest => p ++ SPACE :: join_sp rest
  end.

(** [re.sub(r"\s+", " ", s)]: every maximal run of whitespace becomes one
    space. *)
Fixpoint collapse_ws_from (in_run : bool) (s : pystr) : pystr :=
  match s with
  | [] => []
  | c :: r =>
      if py_isspace c
      then (if in_run then collapse_ws_from true r else SPACE :: collapse_ws_from true r)
      else c :: collapse_ws_from false r
  end.

Definition collapse_ws (s : pystr) : pystr := collapse_ws_from false s.

(** [sub in s] for strings, which is also [re.search] of a literal pattern:
    [sub] occurs as a contiguous block of [s]. *)
Fixpoint starts_with (sub s : pystr) : bool :=
  match sub, s with
  | [], _ => true
  | _ :: _, [] => false
  | x :: sub', y :: s' => chr_eqb x y && starts_with sub' s'
  end.

Fixpoint contains (sub s : pystr) : bool :=
  starts_with sub s ||
  match s with
  | [] => false
  | _ :: s' => contains sub s'
  end.

(** [s.replace(old, new)] for a one-character [old]. *)
Definition replace_chr (old : N) (new : pystr) (s : pystr) : pystr :=
  flat_map (fun c => if chr_eqb c old then new else [c]) s.

(** Two decimal digits, as [%H], [%M], [%d], [%m] and [%y] print them. *)
Definition digit_chr (d : Z) : N := (48 + Z.to_N d)%N.
Definition two_digits (n : Z) : pystr := [digit_chr (n / 10 mod 10); digit_chr (n mod 10)].

(** ** The Python runtime *)

(** A [datetime.date]. *)
Record date := mk_date { year : Z; month : Z; day : Z }.

(** What the program uses of the Python runtime without defining it. *)
Class PyLib := {
  (** [s.lower()] *)
  str_lower : pystr -> pystr;
  (** [re.IGNORECASE] on a character class: whether a character matches the
      class when case is ignored. *)
  re_ignorecase : (N -> bool) -> N -> bool;
  (** the class [\d] of [re] *)
  re_digit : N -> bool;
  (** [difflib.SequenceMatcher(None, a, b).ratio()] *)
  seq_ratio : pystr -> pystr -> float;
  (** the date of [datetime.strptime(s, "%Y-%m-%d")], [None] where it raises
      [ValueError] *)
  strptime_ymd : pystr -> option date;
}.

(** ** Slot calendar *)

(** A [datetime.time] with zero seconds. *)
Record time := mk_time { hour : Z; minute : Z }.

(** The proleptic Gregorian calendar of [datetime]. *)
Definition is_leap (y : Z) : bool :=
  (y mod 4 =? 0) && (negb (y mod 100 =? 0) || (y mod 400 =? 0)).

Definition days_in_month (y m : Z) : Z :=
  if m =? 2 then (if is_leap y then 29 else 28)
  else if (m =? 4) || (m =? 6) || (m =? 9) || (m =? 11) then 30 else 31.

Definition days_before_year (y : Z) : Z :=
  let p := y - 1 in p * 365 + p / 4 - p / 100 + p / 400.

Definition days_before_month (y m : Z) : Z :=
  fold_right Z.add 0 (map (fun k => days_in_month y (Z.of_nat k)) (seq 1 (Z.to_nat (m - 1)))).

(** [d.toordinal()]: the days from 0001-01-01, that day being 1. *)
Definition toordinal (d : date) : Z :=
  days_before_year (year d) + days_before_month (year d) (month d) + day d.

(** [d.strftime("%d–%m–%y")] *)
Definition strftime_dmy (d : date) : pystr :=
  two_digits (day d) ++ u "–" ++ two_digits (month d) ++ u "–" ++ two_digits (year d mod 100).

(** A [datetime.datetime] with zero seconds, in the zone [TZ]: the ordinal
    of its date and its time of day. *)
Record datetime := mk_datetime { dt_date : Z; dt_time : time }.

(** The midnight [datetime] that [strptime] makes of a date. *)
Definition datetime_of_date (d : date) : datetime := mk_datetime (toordinal d) (mk_time 0 0).

(** Minutes since midnight; [time] values are ordered chronologically. *)
Definition time_minutes (t : time) : Z := hour t * 60 + minute t.
Definition time_leb (a b : time) : bool := time_minutes a <=? time_minutes b.
Definition time_ltb (a b : time) : bool := time_minutes a <? time_minutes b.

(** Minutes since the start of day 0; [datetime] values of one zone are
    ordered chronologically. *)
Definition dt_minutes (d : datetime) : Z := dt_date d * 1440 + time_minutes (dt_time d).
Definition dt_leb (a b : datetime) : bool := dt_minutes a <=? dt_minutes b.

(** [datetime.combine(d, t, tzinfo=TZ)] *)
Definition combine (d : Z) (t : time) : datetime := mk_datetime d t.

(** [dt + timedelta(minutes=n)] *)
Definition add_minutes (d : datetime) (n : Z) : datetime :=
  let total := dt_minutes d + n in
  let tod := total mod 1440 in
  mk_datetime (total / 1440) (mk_time (tod / 60) (tod mod 60)).

(** [t.strftime("%H:%M")] *)
Definition strftime_HM (t : time) : pystr :=
  two_digits (hour t) ++ chr ":" :: two_digits (minute t).

Definition SLOT_STEP_MIN : Z := 30.
Definition DAY_START : time := mk_time 10 0.
Definition DAY_END : time := mk_time 18 0.
Definition LUNCH_START : time := mk_time 13 0.
Definition LUNCH_END : time := mk_time 14 0.

(** A value with the proof that it is the value of [x], for the test of a
    loop to stay known in its body. *)
Definition inspect {A : Type} (x : A) : { y : A | x = y } := exist _ x eq_refl.

(** The [while cur <= end_dt] loop of [time_slots_for_date], from the
    state ([cur], [slots]). *)
Equations slots_loop (end_dt cur : datetime) (slots : list pystr) : list pystr
  by wf (Z.to_nat (dt_minutes end_dt + 1 - dt_minutes cur)) lt :=
slots_loop end_dt cur slots with inspect (dt_leb cur end_dt) := {
  | exist _ true Hle =>
      let t := dt_time cur in
      let slots' :=
        if negb (time_leb LUNCH_START t && time_ltb t LUNCH_END)
        then slots ++ [strftime_HM t] else slots in
      slots_loop end_dt (add_minutes cur SLOT_STEP_MIN) slots'
  | exist _ false _ => slots }.
Next Obligation.
  unfold dt_leb in Hle. apply Z.leb_le in Hle.
  assert (dt_minutes (add_minutes cur SLOT_STEP_MIN) = dt_minutes cur + 30) as ->.
  { unfold add_minutes, dt_minutes at 1, time_minutes at 1, SLOT_STEP_MIN. simpl.
    pose proof (Z.div_mod (dt_minutes cur + 30) 1440 ltac:(lia)).
    pose proof (Z.div_mod ((dt_minutes cur + 30) mod 1440) 60 ltac:(lia)). lia. }
  lia.
Qed.

Definition time_slots_for_date (dt : datetime) : list pystr :=
  let cur := combine (dt_date dt) DAY_START in
  let end_dt := combine (dt_date dt) DAY_END in
  let slots := slots_loop end_dt cur [] in
  List.filter (fun s => pystr_leb s (strftime_HM DAY_END)) slots.

(** ** The SQLite store *)

(** A row of [users]. *)
Record user_row := mk_user {
  u_id : Z; u_tg_id : Z;
  u_first_name : pystr; u_last_name : pystr; u_username : pystr; u_created_at : pystr }.

(** A row of [bookings]. *)
Record booking := mk_booking {
  b_id : Z; b_user_id : Z;
  b_full_name : pystr; b_phone : pystr; b_date : pystr; b_time : pystr;
  b_topic : pystr; b_status : pystr; b_created_at : pystr }.

(** A row of [faq], as [search_faq_answer] selects it. *)
Record faq_row := mk_faq { f_answer : pystr; f_tags : pystr }.

(** A row of [kb], which is also the dictionary [kb_all] makes of it. *)
Record kb_row := mk_kb {
  k_title : pystr; k_tags : pystr; k_content : pystr; k_lang : pystr }.

(** The tables behind [_conn]. [users_seq] and [bookings_seq] are the
    AUTOINCREMENT counters ([sqlite_sequence]). Every statement of the
    program is committed as soon as it succeeds, so the committed tables are
    the whole state. *)
Record db := mk_db {
  users : list user_row; users_seq : Z;
  bookings : list booking; bookings_seq : Z;
  faq : list faq_row;
  kb : list kb_row }.

Definition with_users (d : db) (us : list user_row) (seq : Z) : db :=
  mk_db us seq (bookings d) (bookings_seq d) (faq d) (kb d).

Definition with_bookings (d : db) (bs : list booking) (seq : Z) : db :=
  mk_db (users d) (users_seq d) bs seq (faq d) (kb d).

(** The rowid AUTOINCREMENT gives a new row: one more than every rowid the
    table has held. *)
Definition next_rowid (seq : Z) (ids : list Z) : Z :=
  fold_right Z.max seq ids + 1.

Definition CONFIRMED : pystr := u "confirmed".

(** [WHERE date=? AND time=?] *)
Definition at_slot (date_str time_str : pystr) (b : booking) : bool :=
  pystr_eqb (b_date b) date_str && pystr_eqb (b_time b) time_str.

(** [WHERE user_id=? AND date=? AND time=?] *)
Definition owned_at_slot (user_id : Z) (date_str time_str : pystr) (b : booking) : bool :=
  (b_user_id b =? user_id) && at_slot date_str time_str b.

(** [WHERE date=? AND status='confirmed'] *)
Definition confirmed_on (date_str : pystr) (b : booking) : bool :=
  pystr_eqb (b_date b) date_str && pystr_eqb (b_status b) CONFIRMED.

(** The constraints of the [bookings] table on a new row: [UNIQUE(date, time)]
    and, with [PRAGMA foreign_keys=ON], [FOREIGN KEY(user_id) REFERENCES
    users(id)]. *)
Definition unique_date_time_ok (d : db) (date_str time_str : pystr) : bool :=
  negb (existsb (at_slot date_str time_str) (bookings d)).

Definition foreign_key_ok (d : db) (user_id : Z) : bool :=
  existsb (fun r => u_id r =? user_id) (users d).

(** [INSERT INTO bookings(user_id, full_name, phone, date, time, topic,
    created_at) VALUES(?,?,?,?,?,?,?)]: the new table, or [None] for
    [sqlite3.IntegrityError]. [status] takes its default. *)
Definition insert_booking (d : db) (user_id : Z)
    (full_name phone date_str time_str topic created_at : pystr) : option db :=
  if unique_date_time_ok d date_str time_str && foreign_key_ok d user_id then
    let id := next_rowid (bookings_seq d) (map b_id (bookings d)) in
    Some (with_bookings d
            (bookings d ++
               [mk_booking id user_id full_name phone date_str time_str topic
                           CONFIRMED created_at])
            id)
  else None.

Definition MSG_CONFIRMED : pystr := u "Ваша запись подтверждена ✅".
Definition MSG_CONFLICT : pystr := u "Этот слот уже занят. Выберите другое время.".

(** [now] is the reading of [datetime.now(TZ).isoformat()]. *)
Definition create_booking (d : db) (now : pystr) (user_id : Z)
    (full_name phone date_str time_str topic : pystr) : db * (bool * pystr) :=
  match insert_booking d user_id full_name phone date_str time_str topic now with
  | Some d' => (d', (true, MSG_CONFIRMED))
  | None => (d, (false, MSG_CONFLICT))
  end.

(** [DELETE FROM bookings WHERE ...]: the rows left and [cur.rowcount]. *)
Definition delete_bookings (d : db) (where_ : booking -> bool) : db * Z :=
  (with_bookings d (List.filter (fun b => negb (where_ b)) (bookings d)) (bookings_seq d),
   len (List.filter where_ (bookings d))).

Definition cancel_booking (d : db) (user_id : Z) (date_str time_str : pystr) : db * bool :=
  let '(d', rowcount) := delete_bookings d (owned_at_slot user_id date_str time_str) in
  (d', 0 <? rowcount).

Definition cancel_booking_any (d : db) (date_str time_str : pystr) : db * bool :=
  let '(d', rowcount) := delete_bookings d (at_slot date_str time_str) in
  (d', 0 <? rowcount).

(** [upsert_user]: the id of the user's row, inserted when missing. *)
Definition upsert_user (d : db) (now : pystr) (tg_id : Z) (first last uname : pystr)
    : db * Z :=
  match List.find (fun r => u_tg_id r =? tg_id) (users d) with
  | Some r => (d, u_id r)
  | None =>
      let id := next_rowid (users_seq d) (map u_id (users d)) in
      (with_users d (users d ++ [mk_user id tg_id first last uname now]) id, id)
  end.

Section Bot.
Context `{PyLib}.

(** [available_slots]: [None] where [strptime] raises [ValueError]. *)
Definition available_slots (d : db) (date_str : pystr) : option (list pystr) :=
  match strptime_ymd date_str with
  | None => None
  | Some parsed =>
      let dt := datetime_of_date parsed in
      let all_slots := time_slots_for_date dt in
      let taken : gset pystr :=
        list_to_set (map b_time (List.filter (confirmed_on date_str) (bookings d))) in
      Some (List.filter (fun s => negb (bool_decide (s ∈ taken))) all_slots)
  end.

(** ** Retrieval ranking *)

(** The class [a-zа-я0-9ӘәҒғҚқҢңӨөҰұҮүҺһІі\s]. *)
Definition normalize_class (c : N) : bool :=
  in_range "a" "z" c || in_range "а" "я" c || in_range "0" "9" c
  || one_of "ӘәҒғҚқҢңӨөҰұҮүҺһІі" c || py_isspace c.

(** What the whitelist substitution makes of one character. *)
Definition keep_or_space (c : N) : N :=
  if re_ignorecase normalize_class c then c else SPACE.

Definition normalize (s : pystr) : pystr :=
  let s := str_lower s in
  let s := replace_chr (chr "ё") (u "е") s in
  let s := map keep_or_space s in
  strip (collapse_ws s).

(** [int * float] takes the integer as a [float], correctly rounded; the
    conversion is that of 63-bit integers, which covers every count of
    tokens a machine can hold. *)
Definition float_of_nat (n : nat) : float :=
  PrimFloat.of_uint63 (Uint63.of_Z (Z.of_nat n)).

(** [len(set(a.split()) & set(b.split()))] *)
Definition shared_tokens (a b : pystr) : nat :=
  let a_set : gset pystr := list_to_set (split a) in
  let b_set : gset pystr := list_to_set (split b) in
  size (a_set ∩ b_set).

(** [re.search] of an alternation of literals. *)
Definition re_search_any (alts : list string) (q : pystr) : bool :=
  existsb (fun a => contains (u a) q) alts.

Definition ANSWER_DORM : pystr :=
  u "Общежитие: условия, порядок заселения и стоимость — в разделе «🏨 Общежитие». Кратко: стоимость 36 000 ₸/мес; адрес — г. Алматы, Суюнбая 66–68; карта: https://go.2gis.com/z3c8o".
Definition ANSWER_GRANTS : pystr :=
  u "Гранты и скидки: гранты по ОП (Гостиничный бизнес, Маркетинг, Менеджмент, Программное обеспечение, Туризм); скидки — индивидуально по Положению. Подробнее — раздел «🎓 Гранты и скидки» или /book.".
Definition ANSWER_PRICE : pystr := u "Стоимость обучения: 950 000 ₸ за учебный год.".
Definition ANSWER_OPEN_DAY : pystr :=
  u "Дни открытых дверей: график — https://ccu.edu.kz/den-otkrytyx-dverej/ Регистрация: https://docs.google.com/forms/d/e/1FAIpQLSfyB6uCrHzA0Dqr8ymlM-KKtAQ2cGNCCE_e7ROVIAeyOYXGig/viewform".
Definition ANSWER_DEADLINES : pystr := u "Сроки приёма документов: с 25 июня по 25 августа.".

(** The priority routes of [search_faq_answer], in the order they are
    tried: the alternatives of each pattern and its answer. *)
Definition hard_routes : list (list string * pystr) :=
  [ (["общежит"], ANSWER_DORM);
    (["скидк"; "грант"], ANSWER_GRANTS);
    (["стоим"; "цена"; "оплат"], ANSWER_PRICE);
    (["дод"; "день открытых двер"; "открытых дверей"], ANSWER_OPEN_DAY);
    (["сроки"; "прием"; "приём"], ANSWER_DEADLINES) ].

(** The chain of [if re.search(...): return ...]. *)
Fixpoint first_route (routes : list (list string * pystr)) (q : pystr) : option pystr :=
  match routes with
  | [] => None
  | (alts, answer) :: rest =>
      if re_search_any alts q then Some answer else first_route rest q
  end.

(** The score of one FAQ row against the normalized query [q]. *)
Definition faq_score (q : pystr) (row : faq_row) : float :=
  let base := normalize (f_tags row) in
  let inter := shared_tokens q base in
  let sim := seq_ratio q base in
  (float_of_nat inter * 2.0 + sim)%float.

(** One turn of the [for answer, tags in cur.fetchall()] loop on the state
    ([best_answer], [best_score]). *)
Definition faq_step (q : pystr) (best : option pystr * float) (row : faq_row)
    : option pystr * float :=
  let score := faq_score q row in
  if (snd best <? score)%float then (Some (f_answer row), score) else best.

Definition FAQ_FLOOR : float := (-1e9)%float.
(** The binary64 value of the literal [0.9]. *)
Definition FAQ_THRESHOLD : float := 0x1.ccccccccccccdp-1%float.

Definition search_faq_answer (d : db) (user_text : pystr) : option pystr :=
  let q := normalize user_text in
  match first_route hard_routes q with
  | Some answer => Some answer
  | None =>
      let '(best_answer, best_score) := fold_left (faq_step q) (faq d) (None, FAQ_FLOOR) in
      if (FAQ_THRESHOLD <=? best_score)%float then best_answer else None
  end.

Definition kb_all (d : db) : list kb_row := kb d.

(** The [text] of an entry in [kb_search]. *)
Definition kb_text (it : kb_row) : pystr :=
  normalize (k_title it ++ u " " ++ k_tags it ++ u " " ++ slice_to 1500 (k_content it)).

(** The score [kb_search] gives an entry against the normalized query [q]. *)
Definition kb_score (q : pystr) (it : kb_row) : float :=
  let text := kb_text it in
  let inter := shared_tokens q text in
  let sim := seq_ratio q (slice_to 1000 text) in
  (float_of_nat inter * 1.5 + sim)%float.

(** [scored.sort(key=lambda x: x[0], reverse=True)]. [list.sort] is stable
    and compares keys with [<] only; on keys that [<] orders the result is
    the one arrangement by descending key that keeps equal keys in their
    order, which insertion from the right computes. *)
Fixpoint insert_desc {A} (x : float * A) (l : list (float * A)) : list (float * A) :=
  match l with
  | [] => [x]
  | y :: l' => if (fst x <? fst y)%float then y :: insert_desc x l' else x :: l
  end.

Definition sort_desc {A} (l : list (float * A)) : list (float * A) :=
  fold_right insert_desc [] l.

(** [l[:k]] for an [int] [k]: a negative [k] counts from the end. *)
Definition slice_to_int {A} (k : Z) (l : list A) : list A :=
  if k <? 0 then firstn (Z.to_nat (len l + k)) l else firstn (Z.to_nat k) l.

Definition kb_search (d : db) (query : pystr) (topk : Z) : list kb_row :=
  let q := normalize query in
  let items := kb_all d in
  let scored := map (fun it => (kb_score q it, it)) items in
  let scored := sort_desc scored in
  map snd (slice_to_int topk scored).

(** ** The booking dialogue *)

(** The states of [BookingFSM] and [OnboardingFSM]. *)
Inductive fsm_state :=
| choosing_date | choosing_time | entering_name | entering_phone
| entering_topic | confirm
| ob_name | ob_phone.

(** The [FSMContext] of one user: the state tag ([None] when cleared) and
    the data dictionary. *)
Record session := mk_session {
  s_state : option fsm_state;
  s_data : gmap string pystr }.

Record button := mk_button { btn_text : pystr; btn_callback_data : pystr }.

(** An [InlineKeyboardMarkup], by its rows. *)
Definition keyboard : Type := list (list button).

(** What [m.answer] sends. *)
Record reply := mk_reply { r_text : pystr; r_markup : option keyboard }.

(** An incoming [Message]: its text and its sender. *)
Record message := mk_message {
  m_text : option pystr;
  m_from_id : Z;
  m_first_name : option pystr;
  m_last_name : option pystr;
  m_username : option pystr }.

(** [x or ""] *)
Definition or_empty (x : option pystr) : pystr := default [] x.

(** What a handler works on: the store, the user's session and the replies
    sent so far. *)
Record world := mk_world {
  w_db : db;
  w_session : session;
  w_sent : list reply }.

Inductive exn :=
| KeyError (key : string)
| ValueError.

(** A handler either returns or raises; what it did before raising stays
    done. *)
Definition M (A : Type) : Type := world -> (exn + A) * world.

#[local] Instance M_ret : MRet M := fun A a w => (inr a, w).
#[local] Instance M_bind : MBind M := fun A B f m w =>
  match m w with
  | (inr a, w') => f a w'
  | (inl e, w') => (inl e, w')
  end.

Definition raise {A} (e : exn) : M A := fun w => (inl e, w).

(** [await state.get_data()] *)
Definition get_data : M (gmap string pystr) := fun w => (inr (s_data (w_session w)), w).

(** [await state.update_data(key=value)] *)
Definition update_data (key : string) (value : pystr) : M unit := fun w =>
  (inr tt,
   mk_world (w_db w)
            (mk_session (s_state (w_session w)) (<[key := value]> (s_data (w_session w))))
            (w_sent w)).

(** [await state.set_state(st)] *)
Definition set_state (st : fsm_state) : M unit := fun w =>
  (inr tt, mk_world (w_db w) (mk_session (Some st) (s_data (w_session w))) (w_sent w)).

(** [await state.clear()] *)
Definition state_clear : M unit := fun w =>
  (inr tt, mk_world (w_db w) (mk_session None ∅) (w_sent w)).

(** [await m.answer(text, reply_markup=markup)] *)
Definition answer (text : pystr) (markup : option keyboard) : M unit := fun w =>
  (inr tt, mk_world (w_db w) (w_session w) (w_sent w ++ [mk_reply text markup])).

(** A function of the store, run on the handler's store. *)
Definition on_db {A} (f : db -> db * A) : M A := fun w =>
  let '(d', a) := f (w_db w) in (inr a, mk_world d' (w_session w) (w_sent w)).

(** [data[key]] *)
Definition getitem (data : gmap string pystr) (key : string) : M pystr :=
  match data !! key with
  | Some v => mret v
  | None => raise (KeyError key)
  end.

(** [html_escape]: [(text or "")] with [&], [<] and [>] replaced, in that
    order. *)
Definition html_escape (text : option pystr) : pystr :=
  replace_chr (chr ">") (u "&gt;")
    (replace_chr (chr "<") (u "&lt;")
       (replace_chr (chr "&") (u "&amp;") (or_empty text))).

(** [f"{x}"] of an optional string. *)
Definition fmt_opt (x : option pystr) : pystr := default (u "None") x.

(** [fmt_user_date]: what cannot be read as a date is returned as it is. *)
Definition fmt_user_date (date_str : option pystr) : option pystr :=
  match date_str with
  | None => None
  | Some s =>
      match strptime_ymd s with
      | Some parsed => Some (strftime_dmy parsed)
      | None => Some s
      end
  end.

Definition BACK_TO_DATES : button := mk_button (u "⬅️ Назад к датам") (u "back_to_dates").

(** The [for s in slots] loop of [times_inline_kb] on ([rows], [row]). *)
Definition times_kb_step (date_str : pystr) (acc : keyboard * list button) (s : pystr)
    : keyboard * list button :=
  let '(rows, row) := acc in
  let row := row ++ [mk_button s (u "pick_time:" ++ date_str ++ u ":" ++ s)] in
  if len row =? 3 then (rows ++ [row], []) else (rows, row).

(** [times_inline_kb]: the free slots of the date, three to a row, and the
    way back to the dates. *)
Definition times_inline_kb (date_str : pystr) : M keyboard := fun w =>
  match available_slots (w_db w) date_str with
  | None => (inl ValueError, w)
  | Some [] =>
      (inr [ [mk_button (u "Нет свободных слотов") (u "noop")]; [BACK_TO_DATES] ], w)
  | Some slots =>
      let '(rows, row) := fold_left (times_kb_step date_str) slots ([], []) in
      let rows := match row with [] => rows | _ => rows ++ [row] end in
      (inr (rows ++ [[BACK_TO_DATES]]), w)
  end.

Definition cancel_booking_kb (date_str time_str : pystr) : keyboard :=
  [ [mk_button (u "❌ Отменить запись") (u "cancel:" ++ date_str ++ u ":" ++ time_str)] ].

Definition upsert_sender (now : pystr) (m : message) : M Z :=
  on_db (fun d => upsert_user d now (m_from_id m) (or_empty (m_first_name m))
                    (or_empty (m_last_name m)) (or_empty (m_username m))).

Definition PROMPT_FULL_NAME : pystr := u "Пожалуйста, укажите полное ФИО.".
Definition PROMPT_PHONE : pystr := u "Укажите Ваш телефон (например: +77001234567):".
Definition PROMPT_BAD_PHONE : pystr := u "Похоже на некорректный номер. Пример: +77001234567".
Definition PROMPT_TOPIC : pystr := u "Кратко опишите тему консультации:".
Definition PROMPT_SHORT_TOPIC : pystr := u "Нужно хотя бы 3 символа. Уточните тему:".
Definition PROMPT_YES_NO : pystr := u "Пожалуйста, ответьте «Да» или «Нет» 🙂".
Definition PROMPT_OTHER_TIME : pystr := u "Выберите другое время:".
Definition MSG_CANCEL_HINT : pystr :=
  u "Если планы изменятся — нажмите кнопку, чтобы отменить запись:".
Definition MSG_DECLINED : pystr :=
  u "Запись отменена. При необходимости начните заново: /book".
Definition PROMPT_OB_FULL_NAME : pystr :=
  u "Пожалуйста, укажите ФИО полностью (например: Иванов Иван Иванович).".
Definition PROMPT_OB_PHONE : pystr :=
  u "Укажите <b>Ваш номер телефона</b> (например: +77001234567) или нажмите кнопку ниже:".

Definition fsm_enter_name (m : message) : M unit :=
  let full_name := strip (or_empty (m_text m)) in
  if len full_name <? 5 then answer PROMPT_FULL_NAME None
  else
    update_data "full_name" full_name ;;
    set_state entering_phone ;;
    answer PROMPT_PHONE None.

(** [re.sub(r"[^\d+]", "", text)] *)
Definition phone_chars (text : pystr) : pystr :=
  List.filter (fun c => re_digit c || chr_eqb c (chr "+")) text.

(** [\d{10,15}$] on a string of digits and [+]. *)
Definition digits_10_15 (s : pystr) : bool :=
  forallb re_digit s && (10 <=? len s) && (len s <=? 15).

(** [re.match(r"^\+?\d{10,15}$", phone)]: with the [+] taken, or without. *)
Definition phone_match (phone : pystr) : bool :=
  match phone with
  | c :: rest => (chr_eqb c (chr "+") && digits_10_15 rest) || digits_10_15 phone
  | [] => digits_10_15 phone
  end.

Definition fsm_enter_phone (m : message) : M unit :=
  let phone := phone_chars (or_empty (m_text m)) in
  if negb (phone_match phone) then answer PROMPT_BAD_PHONE None
  else
    update_data "phone" phone ;;
    set_state entering_topic ;;
    answer PROMPT_TOPIC None.

Definition confirm_prompt (data : gmap string pystr) : pystr :=
  u "<b>Подтвердите запись</b>" ++ [10; 10]%N
  ++ u "Дата: " ++ fmt_opt (fmt_user_date (data !! "date")) ++ [10]%N
  ++ u "Время: " ++ fmt_opt (data !! "time") ++ [10]%N
  ++ u "ФИО: " ++ html_escape (data !! "full_name") ++ [10]%N
  ++ u "Телефон: " ++ html_escape (data !! "phone") ++ [10]%N
  ++ u "Тема: " ++ html_escape (data !! "topic") ++ [10; 10]%N
  ++ u "Напишите <b>Да</b> или <b>Нет</b>.".

Definition fsm_enter_topic (m : message) : M unit :=
  let topic := strip (or_empty (m_text m)) in
  if len topic <? 3 then answer PROMPT_SHORT_TOPIC None
  else
    update_data "topic" topic ;;
    data ← get_data ;
    set_state confirm ;;
    answer (confirm_prompt data) None.

Definition YES_WORDS : list pystr := [u "да"; u "yes"; u "иә"].
Definition NO_WORDS : list pystr := [u "нет"; u "no"; u "жоқ"].

Definition fsm_confirm (now : pystr) (m : message) : M unit :=
  let ans := str_lower (strip (or_empty (m_text m))) in
  if pystr_in ans YES_WORDS then
    data ← get_data ;
    user_db_id ← upsert_sender now m ;
    full_name ← getitem data "full_name" ;
    phone ← getitem data "phone" ;
    date_str ← getitem data "date" ;
    time_str ← getitem data "time" ;
    topic ← getitem data "topic" ;
    '(ok, msg) ← on_db (fun d =>
                   create_booking d now user_db_id full_name phone date_str time_str topic) ;
    answer msg None ;;
    if ok : bool then
      answer MSG_CANCEL_HINT (Some (cancel_booking_kb date_str time_str)) ;;
      state_clear
    else
      set_state choosing_time ;;
      kb ← times_inline_kb date_str ;
      answer PROMPT_OTHER_TIME (Some kb)
  else if pystr_in ans NO_WORDS then
    state_clear ;;
    answer MSG_DECLINED None
  else answer PROMPT_YES_NO None.

(** The name step of the onboarding dialogue. Its reply keyboard (a
    share-contact button) is not an inline keyboard and is left out. *)
Definition ob_enter_name (m : message) : M unit :=
  let full_name := strip (or_empty (m_text m)) in
  if (len (split full_name) <? 2) || (len full_name <? 5)
  then answer PROMPT_OB_FULL_NAME None
  else
    update_data "full_name" full_name ;;
    set_state ob_phone ;;
    answer PROMPT_OB_PHONE None.

(** The handler registered for a text message in each state of the booking
    dialogue that takes one. (The bot's commands and menu buttons have
    handlers of their own, registered before these: they start or leave
    the dialogue and are not inputs of it; [route] has the order.) *)
Definition booking_handler (now : pystr) (st : fsm_state) : option (message -> M unit) :=
  match st with
  | entering_name => Some fsm_enter_name
  | entering_phone => Some fsm_enter_phone
  | entering_topic => Some fsm_enter_topic
  | confirm => Some (fsm_confirm now)
  | _ => None
  end.

(** One text message of the dialogue: the handler of the current state runs
    on it, and the world it leaves is kept, also when it raises. In a state
    with no such handler a text is not an input of the dialogue ([None]).
    A message the router gives to an earlier handler is not one either: it
    is [on_message] that follows the router. *)
Definition dialogue_step (now : pystr) (w : world) (m : message) : option world :=
  match s_state (w_session w) with
  | Some st =>
      match booking_handler now st with
      | Some handler => Some (snd (handler m w))
      | None => None
      end
  | None => None
  end.

(** The messages [ms], one after the other. *)
Definition dialogue_run (now : pystr) (ms : list message) (w : world) : option world :=
  fold_left (fun ow m => match ow with
                         | Some w' => dialogue_step now w' m
                         | None => None
                         end) ms (Some w).

(** The inputs a state of the booking dialogue rejects. *)
Definition valid_phone (phone : pystr) : Prop :=
  exists digits, (phone = digits \/ phone = chr "+" :: digits)
                 /\ Forall (fun c => re_digit c = true) digits
                 /\ 10 <= len digits <= 15.

Definition invalid_input (st : fsm_state) (m : message) : Prop :=
  let text := or_empty (m_text m) in
  match st with
  | entering_name => len (strip text) < 5
  | entering_phone => ~ valid_phone (phone_chars text)
  | entering_topic => len (strip text) < 3
  | confirm =>
      ~ In (str_lower (strip text)) YES_WORDS /\ ~ In (str_lower (strip text)) NO_WORDS
  | _ => False
  end.

End Bot.

(** ** Listings *)

(** [ORDER BY] on one or two [TEXT] columns: the rows in ascending order of
    their keys, which SQLite compares by code point. Rows with equal keys
    are kept in table order; under [UNIQUE(date, time)] the listings below
    have none. *)
Fixpoint insert_by {A} (leb : A -> A -> bool) (x : A) (l : list A) : list A :=
  match l with
  | [] => [x]
  | y :: l' => if leb x y then x :: l else y :: insert_by leb x l'
  end.

Definition order_by {A} (leb : A -> A -> bool) (l : list A) : list A :=
  fold_right (insert_by leb) [] l.

(** [ORDER BY date, time] and [ORDER BY time] on rows of [bookings]. *)
Definition date_time_leb (a b : booking) : bool :=
  if pystr_eqb (b_date a) (b_date b) then pystr_leb (b_time a) (b_time b)
  else pystr_leb (b_date a) (b_date b).

Definition time_only_leb (a b : booking) : bool := pystr_leb (b_time a) (b_time b).

(** The dictionaries [list_bookings_for_user] returns. *)
Record user_item := mk_user_item {
  ui_date : pystr; ui_time : pystr; ui_topic : pystr; ui_status : pystr }.

Definition list_bookings_for_user (d : db) (user_id : Z) : list user_item :=
  map (fun b => mk_user_item (b_date b) (b_time b) (b_topic b) (b_status b))
    (order_by date_time_leb (List.filter (fun b => b_user_id b =? user_id) (bookings d))).

(** The dictionaries [all_bookings_for_date] returns. *)
Record admin_item := mk_admin_item {
  ai_full_name : pystr; ai_phone : pystr; ai_time : pystr; ai_topic : pystr;
  ai_status : pystr }.

Definition all_bookings_for_date (d : db) (date_str : pystr) : list admin_item :=
  map (fun b => mk_admin_item (b_full_name b) (b_phone b) (b_time b) (b_topic b) (b_status b))
    (order_by time_only_leb (List.filter (fun b => pystr_eqb (b_date b) date_str) (bookings d))).

(** ** Keyboards of the administrator *)

Section Admin.
Context `{PyLib}.

(** The [for it in items] loop of [_admin_cancel_kb] on ([rows], [row]). *)
Definition admin_kb_step (date_str : pystr) (acc : keyboard * list button) (it : admin_item)
    : keyboard * list button :=
  let '(rows, row) := acc in
  let t := ai_time it in
  let row := row ++ [mk_button (u "❌ " ++ t) (u "admin_cancel:" ++ date_str ++ u ":" ++ t)] in
  if len row =? 3 then (rows ++ [row], []) else (rows, row).

(** [_admin_cancel_kb]: one button for each booking listed, three to a row. *)
Definition _admin_cancel_kb (date_str : pystr) (items : list admin_item) : keyboard :=
  let '(rows, row) := fold_left (admin_kb_step date_str) items ([], []) in
  match row with [] => rows | _ => rows ++ [row] end.

End Admin.

(** ** The dates offered *)

Definition WORK_DAYS_AHEAD : Z := 14.

(** [date.fromordinal(n)], as [datetime] computes it: the 400-, 100-,
    4- and 1-year cycles before day [n], then the month and the day. *)
Definition fromordinal (n : Z) : date :=
  let n := n - 1 in
  let n400 := n / 146097 in
  let n := n mod 146097 in
  let n100 := n / 36524 in
  let n := n mod 36524 in
  let n4 := n / 1461 in
  let n := n mod 1461 in
  let n1 := n / 365 in
  let n := n mod 365 in
  let y := n400 * 400 + 1 + n100 * 100 + n4 * 4 + n1 in
  if (n1 =? 4) || (n100 =? 4) then mk_date (y - 1) 12 31
  else
    let month := (n + 50) / 32 in
    let preceding := days_before_month y month in
    if n <? preceding
    then mk_date y (month - 1) (n - (preceding - days_in_month y (month - 1)) + 1)
    else mk_date y month (n - preceding + 1).

(** [d + timedelta(days=n)], where the result is a date of the years 1 to
    9999 (Python raises [OverflowError] outside of them). *)
Definition date_plus_days (d : date) (n : Z) : date := fromordinal (toordinal d + n).

(** [d.weekday()]: Monday is 0, Sunday 6. *)
Definition weekday (d : date) : Z := (toordinal d + 6) mod 7.

(** [d.isoformat()] *)
Definition four_digits (n : Z) : pystr :=
  [digit_chr (n / 1000 mod 10); digit_chr (n / 100 mod 10);
   digit_chr (n / 10 mod 10); digit_chr (n mod 10)].

Definition isoformat (d : date) : pystr :=
  four_digits (year d) ++ chr "-" :: two_digits (month d) ++ chr "-" :: two_digits (day d).

(** [range(n)] *)
Definition range (n : Z) : list Z := map Z.of_nat (seq 0 (Z.to_nat n)).

(** [upcoming_dates]: [today] is [datetime.now(TZ).date()]. *)
Definition upcoming_dates (today : date) : list pystr :=
  map isoformat
    (List.filter (fun day => weekday day <? 6)
       (map (date_plus_days today) (range WORK_DAYS_AHEAD))).

(** [date.max.toordinal()], the ordinal of 9999-12-31. *)
Definition MAX_ORDINAL : Z := 3652059.

(** The days [upcoming_dates] looks at are dates of [datetime]. *)
Definition dates_in_range (today : date) : Prop :=
  1 <= toordinal today /\ toordinal today + (WORK_DAYS_AHEAD - 1) <= MAX_ORDINAL.

(** [d.strftime("%a %d.%m")], the weekday abbreviated as the C locale has
    it (the program sets no other). *)
Definition strftime_a (wd : Z) : pystr :=
  nth (Z.to_nat wd) (map u ["Mon"; "Tue"; "Wed"; "Thu"; "Fri"; "Sat"; "Sun"]%string) [].

Definition strftime_a_dm (d : date) : pystr :=
  strftime_a (weekday d) ++ u " " ++ two_digits (day d) ++ u "."
  ++ two_digits (month d).

Section Dates.
Context `{PyLib}.

(** [dates_inline_kb]: one row for each date offered; [None] where
    [strptime] raises [ValueError]. *)
Definition dates_inline_kb (today : date) : option keyboard :=
  mapM (fun d => parsed ← strptime_ymd d ;
                 Some [mk_button (strftime_a_dm parsed) (u "pick_date:" ++ d)])
    (upcoming_dates today).

End Dates.

(** ** Profiles *)

(** A row of [user_profiles] (its [id] column is never read). The text
    columns can hold [NULL]. *)
Record profile_row := mk_profile {
  p_tg_id : Z; p_full_name : option pystr; p_phone : option pystr; p_created_at : pystr }.

(** The dictionary [get_profile] returns. *)
Record profile := mk_profile_dict { pf_full_name : pystr; pf_phone : pystr }.

Definition get_profile (ps : list profile_row) (tg_id : Z) : option profile :=
  match List.find (fun r => p_tg_id r =? tg_id) ps with
  | None => None
  | Some r => Some (mk_profile_dict (or_empty (p_full_name r)) (or_empty (p_phone r)))
  end.

(** [save_profile]: [INSERT ... ON CONFLICT(tg_id) DO UPDATE SET full_name,
    phone]; the row in conflict keeps its [created_at]. *)
Definition save_profile (ps : list profile_row) (now : pystr) (tg_id : Z)
    (full_name phone : pystr) : list profile_row :=
  if existsb (fun r => p_tg_id r =? tg_id) ps
  then map (fun r => if p_tg_id r =? tg_id
                     then mk_profile tg_id (Some full_name) (Some phone) (p_created_at r)
                     else r) ps
  else ps ++ [mk_profile tg_id (Some full_name) (Some phone) now].

(** ** Callback queries *)

(** The first [sep] of [s]: what is before it and what is after it. *)
Fixpoint partition_at (sep : N) (s : pystr) : pystr * option pystr :=
  match s with
  | [] => ([], None)
  | c :: r =>
      if chr_eqb c sep then ([], Some r)
      else let '(pre, rest) := partition_at sep r in (c :: pre, rest)
  end.

(** [s.split(sep, maxsplit)] for a one-character [sep]: at most [maxsplit]
    cuts, made from the left. *)
Fixpoint split_sep (sep : N) (maxsplit : nat) (s : pystr) : list pystr :=
  match maxsplit with
  | O => [s]
  | S k =>
      match partition_at sep s with
      | (pre, None) => [pre]
      | (pre, Some rest) => pre :: split_sep sep k rest
      end
  end.

(** An incoming [CallbackQuery]: the data of the button pressed and who
    pressed it. *)
Record callback := mk_callback {
  c_data : pystr;
  c_from_id : Z;
  c_first_name : option pystr;
  c_last_name : option pystr;
  c_username : option pystr }.

(** What a callback handler does to the chat: send a message, replace the
    text and keyboard of the message the button belongs to, or answer the
    query (with an alert or without). *)
Inductive action :=
| Sent (r : reply)
| Edited (r : reply)
| Answered (text : option pystr) (show_alert : bool).

(** What a callback handler works on: the store with the profiles, the
    user's session, and what was done to the chat so far. *)
Record cworld := mk_cworld {
  cw_db : db;
  cw_profiles : list profile_row;
  cw_session : session;
  cw_acts : list action }.

Definition CM (A : Type) : Type := cworld -> (exn + A) * cworld.

#[local] Instance CM_ret : MRet CM := fun A a w => (inr a, w).
#[local] Instance CM_bind : MBind CM := fun A B f m w =>
  match m w with
  | (inr a, w') => f a w'
  | (inl e, w') => (inl e, w')
  end.

Definition craise {A} (e : exn) : CM A := fun w => (inl e, w).

(** A message handler's step, run in a callback handler: on the same store
    and session, its replies being messages sent. *)
Definition lift {A} (m : M A) : CM A := fun cw =>
  let '(r, w) := m (mk_world (cw_db cw) (cw_session cw) []) in
  (r, mk_cworld (w_db w) (cw_profiles cw) (w_session w)
        (cw_acts cw ++ map Sent (w_sent w))).

Definition act (a : action) : CM unit := fun cw =>
  (inr tt, mk_cworld (cw_db cw) (cw_profiles cw) (cw_session cw) (cw_acts cw ++ [a])).

(** [await c.message.edit_text(text, reply_markup=markup)] *)
Definition edit_text (text : pystr) (markup : option keyboard) : CM unit :=
  act (Edited (mk_reply text markup)).

(** [await c.answer(text, show_alert=alert)] *)
Definition c_answer (text : option pystr) (alert : bool) : CM unit :=
  act (Answered text alert).

(** [_, a = parts] and [_, a, b = parts] *)
Definition unpack2 (parts : list pystr) : CM pystr :=
  match parts with
  | [_; a] => mret a
  | _ => craise ValueError
  end.

Definition unpack3 (parts : list pystr) : CM (pystr * pystr) :=
  match parts with
  | [_; a; b] => mret (a, b)
  | _ => craise ValueError
  end.

Definition COLON : N := chr ":".

(** [sep.join(parts)] *)
Fixpoint join_with (sep : pystr) (parts : list pystr) : pystr :=
  match parts with
  | [] => []
  | [p] => p
  | p :: rest => p ++ sep ++ join_with sep rest
  end.

(** [x or dflt] on an optional string. *)
Definition or_else (x : option pystr) (dflt : pystr) : pystr :=
  match x with
  | Some (c :: r) => c :: r
  | _ => dflt
  end.

(** [prof and prof.get("full_name") and prof.get("phone")] *)
Definition profile_filled (prof : option profile) : bool :=
  match prof with
  | Some p => negb (len (pf_full_name p) =? 0) && negb (len (pf_phone p) =? 0)
  | None => false
  end.

(** [$] of [re] matches at the end and before a newline that ends the
    string. *)
Definition before_final_newline (s : pystr) : pystr :=
  match rev s with
  | c :: r => if chr_eqb c 10%N then rev r else s
  | [] => s
  end.

Section Callbacks.
Context `{PyLib}.
#[local] Existing Instance M_ret.
#[local] Existing Instance M_bind.

(** The administrators, as the environment names them. *)
Variable ADMIN_IDS : list Z.

Definition is_admin (user_id : Z) : bool := existsb (Z.eqb user_id) ADMIN_IDS.

Definition cb_pick_date (c : callback) : CM unit :=
  date_str ← unpack2 (split_sep COLON 1 (c_data c)) ;
  lift (update_data "date" date_str) ;;
  lift (set_state choosing_time) ;;
  let text := u "<b>Дата:</b> " ++ fmt_opt (fmt_user_date (Some date_str)) ++ [10]%N
              ++ u "Выберите время:" in
  kb ← lift (times_inline_kb date_str) ;
  edit_text text (Some kb) ;;
  c_answer None false.

(** [get_profile(tg_id)] in a handler. *)
Definition read_profile (tg_id : Z) : CM (option profile) := fun cw =>
  (inr (get_profile (cw_profiles cw) tg_id), cw).

Definition cb_pick_time (c : callback) : CM unit :=
  '(date_str, time_str) ← unpack3 (split_sep COLON 2 (c_data c)) ;
  lift (update_data "time" time_str) ;;
  lift (update_data "date" date_str) ;;
  prof ← read_profile (c_from_id c) ;
  let head := u "<b>Дата:</b> " ++ fmt_opt (fmt_user_date (Some date_str)) ++ [10]%N
              ++ u "<b>Время:</b> " ++ time_str ++ [10; 10]%N in
  let ask_name :=
    lift (set_state entering_name) ;;
    edit_text (head ++ u "Введите Ваши ФИО сообщением:") None in
  match prof with
  | Some p =>
      if profile_filled prof then
        lift (update_data "full_name" (pf_full_name p)) ;;
        lift (update_data "phone" (pf_phone p)) ;;
        lift (set_state entering_topic) ;;
        edit_text (head ++ u "Кратко опишите тему консультации:") None
      else ask_name
  | None => ask_name
  end ;;
  c_answer None false.

Definition MSG_CANCELLED : pystr := u "Ваша запись отменена.".
Definition MSG_NOT_CANCELLED : pystr := u "Не удалось отменить (возможно, уже отменена).".

Definition cb_cancel (now : pystr) (c : callback) : CM unit :=
  '(d, t) ← unpack3 (split_sep COLON 2 (c_data c)) ;
  user_db_id ← lift (on_db (fun s => upsert_user s now (c_from_id c)
                               (or_empty (c_first_name c)) (or_empty (c_last_name c))
                               (or_empty (c_username c)))) ;
  ok ← lift (on_db (fun s => cancel_booking s user_db_id d t)) ;
  edit_text (if ok : bool then MSG_CANCELLED else MSG_NOT_CANCELLED) None ;;
  c_answer None false.

(** [_format_admin_list_text] *)
Definition _format_admin_list_text (date_str : pystr) (items : list admin_item) : pystr :=
  match items with
  | [] => u "На " ++ date_str ++ u " записей нет."
  | _ =>
      let line it :=
        ai_time it ++ u " — " ++ html_escape (Some (ai_full_name it))
        ++ u " (" ++ html_escape (Some (ai_phone it)) ++ u ") — "
        ++ html_escape (Some (ai_topic it)) ++ u " [" ++ ai_status it ++ u "]" in
      u "<b>Записи на " ++ date_str ++ u "</b>" ++ [10]%N
      ++ join_with [10]%N (map line items)
  end.

Definition ALERT_ADMINS_ONLY : pystr := u "Только для администраторов.".
Definition ALERT_BAD_DATA : pystr := u "Некорректные данные.".
Definition ALERT_NOT_FOUND : pystr := u "Бронь не найдена или уже отменена.".

(** [cb_admin_cancel]. [edit_ok] tells whether Telegram accepts the edit of
    the list; the handler sends the list as a new message when it does
    not. *)
Definition cb_admin_cancel (edit_ok : bool) (c : callback) : CM unit :=
  if negb (is_admin (c_from_id c)) then c_answer (Some ALERT_ADMINS_ONLY) true
  else
    match split_sep COLON 2 (c_data c) with
    | [_; d; t] =>
        ok ← lift (on_db (fun s => cancel_booking_any s d t)) ;
        (if ok : bool then c_answer (Some (u "Отменено: " ++ d ++ u " " ++ t)) false
         else c_answer (Some ALERT_NOT_FOUND) true) ;;
        items ← lift (on_db (fun s => (s, all_bookings_for_date s d))) ;
        let text := _format_admin_list_text d items in
        let kb := match items with [] => None | _ => Some (_admin_cancel_kb d items) end in
        if edit_ok then edit_text text kb
        else act (Sent (mk_reply text kb))
    | _ => c_answer (Some ALERT_BAD_DATA) true
    end.

(** [_parse_date_arg] *)
Definition _parse_date_arg (s : option pystr) : option pystr :=
  match s with
  | None | Some [] => None
  | Some s =>
      match strptime_ymd (strip s) with
      | Some d => Some (isoformat d)
      | None => None
      end
  end.

Definition MSG_ADMINS_ONLY : pystr := u "Команда только для администраторов.".

(** [cmd_list]: [args] is [command.args], [today] the date of
    [datetime.now(TZ)]. *)
Definition cmd_list (today : date) (args : option pystr) (m : message) : M unit :=
  if negb (is_admin (m_from_id m)) then answer MSG_ADMINS_ONLY None
  else
    let arg_date := _parse_date_arg (Some (strip (or_empty args))) in
    let date_str := or_else arg_date (isoformat today) in
    items ← on_db (fun s => (s, all_bookings_for_date s date_str)) ;
    let text := _format_admin_list_text date_str items in
    let kb := match items with [] => None | _ => Some (_admin_cancel_kb date_str items) end in
    answer text kb.

Definition PROMPT_PICK_DATE : pystr :=
  u "<b>Выберите дату консультации</b> (ближайшие 2 недели):".

(** [dates_inline_kb()] in a handler. *)
Definition dates_kb (today : date) : M keyboard := fun w =>
  match dates_inline_kb today with
  | Some kb => (inr kb, w)
  | None => (inl ValueError, w)
  end.

Definition cmd_book (today : date) (m : message) : M unit :=
  state_clear ;;
  set_state choosing_date ;;
  kb ← dates_kb today ;
  answer PROMPT_PICK_DATE (Some kb).

Definition cb_back_dates (today : date) (c : callback) : CM unit :=
  lift (set_state choosing_date) ;;
  kb ← lift (dates_kb today) ;
  edit_text PROMPT_PICK_DATE (Some kb) ;;
  c_answer None false.

(** [cmd_mybookings] *)
Definition MSG_NO_BOOKINGS : pystr :=
  u "У Вас пока нет записей. Используйте /book, чтобы выбрать дату и время.".

Definition cmd_mybookings (now : pystr) (m : message) : M unit :=
  user_db_id ← upsert_sender now m ;
  items ← on_db (fun s => (s, list_bookings_for_user s user_db_id)) ;
  match items with
  | [] => answer MSG_NO_BOOKINGS None
  | _ =>
      let line it :=
        u "• " ++ fmt_opt (fmt_user_date (Some (ui_date it))) ++ u " " ++ ui_time it
        ++ u " — " ++ html_escape (Some (or_else (Some (ui_topic it)) (u "консультация")))
        ++ u " (" ++ ui_status it ++ u ")" in
      answer (u "<b>Мои записи</b>" ++ [10]%N ++ join_with [10]%N (map line items)) None
  end.

(** *** Onboarding *)

Definition MSG_ASK_NAME (first_name : option pystr) : pystr :=
  u "Здравствуйте, " ++ html_escape (Some (or_else first_name (u "Гость"))) ++ u "!"
  ++ [10; 10]%N
  ++ u "Я — виртуальный помощник приёмной комиссии <b>Колледжа Каспийского университета</b>."
  ++ [10; 10]%N
  ++ u "Перед началом диалога укажите, пожалуйста, <b>Ваши ФИО</b> (например: Иванов Иван Иванович):".

Definition MSG_SERVICES : pystr :=
  u "<b>Колледжа Каспийского университета</b>." ++ [10]%N
  ++ u "• Отвечаю на вопросы о программах и поступлении" ++ [10]%N
  ++ u "• Помогаю записаться на консультацию" ++ [10]%N
  ++ u "• Даю контакты и список документов" ++ [10; 10]%N.

Definition MSG_WELCOME : pystr :=
  u "Здравствуйте! Я — виртуальный помощник приёмной комиссии " ++ MSG_SERVICES
  ++ u "Чем могу помочь? /help".

Definition MSG_SAVED : pystr :=
  u "Спасибо! Данные сохранены ✅" ++ [10; 10]%N
  ++ u "Я — виртуальный помощник приёмной комиссии " ++ MSG_SERVICES
  ++ u "Чем могу помочь?".

(** [cmd_start]. Its reply keyboards are not inline keyboards and are left
    out, as in [ob_enter_name]. *)
Definition cmd_start (now : pystr) (m : message) : CM unit :=
  lift (upsert_sender now m) ;;
  prof ← read_profile (m_from_id m) ;
  if negb (profile_filled prof) then
    lift state_clear ;;
    lift (set_state ob_name) ;;
    lift (answer (MSG_ASK_NAME (m_first_name m)) None)
  else lift (answer MSG_WELCOME None).

(** [re.match(r"^\+?\d{10,15}$", phone)] on any string. *)
Definition re_phone (phone : pystr) : bool :=
  phone_match phone || phone_match (before_final_newline phone).

(** [ob_enter_phone]: [contact] is [m.contact.phone_number] when the
    message carries a contact. *)
Definition ob_enter_phone (now : pystr) (contact : option pystr) (m : message) : CM unit :=
  let phone :=
    match contact with
    | Some (c :: r) => c :: r
    | _ => phone_chars (or_empty (m_text m))
    end in
  if negb (re_phone phone) then lift (answer PROMPT_BAD_PHONE None)
  else
    data ← lift get_data ;
    full_name ← lift (getitem data "full_name") ;
    (fun cw => (inr tt, mk_cworld (cw_db cw)
                          (save_profile (cw_profiles cw) now (m_from_id m) full_name phone)
                          (cw_session cw) (cw_acts cw))) ;;
    lift state_clear ;;
    lift (answer MSG_SAVED None).

End Callbacks.

(** ** The dialogue log *)

(** A row of [logs]. *)
Record log_row := mk_log {
  l_id : Z; l_user_id : option Z; l_user_text : pystr; l_bot_reply : pystr; l_ts : pystr }.

(** The table [logs] with its AUTOINCREMENT counter. *)
Record log_table := mk_logs { log_rows : list log_row; logs_seq : Z }.

(** [add_log]: one [INSERT]; [None] for the [sqlite3.IntegrityError] of a
    [user_id] that is no row of [users] ([NULL] is accepted). *)
Definition add_log (d : db) (t : log_table) (now : pystr) (user_id : option Z)
    (user_text bot_reply : pystr) : option log_table :=
  if match user_id with Some uid => foreign_key_ok d uid | None => true end then
    let id := next_rowid (logs_seq t) (map l_id (log_rows t)) in
    Some (mk_logs (log_rows t ++ [mk_log id user_id user_text bot_reply now]) id)
  else None.

(** [last_dialog_for_user]: [ORDER BY id DESC LIMIT ?], a negative limit
    being none, and the rows reversed. *)
Definition last_dialog_for_user (t : log_table) (user_id : Z) (limit : Z)
    : list (pystr * pystr) :=
  let mine :=
    List.filter (fun r => match l_user_id r with Some uid => uid =? user_id | None => false end)
      (log_rows t) in
  let newest_first := order_by (fun a b => l_id b <=? l_id a) mine in
  let rows := if limit <? 0 then newest_first else firstn (Z.to_nat limit) newest_first in
  rev (map (fun r => (l_user_text r, l_bot_reply r)) rows).

(** The tables [add_log] builds from the empty one, whatever the store
    holds at each call. *)
Inductive logged : log_table -> Prop :=
| logged_init : logged (mk_logs [] 0)
| logged_add d t t' now user_id user_text bot_reply :
    logged t -> add_log d t now user_id user_text bot_reply = Some t' -> logged t'.

(** ** The message router *)

(** What the program uses of aiogram's filters without defining it. *)
Class Aiogram := {
  (** [Command(name)] on a message with this text and this caption: whether
      the message is the command [/name] sent to this bot, with or without
      arguments. *)
  command_filter : pystr -> option pystr -> option pystr -> bool;
}.

(** The filters of the [@rt.message] decorators. *)
Inductive filter :=
| CommandStart
| Command (name : pystr)
| InState (st : fsm_state)
| TextEq (label : pystr)
| HasText.

(** The message handlers, named as in the program. *)
Inductive handler_id :=
| H_cmd_start | H_ob_enter_name | H_ob_enter_phone
| H_cmd_help | H_cmd_contacts | H_cmd_programs | H_cmd_docs | H_cmd_subjects
| H_cmd_faq | H_cmd_book | H_cmd_mybookings
| H_btn_programs | H_btn_advantages | H_btn_tuition | H_btn_docs | H_btn_grants
| H_btn_dorm | H_btn_contacts | H_btn_dod | H_btn_faq | H_btn_book | H_btn_mybook
| H_cmd_export_today | H_cmd_list_today | H_cmd_list | H_cmd_export
| H_fsm_enter_name | H_fsm_enter_phone | H_fsm_enter_topic | H_fsm_confirm
| H_any_text.

(** The [@rt.message] decorators, in the order of the program text, which
    is the order the router tries them in. *)
Definition MESSAGE_HANDLERS : list (filter * handler_id) :=
  [ (CommandStart, H_cmd_start);
    (InState ob_name, H_ob_enter_name);
    (InState ob_phone, H_ob_enter_phone);
    (Command (u "help"), H_cmd_help);
    (Command (u "contacts"), H_cmd_contacts);
    (Command (u "programs"), H_cmd_programs);
    (Command (u "docs"), H_cmd_docs);
    (Command (u "subjects"), H_cmd_subjects);
    (Command (u "faq"), H_cmd_faq);
    (Command (u "book"), H_cmd_book);
    (Command (u "mybookings"), H_cmd_mybookings);
    (TextEq (u "📚 Программы"), H_btn_programs);
    (TextEq (u "⭐ Преимущества"), H_btn_advantages);
    (TextEq (u "💰 Стоимость"), H_btn_tuition);
    (TextEq (u "📄 Документы"), H_btn_docs);
    (TextEq (u "🎓 Гранты и скидки"), H_btn_grants);
    (TextEq (u "🏨 Общежитие"), H_btn_dorm);
    (TextEq (u "📞 Контакты"), H_btn_contacts);
    (TextEq (u "📆 Дни открытых дверей"), H_btn_dod);
    (TextEq (u "❓ FAQ"), H_btn_faq);
    (TextEq (u "📅 Записаться на консультацию"), H_btn_book);
    (TextEq (u "🗓 Мои записи"), H_btn_mybook);
    (Command (u "export_today"), H_cmd_export_today);
    (Command (u "list_today"), H_cmd_list_today);
    (Command (u "list"), H_cmd_list);
    (Command (u "export"), H_cmd_export);
    (InState entering_name, H_fsm_enter_name);
    (InState entering_phone, H_fsm_enter_phone);
    (InState entering_topic, H_fsm_enter_topic);
    (InState confirm, H_fsm_confirm);
    (HasText, H_any_text) ].

Definition fsm_state_eqb (a b : fsm_state) : bool :=
  match a, b with
  | choosing_date, choosing_date | choosing_time, choosing_time
  | entering_name, entering_name | entering_phone, entering_phone
  | entering_topic, entering_topic | confirm, confirm
  | ob_name, ob_name | ob_phone, ob_phone => true
  | _, _ => false
  end.

Section Router.
Context `{PyLib} `{Aiogram}.

#[local] Existing Instance M_ret.
#[local] Existing Instance M_bind.

(** Whether a filter lets through a message with the text of [m] and this
    caption, for a user whose session is in the state [st]. [CommandStart()]
    is [Command("start")] that also reads a deep-link payload, which it
    does not ask for; [F.text == label] and [F.text] read the text only. *)
Definition passes (st : option fsm_state) (m : message) (caption : option pystr)
    (f : filter) : bool :=
  match f with
  | CommandStart => command_filter (u "start") (m_text m) caption
  | Command name => command_filter name (m_text m) caption
  | InState s =>
      match st with
      | Some s' => fsm_state_eqb s' s
      | None => false
      end
  | TextEq label =>
      match m_text m with
      | Some t => pystr_eqb t label
      | None => false
      end
  | HasText =>
      match m_text m with
      | Some (_ :: _) => true
      | _ => false
      end
  end.

(** The handler a message goes to: the first one whose filter lets it
    through, [None] when no filter does. *)
Definition route (st : option fsm_state) (m : message) (caption : option pystr)
    : option handler_id :=
  option_map snd (List.find (fun e => passes st m caption (fst e)) MESSAGE_HANDLERS).

(** The handlers of the booking dialogue, by name: the four that read its
    answers, [cmd_book] that starts it, and [btn_book] that calls
    [cmd_book]. *)
Definition dialogue_handler (now : pystr) (today : date) (h : handler_id)
    : option (message -> M unit) :=
  match h with
  | H_cmd_book | H_btn_book => Some (cmd_book today)
  | H_fsm_enter_name => Some fsm_enter_name
  | H_fsm_enter_phone => Some fsm_enter_phone
  | H_fsm_enter_topic => Some fsm_enter_topic
  | H_fsm_confirm => Some (fsm_confirm now)
  | _ => None
  end.

(** A message to the bot, where it goes to a handler of the booking
    dialogue: the handler runs on it ([None] where it goes to another
    handler or to none). *)
Definition on_message (now : pystr) (today : date) (w : world) (m : message)
    (caption : option pystr) : option ((exn + unit) * world) :=
  match route (s_state (w_session w)) m caption with
  | Some h =>
      match dialogue_handler now today h with
      | Some handler => Some (handler m w)
      | None => None
      end
  | None => None
  end.

(** The commands the bot has a handler for. *)
Definition BOT_COMMANDS : list pystr :=
  flat_map (fun e => match fst e with
                     | CommandStart => [u "start"]
                     | Command name => [name]
                     | _ => []
                     end) MESSAGE_HANDLERS.

(** The texts the main-menu buttons send. *)
Definition MENU_LABELS : list pystr :=
  flat_map (fun e => match fst e with
                     | TextEq label => [label]
                     | _ => []
                     end) MESSAGE_HANDLERS.

(** The message is one of the bot's commands. *)
Definition is_bot_command (m : message) (caption : option pystr) : bool :=
  existsb (fun name => command_filter name (m_text m) caption) BOT_COMMANDS.

(** The message is the text of a main-menu button. *)
Definition is_menu_button (m : message) : bool :=
  match m_text m with
  | Some t => pystr_in t MENU_LABELS
  | None => false
  end.

End Router.

(** ** A reference runtime

    A [PyLib] for closed examples. It is exact on the Basic Latin, Cyrillic
    and Kazakh letters the program is written for, on dates written with
    ASCII digits, and on second sequences shorter than 200 characters, for
    which [difflib] applies no popularity heuristic. *)

Definition basic_lower_chr (c : N) : N :=
  if in_range "A" "Z" c || in_range "А" "Я" c then (c + 32)%N
  else if in_range "Ѐ" "Џ" c then (c + 80)%N
  else if one_of "ӘҒҚҢӨҰҮҺ" c then (c + 1)%N
  else c.

Definition basic_upper_chr (c : N) : N :=
  if in_range "a" "z" c || in_range "а" "я" c then (c - 32)%N
  else if in_range "ѐ" "џ" c then (c - 80)%N
  else if one_of "әғқңөұүһ" c then (c - 1)%N
  else c.

Definition basic_ignorecase (cls : N -> bool) (c : N) : bool :=
  cls c || cls (basic_lower_chr c) || cls (basic_upper_chr c).

Definition basic_digit (c : N) : bool := in_range "0" "9" c.

(** The length of the longest common prefix. *)
Fixpoint common_prefix (a b : pystr) : nat :=
  match a, b with
  | x :: a', y :: b' => if chr_eqb x y then S (common_prefix a' b') else O
  | _, _ => O
  end.

(** The longest block of [b], from position [j] on, that [a] starts with:
    its position and length, the earliest among the longest. *)
Fixpoint longest_at (a b : pystr) (j : nat) : nat * nat :=
  match b with
  | [] => (j, O)
  | _ :: b' =>
      let k := common_prefix a b in
      let '(j', k') := longest_at a b' (S j) in
      if (k' <=? k)%nat then (j, k) else (j', k')
  end.

(** [find_longest_match]: the longest common block of [a] (from position [i]
    on) and [b], the earliest in [a] and then in [b] among the longest. *)
Fixpoint find_longest_match (a b : pystr) (i : nat) : nat * nat * nat :=
  match a with
  | [] => (i, O, O)
  | _ :: a' =>
      let '(j, k) := longest_at a b O in
      let '(i', j', k') := find_longest_match a' b (S i) in
      if (k' <=? k)%nat then (i, j, k) else (i', j', k')
  end.

(** The total size of [get_matching_blocks]: the longest block, then the
    same to its left and to its right. *)
Fixpoint matching_size (fuel : nat) (a b : pystr) : nat :=
  match fuel with
  | O => O
  | S fuel' =>
      let '(i, j, k) := find_longest_match a b O in
      match k with
      | O => O
      | _ => (matching_size fuel' (firstn i a) (firstn j b) + k
              + matching_size fuel' (skipn (i + k) a) (skipn (j + k) b))%nat
      end
  end.

Definition difflib_ratio (a b : pystr) : float :=
  let matches := matching_size (S (length a)) a b in
  let total := (length a + length b)%nat in
  match total with
  | O => 1.0%float
  | _ => (2.0 * float_of_nat matches / float_of_nat total)%float
  end.

Definition digit_value (c : N) : Z := Z.of_N c - 48.

Definition number_of (ds : pystr) : Z :=
  fold_left (fun acc c => acc * 10 + digit_value c) ds 0.

(** [[s]] cut at every [sep]. *)
Fixpoint split_on (sep : N) (cur : pystr) (s : pystr) : list pystr :=
  match s with
  | [] => [rev cur]
  | c :: r => if chr_eqb c sep then rev cur :: split_on sep [] r
              else split_on sep (c :: cur) r
  end.

Definition basic_strptime (s : pystr) : option date :=
  match split_on (chr "-") [] s with
  | [y; m; d] =>
      let ok_digits := forallb basic_digit (y ++ m ++ d) in
      let yv := number_of y in let mv := number_of m in let dv := number_of d in
      if ok_digits && (length y =? 4)%nat
         && (1 <=? length m)%nat && (length m <=? 2)%nat
         && (1 <=? length d)%nat && (length d <=? 2)%nat
         && (1 <=? yv) && (1 <=? mv) && (mv <=? 12)
         && (1 <=? dv) && (dv <=? days_in_month yv mv)
      then Some (mk_date yv mv dv) else None
  | _ => None
  end.

Definition basic_pylib : PyLib := {|
  str_lower := map basic_lower_chr;
  re_ignorecase := basic_ignorecase;
  re_digit := basic_digit;
  seq_ratio := difflib_ratio;
  strptime_ymd := basic_strptime |}.

(** [Command(name)] for a bot with the user name [me], as aiogram
    documents it: the filter reads the text of the message or, without one,
    its caption; the first word has to be [/name] or [/name@me], the
    mention compared without case, the name with it. *)
Definition basic_command_filter (me name : pystr) (text caption : option pystr) : bool :=
  let text := match text with Some (_ :: _) => text | _ => caption end in
  match split (or_empty text) with
  | (prefix :: rest) :: _ =>
      let '(command, mention) := partition_at (chr "@") rest in
      chr_eqb prefix (chr "/")
      && match mention, me with
         | Some (c :: r), _ :: _ =>
             pystr_eqb (map basic_lower_chr (c :: r)) (map basic_lower_chr me)
         | _, _ => true
         end
      && pystr_eqb command name
  | _ => false
  end.

(** An [Aiogram] for closed examples, the bot being [ccu_helper_bot]. *)
Definition basic_aiogram : Aiogram := {|
  command_filter := basic_command_filter (u "ccu_helper_bot") |}.

(** ** Vocabulary of the specification *)

(** The slots of a day: every half hour from the opening to the closing
    time, the lunch hour left out. *)
Definition DAY_SLOTS : list pystr :=
  map u ["10:00"; "10:30"; "11:00"; "11:30"; "12:00"; "12:30";
         "14:00"; "14:30"; "15:00"; "15:30"; "16:00"; "16:30"; "17:00"; "17:30";
         "18:00"]%string.

(** The time of day [m] minutes after midnight. *)
Definition time_of_minutes (m : Z) : time := mk_time (m / 60) (m mod 60).

(** The hours and minutes a [datetime.time] can have. *)
Definition time_of_day (t : time) : Prop := 0 <= hour t < 24 /\ 0 <= minute t < 60.

(** A slot time: a time of day within business hours and outside the lunch
    interval. *)
Definition bookable (t : time) : Prop :=
  time_of_day t
  /\ time_leb DAY_START t = true /\ time_leb t DAY_END = true
  /\ (time_leb LUNCH_START t && time_ltb t LUNCH_END) = false.

(** A confirmed booking of the slot ([date_str], [time_str]). *)
Definition confirmed_at (date_str time_str : pystr) (b : booking) : bool :=
  at_slot date_str time_str b && pystr_eqb (b_status b) CONFIRMED.

(** The booking invariant: no slot has two confirmed bookings. *)
Definition one_confirmed_per_slot (d : db) : Prop :=
  forall date_str time_str,
    (length (List.filter (confirmed_at date_str time_str) (bookings d)) <= 1)%nat.

(** The table constraint [UNIQUE(date, time)]. *)
Definition unique_date_time (d : db) : Prop :=
  forall date_str time_str,
    (length (List.filter (at_slot date_str time_str) (bookings d)) <= 1)%nat.

(** The writes the program makes to [users] and [bookings]. *)
Inductive store_step : db -> db -> Prop :=
| step_create d now user_id full_name phone date_str time_str topic :
    store_step d (fst (create_booking d now user_id full_name phone date_str time_str topic))
| step_cancel d user_id date_str time_str :
    store_step d (fst (cancel_booking d user_id date_str time_str))
| step_cancel_any d date_str time_str :
    store_step d (fst (cancel_booking_any d date_str time_str))
| step_upsert d now tg_id first last uname :
    store_step d (fst (upsert_user d now tg_id first last uname)).

(** The stores the program can reach from the empty tables [init_db]
    creates, whatever it seeds [faq] and [kb] with. *)
Inductive reachable : db -> Prop :=
| reach_init faq0 kb0 : reachable (mk_db [] 0 [] 0 faq0 kb0)
| reach_step d d' : reachable d -> store_step d d' -> reachable d'.

(** A token: a non-empty run of non-whitespace characters. *)
Definition is_token (w : pystr) : Prop :=
  w <> [] /\ Forall (fun c => py_isspace c = false) w.

(** What the idempotence of [normalize] needs of [str.lower]: the
    characters it produces are lower-case already, a string of such
    characters is left as it is, and so are the space and the letter [е]. *)
Definition str_lower_laws `{PyLib} : Prop :=
  (forall s c, In c (str_lower s) -> str_lower [c] = [c])
  /\ (forall t, (forall c, In c t -> str_lower [c] = [c]) -> str_lower t = t)
  /\ str_lower [SPACE] = [SPACE]
  /\ str_lower (u "е") = u "е".

(** A [float] that is a number. *)
Definition not_nan (x : float) : Prop := Prim2SF x <> S754_nan.

(** A similarity ratio, as [difflib] documents it: a number of [[0, 1]]. *)
Definition in_unit (r : float) : Prop :=
  (0 <=? r)%float = true /\ (r <=? 1)%float = true.

(** [sub] occurs in [s]. *)
Definition occurs_in (sub s : pystr) : Prop := exists pre post, s = pre ++ sub ++ post.

(** One of the alternatives of a pattern occurs in [q]. *)
Definition matches (alts : list string) (q : pystr) : Prop :=
  exists alt, In alt alts /\ occurs_in (u alt) q.

(** Descending order of the keys of a scored list. *)
Definition key_ge {A} (a b : float * A) : Prop := (fst b <=? fst a)%float = true.

(** ** More vocabulary: the constraints of the schema *)

(** The keys of the tables: the primary keys [users.id] and [bookings.id],
    [users.tg_id UNIQUE], and the AUTOINCREMENT counters above every id in
    use. *)
Definition keys_ok (d : db) : Prop :=
  List.NoDup (map u_id (users d))
  /\ List.NoDup (map u_tg_id (users d))
  /\ List.NoDup (map b_id (bookings d))
  /\ Forall (fun r => u_id r <= users_seq d) (users d)
  /\ Forall (fun b => b_id b <= bookings_seq d) (bookings d).

(** [FOREIGN KEY(user_id) REFERENCES users(id)] on every row of [bookings]. *)
Definition references_ok (d : db) : Prop :=
  Forall (fun b => foreign_key_ok d (b_user_id b) = true) (bookings d).

(** What [html_escape] makes of one character. *)
Definition escape_chr (c : N) : pystr :=
  if chr_eqb c (chr "&") then u "&amp;"
  else if chr_eqb c (chr "<") then u "&lt;"
  else if chr_eqb c (chr ">") then u "&gt;"
  else [c].

(** ** The sessions the bot reaches *)

Section Sessions.
Context `{PyLib}.

(** What the handlers do to one user's world. A message handler with a
    state filter runs only in its state; commands and callbacks run in any
    state. [step_other] stands for the handlers that leave the session
    alone (the information commands, the menu buttons that answer with a
    text, [cmd_mybookings], [cmd_list], [any_text], ...). *)
Inductive bot_step : cworld -> cworld -> Prop :=
| step_cmd_start now m cw :
    bot_step cw (snd (cmd_start now m cw))
| step_ob_enter_name m cw :
    s_state (cw_session cw) = Some ob_name ->
    bot_step cw (snd (lift (ob_enter_name m) cw))
| step_ob_enter_phone now contact m cw :
    s_state (cw_session cw) = Some ob_phone ->
    bot_step cw (snd (ob_enter_phone now contact m cw))
| step_cmd_book today m cw :
    bot_step cw (snd (lift (cmd_book today m) cw))
| step_cb_pick_date c cw :
    bot_step cw (snd (cb_pick_date c cw))
| step_cb_back_dates today c cw :
    bot_step cw (snd (cb_back_dates today c cw))
| step_cb_pick_time c cw :
    bot_step cw (snd (cb_pick_time c cw))
| step_fsm_enter_name m cw :
    s_state (cw_session cw) = Some entering_name ->
    bot_step cw (snd (lift (fsm_enter_name m) cw))
| step_fsm_enter_phone m cw :
    s_state (cw_session cw) = Some entering_phone ->
    bot_step cw (snd (lift (fsm_enter_phone m) cw))
| step_fsm_enter_topic m cw :
    s_state (cw_session cw) = Some entering_topic ->
    bot_step cw (snd (lift (fsm_enter_topic m) cw))
| step_fsm_confirm now m cw :
    s_state (cw_session cw) = Some confirm ->
    bot_step cw (snd (lift (fsm_confirm now m) cw))
| step_other cw cw' :
    cw_session cw' = cw_session cw ->
    bot_step cw cw'.

(** The worlds reached from one whose session is empty. *)
Inductive bot_reachable : cworld -> Prop :=
| bot_start cw : cw_session cw = mk_session None ∅ -> bot_reachable cw
| bot_next cw cw' : bot_reachable cw -> bot_step cw cw' -> bot_reachable cw'.

End Sessions.

(** The session holds each of the keys. *)
Definition has_keys (keys : list string) (s : session) : Prop :=
  Forall (fun k => is_Some (s_data s !! k)) keys.

(** What each state of the dialogues can rely on. *)
Definition session_ok (s : session) : Prop :=
  match s_state s with
  | Some choosing_time => has_keys ["date"] s
  | Some entering_name => has_keys ["date"; "time"] s
  | Some entering_phone => has_keys ["date"; "time"; "full_name"] s
  | Some entering_topic => has_keys ["date"; "time"; "full_name"; "phone"] s
  | Some confirm => has_keys ["date"; "time"; "full_name"; "phone"; "topic"] s
  | Some ob_phone => has_keys ["full_name"] s
  | _ => True
  end.

(** ** Sample data for closed examples *)

Definition sample_users : list user_row :=
  [ mk_user 1 100 (u "Айгерим") (u "") (u "aigerim") (u "2025-08-30T09:00:00+05:00");
    mk_user 2 200 (u "Иван") (u "Иванов") (u "") (u "2025-08-30T09:05:00+05:00") ].

Definition sample_bookings : list booking :=
  [ mk_booking 1 1 (u "Сатпаева Айгерим") (u "+77011112233") (u "2025-09-01") (u "10:00")
      (u "Поступление") CONFIRMED (u "2025-08-30T09:01:00+05:00") ].

Definition sample_faq : list faq_row :=
  [ mk_faq (u "Наш адрес: г. Алматы, проспект Сейфуллина, 521") (u "адрес");
    mk_faq (u "Часы работы: Пн–Пт 09:00–17:00, обед 13:00–14:00")
           (u "график работа часы режим");
    mk_faq (u "Полный перечень документов: /docs") (u "документы поступление список") ].

Definition sample_kb : list kb_row :=
  [ mk_kb (u "Контакты") (u "контакты телефон адрес")
          (u "Адрес: г. Алматы, проспект Сейфуллина, 521") (u "ru");
    mk_kb (u "Документы") (u "документы поступление")
          (u "Аттестат, удостоверение личности, фото 3x4") (u "ru");
    mk_kb (u "Общежитие") (u "общежитие проживание")
          (u "Стоимость 36 000 в месяц") (u "ru") ].

Definition sample_db : db := mk_db sample_users 2 sample_bookings 1 sample_faq sample_kb.

Definition sample_now : pystr := u "2025-08-31T12:00:00+05:00".

(** A text message of the second user. *)
Definition text_message (text : string) : message :=
  mk_message (Some (u text)) 200 (Some (u "Иван")) (Some (u "Иванов")) None.

(** The session of a user who has reached the step [st] for the slot that
    is already booked. *)
Definition sample_session (st : fsm_state) : session :=
  mk_session (Some st)
    (<["topic" := u "Поступление"]>
       (<["phone" := u "+77001234567"]>
          (<["full_name" := u "Иванов Иван"]>
             (<["time" := u "10:00"]> (<["date" := u "2025-09-01"]> ∅))))).

Definition sample_world (st : fsm_state) : world :=
  mk_world sample_db (sample_session st) [].

(** The session of a user who has reached the step [st] for a slot that is
    free. *)
Definition free_session (st : fsm_state) : session :=
  mk_session (Some st)
    (<["topic" := u "Поступление"]>
       (<["phone" := u "+77001234567"]>
          (<["full_name" := u "Иванов Иван"]>
             (<["time" := u "10:30"]> (<["date" := u "2025-09-01"]> ∅))))).

Definition free_world (st : fsm_state) : world := mk_world sample_db (free_session st) [].

(** A button pressed by the user with Telegram id [tg_id]. *)
Definition sample_callback (tg_id : Z) (data : string) : callback :=
  mk_callback (u data) tg_id None None None.

Definition sample_profiles : list profile_row :=
  [ mk_profile 100 (Some (u "Сатпаева Айгерим")) (Some (u "+77011112233"))
      (u "2025-08-30T09:00:30+05:00") ].

(** The world of a callback: the sample store, one profile, an empty
    session. *)
Definition sample_cworld : cworld :=
  mk_cworld sample_db sample_profiles (mk_session None ∅) [].

(** A Sunday. *)
Definition sample_today : date := mk_date 2025 8 31.

(** The store before anybody wrote to it. *)
Definition empty_db : db := mk_db [] 0 [] 0 sample_faq sample_kb.

(** The world of a user at the phone step of the onboarding. *)
Definition onboarding_cworld : cworld :=
  mk_cworld sample_db sample_profiles
    (mk_session (Some ob_phone) (<["full_name" := u "Иванов Иван Иванович"]> ∅)) [].

(** A short log of both users. *)
Definition sample_logs : log_table :=
  mk_logs
    [ mk_log 1 (Some 2) (u "Здравствуйте") (u "Здравствуйте!") sample_now;
      mk_log 2 (Some 1) (u "адрес") (u "Наш адрес: г. Алматы, проспект Сейфуллина, 521")
        sample_now;
      mk_log 3 (Some 2) (u "документы") (u "Полный перечень документов: /docs") sample_now;
      mk_log 4 (Some 2) (u "общежитие") (u "Стоимость 36 000 в месяц") sample_now ]
    4.

(** * Part II: properties *)

(** ** Strings *)

Lemma pystr_eqb_eq (a b : pystr) : pystr_eqb a b = true <-> a = b.
Proof.
  revert b; induction a as [|x a IH]; intros [|y b]; simpl; try (split; congruence).
  unfold chr_eqb. rewrite andb_true_iff, N.eqb_eq, IH. split.
  - intros [-> ->]; reflexivity.
  - intros [= -> ->]; auto.
Qed.

Lemma pystr_eqb_refl (a : pystr) : pystr_eqb a a = true.
Proof. apply pystr_eqb_eq; reflexivity. Qed.

Lemma pystr_in_In (s : pystr) (l : list pystr) : pystr_in s l = true <-> In s l.
Proof.
  unfold pystr_in. rewrite existsb_exists. split.
  - intros (x & Hx & Heq). apply pystr_eqb_eq in Heq. subst; assumption.
  - intros Hin. exists s. split; [assumption | apply pystr_eqb_refl].
Qed.

(** ** Slot calendar *)

Lemma inspect_eq {A : Type} (x b : A) :
  x = b -> exists e : x = b, inspect x = exist _ b e.
Proof. intros <-. exists eq_refl. reflexivity. Qed.

Lemma slots_loop_step (end_dt cur : datetime) (slots : list pystr) :
  dt_leb cur end_dt = true ->
  slots_loop end_dt cur slots =
  slots_loop end_dt (add_minutes cur SLOT_STEP_MIN)
    (if negb (time_leb LUNCH_START (dt_time cur) && time_ltb (dt_time cur) LUNCH_END)
     then slots ++ [strftime_HM (dt_time cur)] else slots).
Proof.
  intros Hle. rewrite slots_loop_equation_1.
  destruct (inspect_eq _ _ Hle) as [e ->]. reflexivity.
Qed.

Lemma slots_loop_stop (end_dt cur : datetime) (slots : list pystr) :
  dt_leb cur end_dt = false -> slots_loop end_dt cur slots = slots.
Proof.
  intros Hle. rewrite slots_loop_equation_1.
  destruct (inspect_eq _ _ Hle) as [e ->]. reflexivity.
Qed.

(** Within one day the loop only looks at the time of day. *)
Lemma dt_leb_same_day (d : Z) (a b : time) :
  dt_leb (mk_datetime d a) (mk_datetime d b) = time_leb a b.
Proof.
  unfold dt_leb, dt_minutes, time_leb; simpl.
  destruct (Z.leb_spec (time_minutes a) (time_minutes b));
    [apply Z.leb_le | apply Z.leb_gt]; lia.
Qed.

Lemma add_minutes_same_day (d : Z) (t : time) (n : Z) :
  0 <= time_minutes t + n < 1440 ->
  add_minutes (mk_datetime d t) n =
  mk_datetime d (mk_time ((time_minutes t + n) / 60) ((time_minutes t + n) mod 60)).
Proof.
  intros Hr. unfold add_minutes, dt_minutes; simpl.
  replace (d * 1440 + time_minutes t + n) with ((time_minutes t + n) + d * 1440) by lia.
  rewrite Z.div_add, Z.mod_add by lia.
  rewrite Z.div_small, Z.mod_small by lia. f_equal.
Qed.

Lemma slots_loop_day (d : Z) :
  slots_loop (combine d DAY_END) (combine d DAY_START) [] = DAY_SLOTS.
Proof.
  unfold combine, DAY_START, DAY_END.
  do 17 (rewrite slots_loop_step by (rewrite dt_leb_same_day; reflexivity);
         rewrite add_minutes_same_day by (vm_compute; split; congruence);
         cbn [dt_time];
         match goal with
         | |- slots_loop _ (mk_datetime _ ?t) ?s = _ =>
             let t' := eval vm_compute in t in
             let s' := eval vm_compute in s in
             change (slots_loop (mk_datetime d (mk_time 18 0)) (mk_datetime d t') s' = DAY_SLOTS)
         end).
  rewrite slots_loop_stop by (rewrite dt_leb_same_day; reflexivity).
  reflexivity.
Qed.

Lemma time_slots_for_date_eq (dt : datetime) : time_slots_for_date dt = DAY_SLOTS.
Proof. unfold time_slots_for_date. cbv zeta. rewrite slots_loop_day. reflexivity. Qed.

Lemma day_slots_bookable (s : pystr) :
  In s DAY_SLOTS -> exists t, s = strftime_HM t /\ bookable t.
Proof.
  unfold DAY_SLOTS. simpl.
  intros Hin.
  repeat (destruct Hin as [<- | Hin];
          [ match goal with
            | |- exists t, u ?x = _ /\ _ =>
                let l := eval vm_compute in (u x) in
                match l with
                | [?a; ?b; _; ?c; ?e] =>
                    exists (mk_time (digit_value a * 10 + digit_value b)
                                    (digit_value c * 10 + digit_value e))
                end
            end; split; [reflexivity | split; [vm_compute; intuition congruence | repeat split]] | ]).
  destruct Hin.
Qed.

(** [%H:%M] tells the times of a day apart. *)
Lemma strftime_HM_inj (t t' : time) :
  time_of_day t -> time_of_day t' -> strftime_HM t = strftime_HM t' -> t = t'.
Proof.
  destruct t as [h m], t' as [h' m']. unfold time_of_day, strftime_HM, two_digits, digit_chr.
  simpl. intros [Hh Hm] [Hh' Hm'] Heq.
  injection Heq as H1 H2 H3 H4.
  assert (Hd : forall a b, 0 <= a -> 0 <= b -> (48 + Z.to_N a = 48 + Z.to_N b)%N -> a = b)
    by (intros a b Ha Hb Hab; lia).
  apply Hd in H1, H2, H3, H4;
    try (apply Z.mod_pos_bound; lia).
  f_equal; Z.div_mod_to_equations; lia.
Qed.

(** A time of day that prints as a slot of the day is a slot time. *)
Lemma day_slot_times (s : pystr) (t : time) :
  In s DAY_SLOTS -> time_of_day t -> s = strftime_HM t -> bookable t.
Proof.
  intros Hin Ht Hs. destruct (day_slots_bookable s Hin) as (t0 & Hs0 & Hb).
  assert (t = t0) as ->; [|assumption].
  apply strftime_HM_inj; [assumption | apply Hb | congruence].
Qed.

(** C2, as the code has it: for every date the slot sequence is 10:00,
    10:30, ..., 12:30, 14:00, ..., 17:30, 18:00 -- every half hour from the
    10:00 opening up to and including the 18:00 closing time, in
    chronological order, without the slots that start in the 13:00-14:00
    lunch interval. *)
Theorem time_slots_for_date_spec (dt : datetime) :
  time_slots_for_date dt =
    map u ["10:00"; "10:30"; "11:00"; "11:30"; "12:00"; "12:30";
           "14:00"; "14:30"; "15:00"; "15:30"; "16:00"; "16:30"; "17:00"; "17:30";
           "18:00"]%string
  /\ time_slots_for_date dt =
       map (fun m => strftime_HM (time_of_minutes m))
         (List.filter (fun m => negb ((13 * 60 <=? m) && (m <? 14 * 60)))
            (map (fun k => 10 * 60 + 30 * Z.of_nat k) (seq 0 17)))
  /\ (forall s, In s (time_slots_for_date dt) -> exists t, s = strftime_HM t /\ bookable t)
  /\ last (time_slots_for_date dt) = Some (strftime_HM DAY_END).
Proof.
  rewrite time_slots_for_date_eq. split; [reflexivity|]. split; [reflexivity|].
  split; [apply day_slots_bookable | reflexivity].
Qed.

(** C2, as the claim states it, fails: the sequence does not stop at 17:30,
    the slot that starts at the 18:00 closing time is generated too. *)
Lemma time_slots_for_date_has_closing_slot :
  let dt := datetime_of_date (mk_date 2025 9 1) in
  time_slots_for_date dt <>
    map u ["10:00"; "10:30"; "11:00"; "11:30"; "12:00"; "12:30";
           "14:00"; "14:30"; "15:00"; "15:30"; "16:00"; "16:30"; "17:00"; "17:30"]%string
  /\ last (time_slots_for_date dt) = Some (u "18:00").
Proof.
  cbv zeta. rewrite time_slots_for_date_eq. split; [discriminate | reflexivity].
Qed.

(** ** Booking store *)

Lemma confirmed_at_iff (date_str time_str : pystr) (b : booking) :
  confirmed_at date_str time_str b = true <->
  b_date b = date_str /\ b_time b = time_str /\ b_status b = CONFIRMED.
Proof.
  unfold confirmed_at, at_slot.
  rewrite !andb_true_iff, !pystr_eqb_eq. tauto.
Qed.

Lemma at_slot_iff (date_str time_str : pystr) (b : booking) :
  at_slot date_str time_str b = true <-> b_date b = date_str /\ b_time b = time_str.
Proof. unfold at_slot. rewrite andb_true_iff, !pystr_eqb_eq. tauto. Qed.

Lemma taken_iff (bs : list booking) (date_str s : pystr) :
  s ∈ (list_to_set (map b_time (List.filter (confirmed_on date_str) bs)) : gset pystr)
  <-> existsb (confirmed_at date_str s) bs = true.
Proof.
  rewrite elem_of_list_to_set, list_elem_of_In, in_map_iff, existsb_exists.
  split.
  - intros (b & Hs & Hin). apply filter_In in Hin as [Hin Hc].
    exists b. split; [assumption|].
    unfold confirmed_on in Hc. apply andb_true_iff in Hc as [Hd Hst].
    apply confirmed_at_iff. apply pystr_eqb_eq in Hd, Hst. auto.
  - intros (b & Hin & Hc). apply confirmed_at_iff in Hc as (Hd & Ht & Hst).
    exists b. split; [assumption|]. apply filter_In. split; [assumption|].
    unfold confirmed_on. rewrite Hd, Hst, !pystr_eqb_refl. reflexivity.
Qed.

Section Store.
Context `{PyLib}.

(** C6: for a date [strptime] reads, [available_slots] returns the slots of
    [time_slots_for_date] for that date without the times of the confirmed
    bookings of that date, in the same order; none of its slots has a
    confirmed booking on that date; each of its slots is one of the slots
    of the day, 10:00 to 12:30 and 14:00 to 18:00, and the time of day it
    prints, and every time of day that prints as it, is within business
    hours and outside the lunch interval. *)
Theorem available_slots_spec (d : db) (date_str : pystr) (parsed : date) :
  strptime_ymd date_str = Some parsed ->
  exists slots,
    available_slots d date_str = Some slots
    /\ slots =
         List.filter
           (fun s => negb (existsb (confirmed_at date_str s) (bookings d)))
           (time_slots_for_date (datetime_of_date parsed))
    /\ (forall s, In s slots ->
          ~ exists b, In b (bookings d) /\ b_date b = date_str /\ b_time b = s
                      /\ b_status b = CONFIRMED)
    /\ (forall s, In s slots ->
          In s DAY_SLOTS
          /\ (exists t, s = strftime_HM t /\ bookable t)
          /\ (forall t, time_of_day t -> s = strftime_HM t -> bookable t)).
Proof.
  intros Hparse. unfold available_slots. rewrite Hparse.
  eexists. split; [reflexivity|].
  assert (Hfilter :
    List.filter
      (fun s => negb (bool_decide
         (s ∈ (list_to_set (map b_time (List.filter (confirmed_on date_str) (bookings d)))
                : gset pystr))))
      (time_slots_for_date (datetime_of_date parsed))
    = List.filter (fun s => negb (existsb (confirmed_at date_str s) (bookings d)))
        (time_slots_for_date (datetime_of_date parsed))).
  { apply filter_ext. intros s. f_equal.
    destruct (existsb (confirmed_at date_str s) (bookings d)) eqn:E.
    - apply bool_decide_eq_true. apply taken_iff. assumption.
    - apply bool_decide_eq_false. rewrite taken_iff. congruence. }
  rewrite Hfilter. split; [reflexivity|]. split.
  - intros s Hin (b & Hb & Hd & Ht & Hst).
    apply filter_In in Hin as [_ Hfree].
    apply negb_true_iff in Hfree.
    assert (existsb (confirmed_at date_str s) (bookings d) = true); [|congruence].
    apply existsb_exists. exists b. split; [assumption|].
    apply confirmed_at_iff. auto.
  - intros s Hin. apply filter_In in Hin as [Hin _].
    rewrite time_slots_for_date_eq in Hin.
    split; [assumption|]. split; [apply day_slots_bookable; assumption|].
    intros t Ht Hs. apply (day_slot_times s); assumption.
Qed.

(** A date string [strptime] refuses makes [available_slots] raise. *)
Lemma available_slots_bad_date (d : db) (date_str : pystr) :
  strptime_ymd date_str = None -> available_slots d date_str = None.
Proof. intros Hparse. unfold available_slots. rewrite Hparse. reflexivity. Qed.

End Store.

Lemma filter_length_app {A} (f : A -> bool) (l : list A) (x : A) :
  length (List.filter f (l ++ [x])) =
  (length (List.filter f l) + (if f x then 1 else 0))%nat.
Proof.
  rewrite List.filter_app, length_app. simpl. destruct (f x); reflexivity.
Qed.

Lemma filter_none {A} (f : A -> bool) (l : list A) :
  existsb f l = false -> List.filter f l = [].
Proof.
  induction l as [|a l IH]; simpl; [reflexivity|].
  intros Hex. apply orb_false_iff in Hex as [Ha Hl]. rewrite Ha. auto.
Qed.

Lemma filter_negb_all {A} (f : A -> bool) (l : list A) :
  existsb f l = false -> List.filter (fun a => negb (f a)) l = l.
Proof.
  induction l as [|a l IH]; simpl; [reflexivity|].
  intros Hex. apply orb_false_iff in Hex as [Ha Hl].
  rewrite Ha. simpl. f_equal. auto.
Qed.

Lemma insert_booking_Some (d d' : db) user_id full_name phone date_str time_str topic now :
  insert_booking d user_id full_name phone date_str time_str topic now = Some d' ->
  existsb (at_slot date_str time_str) (bookings d) = false
  /\ exists id, bookings d' =
       bookings d ++ [mk_booking id user_id full_name phone date_str time_str topic
                                 CONFIRMED now].
Proof.
  unfold insert_booking, unique_date_time_ok.
  destruct (existsb (at_slot date_str time_str) (bookings d)); simpl; [discriminate|].
  destruct (foreign_key_ok d user_id); [|discriminate].
  intros [= <-]. split; [reflexivity|]. eexists. reflexivity.
Qed.

Lemma create_booking_one_confirmed (d : db) now user_id full_name phone date_str time_str topic :
  one_confirmed_per_slot d ->
  one_confirmed_per_slot
    (fst (create_booking d now user_id full_name phone date_str time_str topic)).
Proof.
  intros Hinv. unfold create_booking.
  destruct (insert_booking _ _ _ _ _ _ _ _) as [d'|] eqn:Hins; simpl; [|assumption].
  apply insert_booking_Some in Hins as (Hfree & id & Hbs).
  intros ds ts. rewrite Hbs, filter_length_app.
  destruct (confirmed_at ds ts _) eqn:Hnew; [|specialize (Hinv ds ts); lia].
  apply confirmed_at_iff in Hnew as (Hd & Ht & _). simpl in Hd, Ht. subst ds ts.
  rewrite filter_none; [simpl; lia|].
  apply not_true_is_false. intros Hex. apply existsb_exists in Hex as (b & Hb & Hc).
  unfold confirmed_at in Hc. apply andb_true_iff in Hc as [Hc _].
  assert (existsb (at_slot date_str time_str) (bookings d) = true); [|congruence].
  apply existsb_exists. eauto.
Qed.

Lemma create_booking_unique (d : db) now user_id full_name phone date_str time_str topic :
  unique_date_time d ->
  unique_date_time
    (fst (create_booking d now user_id full_name phone date_str time_str topic)).
Proof.
  intros Hinv. unfold create_booking.
  destruct (insert_booking _ _ _ _ _ _ _ _) as [d'|] eqn:Hins; simpl; [|assumption].
  apply insert_booking_Some in Hins as (Hfree & id & Hbs).
  intros ds ts. rewrite Hbs, filter_length_app.
  destruct (at_slot ds ts _) eqn:Hnew; [|specialize (Hinv ds ts); lia].
  apply at_slot_iff in Hnew as (Hd & Ht). simpl in Hd, Ht. subst ds ts.
  rewrite filter_none by assumption. simpl; lia.
Qed.

Lemma filter_filter_length {A} (f g : A -> bool) (l : list A) :
  (length (List.filter f (List.filter g l)) <= length (List.filter f l))%nat.
Proof.
  induction l as [|a l IH]; simpl; [lia|].
  destruct (g a); simpl; destruct (f a); simpl; lia.
Qed.

Lemma store_step_unique (d d' : db) :
  store_step d d' -> unique_date_time d -> unique_date_time d'.
Proof.
  intros Hstep Hinv. destruct Hstep.
  - apply create_booking_unique; assumption.
  - intros ds ts. unfold cancel_booking, delete_bookings; simpl.
    etransitivity; [apply filter_filter_length | apply Hinv].
  - intros ds ts. unfold cancel_booking_any, delete_bookings; simpl.
    etransitivity; [apply filter_filter_length | apply Hinv].
  - unfold upsert_user. destruct (List.find _ _); simpl; assumption.
Qed.

Lemma unique_one_confirmed (d : db) : unique_date_time d -> one_confirmed_per_slot d.
Proof.
  intros Hinv ds ts. specialize (Hinv ds ts).
  assert (length (List.filter (confirmed_at ds ts) (bookings d))
          <= length (List.filter (at_slot ds ts) (bookings d)))%nat; [|lia].
  clear Hinv. unfold confirmed_at.
  induction (bookings d) as [|b bs IH]; simpl; [lia|].
  destruct (at_slot ds ts b); simpl; [destruct (pystr_eqb _ _); simpl; lia | lia].
Qed.

(** The invariant holds in every store the program reaches. *)
Lemma reachable_one_confirmed (d : db) : reachable d -> one_confirmed_per_slot d.
Proof.
  intros Hr. apply unique_one_confirmed.
  induction Hr as [faq0 kb0 | d d' _ IH Hstep].
  - intros ds ts. simpl. lia.
  - eapply store_step_unique; eassumption.
Qed.

(** C1: no store the program reaches has two confirmed bookings of one
    slot, and [create_booking] keeps it so; in every store that already
    holds a confirmed booking of the slot it returns [False] with the
    conflict message and the store as it was; and whether it succeeds is
    decided by the constraints of the one [INSERT] it runs,
    [UNIQUE(date, time)] among them, with no query before it. *)
Theorem create_booking_conflict (d : db) (now : pystr) (user_id : Z)
    (full_name phone date_str time_str topic : pystr) :
  let r := create_booking d now user_id full_name phone date_str time_str topic in
  (reachable d -> one_confirmed_per_slot d /\ reachable (fst r))
  /\ (one_confirmed_per_slot d -> one_confirmed_per_slot (fst r))
  /\ ((exists b, In b (bookings d) /\ b_date b = date_str /\ b_time b = time_str
                 /\ b_status b = CONFIRMED)
      -> r = (d, (false, MSG_CONFLICT)))
  /\ r = match insert_booking d user_id full_name phone date_str time_str topic now with
         | Some d' => (d', (true, MSG_CONFIRMED))
         | None => (d, (false, MSG_CONFLICT))
         end
  /\ (unique_date_time_ok d date_str time_str = false ->
      insert_booking d user_id full_name phone date_str time_str topic now = None).
Proof.
  cbv zeta. split.
  { intros Hr. split; [apply reachable_one_confirmed; exact Hr|].
    eapply reach_step; [exact Hr | apply step_create]. }
  split; [apply create_booking_one_confirmed|]. split; [|split].
  - intros (b & Hb & Hd & Ht & _). unfold create_booking, insert_booking.
    assert (unique_date_time_ok d date_str time_str = false) as ->; [|reflexivity].
    unfold unique_date_time_ok. apply negb_false_iff, existsb_exists.
    exists b. split; [assumption|]. apply at_slot_iff. auto.
  - reflexivity.
  - unfold insert_booking. intros ->. reflexivity.
Qed.

Lemma delete_bookings_rowcount (d : db) (where_ : booking -> bool) :
  (0 <? snd (delete_bookings d where_)) = existsb where_ (bookings d).
Proof.
  unfold delete_bookings, len; simpl.
  induction (bookings d) as [|b bs IH]; simpl; [reflexivity|].
  destruct (where_ b); simpl; [|assumption].
  apply Z.ltb_lt. lia.
Qed.

Lemma delete_bookings_none (d : db) (where_ : booking -> bool) :
  existsb where_ (bookings d) = false -> fst (delete_bookings d where_) = d.
Proof.
  intros Hnone. unfold delete_bookings; simpl.
  rewrite filter_negb_all by assumption.
  destruct d; reflexivity.
Qed.

Lemma owned_at_slot_iff (user_id : Z) (date_str time_str : pystr) (b : booking) :
  owned_at_slot user_id date_str time_str b = true <->
  b_user_id b = user_id /\ b_date b = date_str /\ b_time b = time_str.
Proof.
  unfold owned_at_slot. rewrite andb_true_iff, Z.eqb_eq, at_slot_iff. tauto.
Qed.

(** C8: [cancel_booking] returns [True] exactly when the store holds a
    booking of that user, date and time; it then removes the matching rows
    and nothing else; when it returns [False] the store is left as it was. *)
Theorem cancel_booking_spec (d : db) (user_id : Z) (date_str time_str : pystr) :
  let d' := fst (cancel_booking d user_id date_str time_str) in
  let removed := snd (cancel_booking d user_id date_str time_str) in
  (removed = true <->
     exists b, In b (bookings d) /\ b_user_id b = user_id
               /\ b_date b = date_str /\ b_time b = time_str)
  /\ d' = with_bookings d
            (List.filter (fun b => negb (owned_at_slot user_id date_str time_str b))
               (bookings d))
            (bookings_seq d)
  /\ (forall b, In b (bookings d') <->
        In b (bookings d)
        /\ ~ (b_user_id b = user_id /\ b_date b = date_str /\ b_time b = time_str))
  /\ (removed = false -> d' = d).
Proof.
  cbv zeta. unfold cancel_booking.
  pose proof (delete_bookings_rowcount d (owned_at_slot user_id date_str time_str)) as Hcount.
  pose proof (delete_bookings_none d (owned_at_slot user_id date_str time_str)) as Hnone.
  destruct (delete_bookings d _) as [d' rowcount] eqn:Hdel. simpl in *.
  split; [|split; [|split]].
  - rewrite Hcount, existsb_exists. split.
    + intros (b & Hb & Ho). apply owned_at_slot_iff in Ho. eauto.
    + intros (b & Hb & Ho). apply owned_at_slot_iff in Ho. eauto.
  - unfold delete_bookings in Hdel. congruence.
  - unfold delete_bookings in Hdel. injection Hdel as <- _. simpl.
    intros b. rewrite filter_In, negb_true_iff, <- owned_at_slot_iff.
    destruct (owned_at_slot user_id date_str time_str b); split; intros [? ?];
      split; congruence.
  - rewrite Hcount. assumption.
Qed.

(** The privileged variant, on the same pattern. *)
Lemma cancel_booking_any_spec (d : db) (date_str time_str : pystr) :
  let d' := fst (cancel_booking_any d date_str time_str) in
  let removed := snd (cancel_booking_any d date_str time_str) in
  (removed = true <->
     exists b, In b (bookings d) /\ b_date b = date_str /\ b_time b = time_str)
  /\ (removed = false -> d' = d).
Proof.
  cbv zeta. unfold cancel_booking_any.
  pose proof (delete_bookings_rowcount d (at_slot date_str time_str)) as Hcount.
  pose proof (delete_bookings_none d (at_slot date_str time_str)) as Hnone.
  destruct (delete_bookings d _) as [d' rowcount] eqn:Hdel. simpl in *. split.
  - rewrite Hcount, existsb_exists. split.
    + intros (b & Hb & Ho). apply at_slot_iff in Ho. eauto.
    + intros (b & Hb & Ho). apply at_slot_iff in Ho. eauto.
  - rewrite Hcount. assumption.
Qed.

(** ** Booking dialogue *)

Section Dialogue.
Context `{PyLib}.

Lemma digits_10_15_iff (s : pystr) :
  digits_10_15 s = true <->
  Forall (fun c => re_digit c = true) s /\ 10 <= len s <= 15.
Proof.
  unfold digits_10_15. rewrite !andb_true_iff, !Z.leb_le.
  assert (forallb re_digit s = true <-> Forall (fun c => re_digit c = true) s) as ->.
  { induction s as [|c s IH]; simpl.
    - split; constructor.
    - rewrite andb_true_iff, IH. split.
      + intros [? ?]; constructor; assumption.
      + intros Hall; inversion Hall; auto. }
  tauto.
Qed.

Lemma phone_match_valid (phone : pystr) : phone_match phone = true <-> valid_phone phone.
Proof.
  unfold phone_match, valid_phone. split.
  - destruct phone as [|c rest].
    + intros Hd. exists []. split; [auto | apply digits_10_15_iff, Hd].
    + intros Hd. apply orb_true_iff in Hd as [Hd | Hd].
      * apply andb_true_iff in Hd as [Hc Hd]. apply N.eqb_eq in Hc. subst c.
        exists rest. split; [auto | apply digits_10_15_iff, Hd].
      * exists (c :: rest). split; [auto | apply digits_10_15_iff, Hd].
  - intros (digits & [-> | ->] & Hd).
    + apply digits_10_15_iff in Hd. destruct digits; [assumption|].
      rewrite Hd. apply orb_true_r.
    + apply digits_10_15_iff in Hd. rewrite Hd. unfold chr_eqb. rewrite N.eqb_refl.
      reflexivity.
Qed.

(** What [fsm_enter_name] does: it accepts a text exactly when the text,
    stripped, has at least 5 characters, whatever the number of its words. *)
Lemma fsm_enter_name_accepts (m : message) (w : world) :
  let full_name := strip (or_empty (m_text m)) in
  5 <= len full_name ->
  fsm_enter_name m w =
    (inr tt,
     mk_world (w_db w)
       (mk_session (Some entering_phone) (<["full_name" := full_name]> (s_data (w_session w))))
       (w_sent w ++ [mk_reply PROMPT_PHONE None])).
Proof.
  cbv zeta. intros Hlen. unfold fsm_enter_name.
  apply Z.ltb_ge in Hlen. rewrite Hlen. reflexivity.
Qed.

(** C4, as the code has it: when the user affirms in the confirm state and
    [create_booking] reports the conflict, the state becomes
    [choosing_time], the conflict message is sent, the slots still free on
    the same date are offered, and the session data is left as it was: it
    keeps [full_name], [phone], [topic] and [date], and the [time] that was
    just refused as well. *)
Theorem confirm_conflict_keeps_data (now : pystr) (m : message) (w : world)
    (full_name phone date_str time_str topic : pystr) :
  let data := s_data (w_session w) in
  let upserted :=
    upsert_user (w_db w) now (m_from_id m) (or_empty (m_first_name m))
      (or_empty (m_last_name m)) (or_empty (m_username m)) in
  In (str_lower (strip (or_empty (m_text m)))) YES_WORDS ->
  data !! "full_name" = Some full_name ->
  data !! "phone" = Some phone ->
  data !! "date" = Some date_str ->
  data !! "time" = Some time_str ->
  data !! "topic" = Some topic ->
  fst (snd (create_booking (fst upserted) now (snd upserted)
              full_name phone date_str time_str topic)) = false ->
  let w' := snd (fsm_confirm now m w) in
  let rewound :=
    mk_world (fst upserted) (mk_session (Some choosing_time) data)
      (w_sent w ++ [mk_reply MSG_CONFLICT None]) in
  s_state (w_session w') = Some choosing_time
  /\ s_data (w_session w') = data
  /\ s_data (w_session w') !! "time" = Some time_str
  /\ w_db w' = fst upserted
  /\ bookings (w_db w') = bookings (w_db w)
  /\ match times_inline_kb date_str rewound with
     | (inr kb, _) =>
         fsm_confirm now m w =
           (inr tt,
            mk_world (fst upserted) (mk_session (Some choosing_time) data)
              (w_sent w ++ [mk_reply MSG_CONFLICT None;
                            mk_reply PROMPT_OTHER_TIME (Some kb)]))
     | (inl e, _) => fsm_confirm now m w = (inl e, rewound)
     end.
Proof.
  cbv zeta. intros Hyes Hname Hphone Hdate Htime Htopic Hconflict.
  apply pystr_in_In in Hyes.
  assert (Hbs : bookings (fst (upsert_user (w_db w) now (m_from_id m)
                  (or_empty (m_first_name m)) (or_empty (m_last_name m))
                  (or_empty (m_username m)))) = bookings (w_db w)).
  { unfold upsert_user. destruct (List.find _ _); reflexivity. }
  unfold fsm_confirm. rewrite Hyes.
  unfold mbind, M_bind, get_data, upsert_sender, on_db, getitem. simpl.
  destruct (upsert_user _ _ _ _ _ _) as [d1 uid] eqn:Hup. simpl in *.
  rewrite Hname, Hphone, Hdate, Htime, Htopic. unfold mret, M_ret. simpl.
  unfold create_booking in *.
  destruct (insert_booking d1 uid full_name phone date_str time_str topic now);
    simpl in Hconflict; [discriminate|].
  simpl. unfold times_inline_kb. simpl.
  destruct (available_slots d1 date_str) as [[|s slots]|]; simpl.
  - repeat split; auto. unfold answer; simpl. rewrite <- app_assoc. reflexivity.
  - destruct (fold_left _ _ _) as [rows row]. simpl. repeat split; auto.
    unfold answer; simpl. rewrite <- app_assoc. reflexivity.
  - repeat split; auto.
Qed.

End Dialogue.

(** ** The router and the booking dialogue *)

Section Routing.
Context `{PyLib} `{Aiogram}.

#[local] Existing Instance M_ret.
#[local] Existing Instance M_bind.

#[local] Arguments u : simpl never.

(** Where a message goes that is neither a command of the bot nor the text
    of a menu button: in a state that takes a text, to the handler of the
    state; in any other, to [any_text] when it has a text and to no handler
    when it has none. *)
Lemma route_plain_message (st : option fsm_state) (m : message) (caption : option pystr) :
  is_bot_command m caption = false ->
  is_menu_button m = false ->
  route st m caption =
    match st with
    | Some ob_name => Some H_ob_enter_name
    | Some ob_phone => Some H_ob_enter_phone
    | Some entering_name => Some H_fsm_enter_name
    | Some entering_phone => Some H_fsm_enter_phone
    | Some entering_topic => Some H_fsm_enter_topic
    | Some confirm => Some H_fsm_confirm
    | _ => if passes st m caption HasText then Some H_any_text else None
    end.
Proof.
  intros Hcmd Hmenu.
  unfold is_bot_command, BOT_COMMANDS, MESSAGE_HANDLERS in Hcmd.
  cbn [flat_map fst app existsb] in Hcmd.
  unfold is_menu_button, pystr_in, MENU_LABELS, MESSAGE_HANDLERS in Hmenu.
  cbn [flat_map fst app] in Hmenu.
  unfold route, MESSAGE_HANDLERS. cbn [List.find fst passes].
  remember (m_text m) as text eqn:Etext in *.
  repeat (apply orb_false_elim in Hcmd as [? Hcmd]).
  repeat match goal with
         | Hc : command_filter _ _ _ = false |- _ => rewrite Hc; clear Hc
         end.
  destruct text as [t|].
  - cbn [existsb] in Hmenu.
    repeat (apply orb_false_elim in Hmenu as [? Hmenu]).
    repeat match goal with
           | Hc : pystr_eqb _ _ = false |- _ => rewrite Hc; clear Hc
           end.
    destruct st as [[]|]; cbn [fsm_state_eqb option_map snd]; try reflexivity;
      destruct t; reflexivity.
  - destruct st as [[]|]; reflexivity.
Qed.

(** In a state of the booking dialogue that takes a text, such a message
    goes to the handler of the state. *)
Lemma route_booking_state (now : pystr) (today : date) (st : fsm_state) (m : message)
    (caption : option pystr) (handler : message -> M unit) :
  booking_handler now st = Some handler ->
  is_bot_command m caption = false ->
  is_menu_button m = false ->
  exists h, route (Some st) m caption = Some h
            /\ dialogue_handler now today h = Some handler.
Proof.
  intros Hh Hcmd Hmenu. rewrite (route_plain_message _ _ _ Hcmd Hmenu).
  destruct st; try discriminate Hh; injection Hh as <-;
    eexists; (split; [reflexivity|]); reflexivity.
Qed.

(** [cmd_book], which [/book] and the booking button of the menu go to in
    every state, empties the session and starts the dialogue at the choice
    of the date; the store is left as it is. *)
Lemma cmd_book_restarts (today : date) (m : message) (w : world) :
  w_session (snd (cmd_book today m w)) = mk_session (Some choosing_date) ∅
  /\ w_db (snd (cmd_book today m w)) = w_db w.
Proof.
  unfold cmd_book, dates_kb, mbind, M_bind, state_clear, set_state, answer.
  cbn [w_db w_session w_sent].
  destruct (dates_inline_kb today); split; reflexivity.
Qed.

(** On such a message [dialogue_step] is what the router and the handler it
    picks do. *)
Lemma dialogue_step_on_message (now : pystr) (today : date) (w : world) (m : message)
    (caption : option pystr) :
  is_bot_command m caption = false ->
  is_menu_button m = false ->
  dialogue_step now w m = option_map snd (on_message now today w m caption).
Proof.
  intros Hcmd Hmenu. unfold dialogue_step, on_message.
  rewrite (route_plain_message _ _ _ Hcmd Hmenu).
  destruct (s_state (w_session w)) as [[]|]; try reflexivity;
    destruct (passes _ m caption HasText); reflexivity.
Qed.

(** C7, as the code has it: in each state of the booking dialogue that
    takes a text, a message that fails the state's validation and is
    neither a command of the bot nor the text of a menu button goes to the
    handler of the state, which sends one corrective prompt and returns,
    with the state tag, every entry of the session data and the store as
    they were. *)
Theorem invalid_input_keeps_session (now : pystr) (today : date) (st : fsm_state)
    (m : message) (caption : option pystr) (w : world) :
  s_state (w_session w) = Some st ->
  invalid_input st m ->
  is_bot_command m caption = false ->
  is_menu_button m = false ->
  exists h handler prompt,
    route (s_state (w_session w)) m caption = Some h
    /\ dialogue_handler now today h = Some handler
    /\ booking_handler now st = Some handler
    /\ handler m w =
         (inr tt, mk_world (w_db w) (w_session w) (w_sent w ++ [mk_reply prompt None]))
    /\ on_message now today w m caption =
         Some (inr tt,
               mk_world (w_db w) (w_session w) (w_sent w ++ [mk_reply prompt None]))
    /\ dialogue_step now w m =
         Some (mk_world (w_db w) (w_session w) (w_sent w ++ [mk_reply prompt None]))
    /\ s_state (w_session (snd (handler m w))) = Some st
    /\ (forall key, s_data (w_session (snd (handler m w))) !! key
                    = s_data (w_session w) !! key).
Proof.
  intros Hst Hbad Hcmd Hmenu.
  assert (Hrun : exists handler prompt,
    booking_handler now st = Some handler
    /\ handler m w =
         (inr tt, mk_world (w_db w) (w_session w) (w_sent w ++ [mk_reply prompt None]))).
  { destruct st; simpl in Hbad; try contradiction.
    - exists fsm_enter_name, PROMPT_FULL_NAME. split; [reflexivity|].
      unfold fsm_enter_name. apply Z.ltb_lt in Hbad. rewrite Hbad. reflexivity.
    - exists fsm_enter_phone, PROMPT_BAD_PHONE. split; [reflexivity|].
      unfold fsm_enter_phone.
      destruct (phone_match _) eqn:Hm; [|reflexivity].
      apply phone_match_valid in Hm. contradiction.
    - exists fsm_enter_topic, PROMPT_SHORT_TOPIC. split; [reflexivity|].
      unfold fsm_enter_topic. apply Z.ltb_lt in Hbad. rewrite Hbad. reflexivity.
    - exists (fsm_confirm now), PROMPT_YES_NO. split; [reflexivity|].
      destruct Hbad as [Hyes Hno]. unfold fsm_confirm.
      destruct (pystr_in _ YES_WORDS) eqn:Hy; [apply pystr_in_In in Hy; contradiction|].
      destruct (pystr_in _ NO_WORDS) eqn:Hn; [apply pystr_in_In in Hn; contradiction|].
      reflexivity. }
  destruct Hrun as (handler & prompt & Hh & Hrun).
  destruct (route_booking_state now today st m caption handler Hh Hcmd Hmenu)
    as (h & Hroute & Hbody).
  exists h, handler, prompt.
  unfold on_message, dialogue_step. rewrite Hst, Hroute, Hbody, Hh, Hrun. simpl. auto 10.
Qed.

End Routing.

(** ** Normalization *)

Lemma rstrip_cons_nonspace (c : N) (s : pystr) :
  py_isspace c = false -> rstrip (c :: s) = c :: rstrip s.
Proof. intros Hc. simpl. rewrite Hc. destruct (rstrip s); reflexivity. Qed.

Lemma rstrip_app_nonspace (a s : pystr) :
  Forall (fun c => py_isspace c = false) a -> rstrip (a ++ s) = a ++ rstrip s.
Proof.
  induction 1 as [|c a Hc _ IH]; [reflexivity|].
  rewrite <- app_comm_cons, rstrip_cons_nonspace, IH by assumption. reflexivity.
Qed.

Lemma lstrip_collapse_in_run (s : pystr) :
  lstrip (collapse_ws_from true s) = collapse_ws_from true s.
Proof.
  induction s as [|c s IH]; simpl; [reflexivity|].
  destruct (py_isspace c) eqn:Hc; [assumption|]. simpl. rewrite Hc. reflexivity.
Qed.

Lemma lstrip_collapse_ws (s : pystr) :
  lstrip (collapse_ws s) = collapse_ws_from true s.
Proof.
  unfold collapse_ws. destruct s as [|c s]; simpl; [reflexivity|].
  destruct (py_isspace c) eqn:Hc; simpl.
  - apply lstrip_collapse_in_run.
  - rewrite Hc. reflexivity.
Qed.

Lemma rev_token (x : N) (cur : pystr) :
  Forall (fun c => py_isspace c = false) (x :: cur) -> is_token (rev (x :: cur)).
Proof.
  intros Hcur. split.
  - intros E. apply (f_equal (@length N)) in E. rewrite length_rev in E. discriminate.
  - apply Forall_forall. intros y Hy. apply list_elem_of_In, in_rev in Hy.
    rewrite Forall_forall in Hcur. apply Hcur, list_elem_of_In. assumption.
Qed.

Lemma split_aux_tokens (cur s : pystr) :
  Forall (fun c => py_isspace c = false) cur ->
  Forall is_token (split_aux cur s).
Proof.
  revert cur. induction s as [|c s IH]; intros cur Hcur; simpl.
  - destruct cur as [|x cur]; constructor; [|constructor].
    apply rev_token; assumption.
  - destruct (py_isspace c) eqn:Hc.
    + destruct cur as [|x cur]; [apply IH; constructor|].
      constructor; [|apply IH; constructor].
      apply rev_token; assumption.
    + apply IH. constructor; assumption.
Qed.

Lemma split_tokens (s : pystr) : Forall is_token (split s).
Proof. apply split_aux_tokens. constructor. Qed.

Lemma join_sp_nil_tokens (ws : list pystr) :
  Forall is_token ws -> join_sp ws = [] -> ws = [].
Proof.
  intros Hall Hnil. destruct Hall as [|w ws [Hw _] _]; [reflexivity|].
  exfalso. simpl in Hnil. destruct ws.
  - contradiction.
  - destruct w; [contradiction | discriminate].
Qed.

Lemma rev_nonspace (cur : pystr) :
  Forall (fun c => py_isspace c = false) cur ->
  Forall (fun c => py_isspace c = false) (rev cur).
Proof.
  rewrite !Forall_forall. intros Hall c Hc. apply Hall.
  apply list_elem_of_In. apply list_elem_of_In in Hc. apply in_rev. assumption.
Qed.

(** Collapsing whitespace and stripping leaves the tokens, one space apart. *)
Lemma rstrip_collapse_split (s cur : pystr) :
  Forall (fun c => py_isspace c = false) cur ->
  rstrip (rev cur ++ collapse_ws_from (match cur with [] => true | _ => false end) s)
  = join_sp (split_aux cur s).
Proof.
  revert cur. induction s as [|c s IH]; intros cur Hcur.
  - simpl. rewrite app_nil_r.
    destruct cur as [|x cur]; [reflexivity|].
    rewrite <- (app_nil_r (rev (x :: cur))) at 1.
    rewrite rstrip_app_nonspace by (apply rev_nonspace; assumption).
    simpl. apply app_nil_r.
  - simpl. destruct (py_isspace c) eqn:Hc.
    + destruct cur as [|x cur].
      * apply (IH []). constructor.
      * rewrite rstrip_app_nonspace by (apply rev_nonspace; assumption).
        pose proof (IH [] ltac:(constructor)) as IH0. simpl in IH0.
        pose proof (split_aux_tokens [] s ltac:(constructor)) as Htok.
        change (rstrip (SPACE :: collapse_ws_from true s))
          with (match rstrip (collapse_ws_from true s) with
                | [] => if py_isspace SPACE then [] else [SPACE]
                | r' => SPACE :: r'
                end).
        rewrite IH0.
        destruct (split_aux [] s) as [|w ws] eqn:Hsp.
        -- simpl. apply app_nil_r.
        -- destruct (join_sp (w :: ws)) eqn:Hj.
           ++ apply join_sp_nil_tokens in Hj; [discriminate | assumption].
           ++ change (join_sp (rev (x :: cur) :: w :: ws))
                with (rev (x :: cur) ++ SPACE :: join_sp (w :: ws)).
              rewrite Hj. reflexivity.
    + specialize (IH (c :: cur) ltac:(constructor; assumption)).
      simpl in IH. rewrite <- app_assoc in IH. simpl in IH.
      destruct cur; exact IH.
Qed.

Lemma strip_collapse_ws (s : pystr) : strip (collapse_ws s) = join_sp (split s).
Proof.
  unfold strip. rewrite lstrip_collapse_ws.
  apply (rstrip_collapse_split s []). constructor.
Qed.

Lemma split_aux_word (w cur rest : pystr) :
  Forall (fun c => py_isspace c = false) w ->
  split_aux cur (w ++ rest) = split_aux (rev w ++ cur) rest.
Proof.
  intros Hw. revert cur. induction Hw as [|c w Hc _ IH]; intros cur; [reflexivity|].
  simpl. rewrite Hc, IH, <- app_assoc. reflexivity.
Qed.

Lemma split_aux_end (cur : pystr) : cur <> [] -> split_aux cur [] = [rev cur].
Proof. destruct cur; [contradiction | reflexivity]. Qed.

Lemma split_aux_space (cur rest : pystr) :
  cur <> [] -> split_aux cur (SPACE :: rest) = rev cur :: split_aux [] rest.
Proof. destruct cur; [contradiction | reflexivity]. Qed.

Lemma rev_not_nil (w : pystr) : w <> [] -> rev w <> [].
Proof.
  intros Hw E. apply Hw. apply (f_equal (@rev N)) in E.
  rewrite rev_involutive in E. exact E.
Qed.

(** Splitting what was joined gives the tokens back. *)
Lemma split_join_sp (ws : list pystr) : Forall is_token ws -> split (join_sp ws) = ws.
Proof.
  unfold split. induction 1 as [|w ws [Hne Hw] Hws IH]; [reflexivity|].
  destruct ws as [|w2 ws].
  - simpl. rewrite <- (app_nil_r w) at 1.
    rewrite split_aux_word, app_nil_r, split_aux_end, rev_involutive
      by auto using rev_not_nil.
    reflexivity.
  - change (join_sp (w :: w2 :: ws)) with (w ++ SPACE :: join_sp (w2 :: ws)).
    rewrite split_aux_word, app_nil_r, split_aux_space, rev_involutive, IH
      by auto using rev_not_nil.
    reflexivity.
Qed.

Lemma In_split_aux (c : N) (w cur s : pystr) :
  In w (split_aux cur s) -> In c w -> In c cur \/ In c s.
Proof.
  revert cur. induction s as [|x s IH]; intros cur; simpl.
  - destruct cur as [|y cur]; [contradiction|].
    intros [<- | []] Hc. left. apply in_rev. exact Hc.
  - destruct (py_isspace x).
    + destruct cur as [|y cur].
      * intros Hw Hc. destruct (IH [] Hw Hc) as [[] | ?]; auto.
      * intros [<- | Hw] Hc; [left; apply in_rev; exact Hc|].
        destruct (IH [] Hw Hc) as [[] | ?]; auto.
    + intros Hw Hc. destruct (IH (x :: cur) Hw Hc) as [[<- | ?] | ?]; auto.
Qed.

Lemma In_join_sp (c : N) (ws : list pystr) :
  In c (join_sp ws) -> c = SPACE \/ exists w, In w ws /\ In c w.
Proof.
  induction ws as [|w ws IH]; [contradiction|].
  destruct ws as [|w2 ws].
  - simpl. intros Hc. right. exists w. auto.
  - change (join_sp (w :: w2 :: ws)) with (w ++ SPACE :: join_sp (w2 :: ws)).
    intros Hc. apply in_app_or in Hc as [Hc | [<- | Hc]].
    + right. exists w. split; [left; reflexivity | assumption].
    + left; reflexivity.
    + destruct (IH Hc) as [-> | (w' & Hw' & Hcw)]; [left; reflexivity|].
      right. exists w'. split; [right; assumption | assumption].
Qed.

Lemma In_join_split (c : N) (s : pystr) :
  In c (join_sp (split s)) -> c = SPACE \/ In c s.
Proof.
  intros Hc. apply In_join_sp in Hc as [-> | (w & Hw & Hc)]; [left; reflexivity|].
  destruct (In_split_aux c w [] s Hw Hc) as [[] | ?]. right; assumption.
Qed.

Lemma replace_chr_absent (old : N) (new s : pystr) :
  ~ In old s -> replace_chr old new s = s.
Proof.
  unfold replace_chr. induction s as [|c s IH]; [reflexivity|].
  intros Hout. simpl. destruct (chr_eqb c old) eqn:E.
  - apply N.eqb_eq in E. subst. exfalso. apply Hout. left; reflexivity.
  - simpl. f_equal. apply IH. intros Hin. apply Hout. right; assumption.
Qed.

Lemma In_replace_chr (c old new : N) (s : pystr) :
  In c (replace_chr old [new] s) -> c = new \/ (In c s /\ c <> old).
Proof.
  unfold replace_chr. induction s as [|x s IH]; [contradiction|].
  simpl. intros Hc. apply in_app_or in Hc as [Hc | Hc].
  - destruct (chr_eqb x old) eqn:E.
    + destruct Hc as [<- | []]. left; reflexivity.
    + destruct Hc as [<- | []]. right. split; [left; reflexivity|].
      intros ->. unfold chr_eqb in E. rewrite N.eqb_refl in E. discriminate.
  - destruct (IH Hc) as [-> | [Hin Hne]]; [left; reflexivity|].
    right. split; [right; assumption | assumption].
Qed.

Section Normalize.
Context `{PyLib}.

Lemma normalize_unfold (s : pystr) :
  normalize s =
  join_sp (split (map keep_or_space (replace_chr (chr "ё") (u "е") (str_lower s)))).
Proof. unfold normalize. apply strip_collapse_ws. Qed.

(** A character of a normalized string is the space or a character the
    whitelist step kept. *)
Lemma normalize_chars (s : pystr) (c : N) :
  In c (normalize s) ->
  c = SPACE
  \/ (keep_or_space c = c /\ c <> chr "ё" /\ (c = chr "е" \/ In c (str_lower s))).
Proof.
  rewrite normalize_unfold. intros Hc.
  apply In_join_split in Hc as [-> | Hc]; [left; reflexivity|].
  apply in_map_iff in Hc as (y & Hy & Hin).
  assert (Hy' : y <> chr "ё" /\ (y = chr "е" \/ In y (str_lower s))).
  { apply (In_replace_chr y (chr "ё") (chr "е")) in Hin as [-> | [Hin Hne]].
    - split; [discriminate | left; reflexivity].
    - split; [assumption | right; assumption]. }
  unfold keep_or_space in Hy.
  destruct (re_ignorecase normalize_class y) eqn:Hk.
  - subst y. right. split; [|assumption]. unfold keep_or_space. rewrite Hk. reflexivity.
  - left. symmetry; assumption.
Qed.

(** C10: [normalize] is idempotent, for every [str.lower] that leaves
    alone the characters it produces, the space and the letter [е]. *)
Theorem normalize_idempotent (s : pystr) :
  str_lower_laws -> normalize (normalize s) = normalize s.
Proof.
  intros (Himage & Hfixed & Hspace & Hie).
  assert (Hlower : str_lower (normalize s) = normalize s).
  { apply Hfixed. intros c Hc.
    apply normalize_chars in Hc as [-> | (_ & _ & [-> | Hc])].
    - exact Hspace.
    - exact Hie.
    - eapply Himage; eassumption. }
  rewrite (normalize_unfold (normalize s)), Hlower.
  rewrite replace_chr_absent.
  - assert (Hmap : map keep_or_space (normalize s) = normalize s).
    { rewrite <- (map_id (normalize s)) at 2. apply map_ext_in. intros c Hc.
      apply normalize_chars in Hc as [-> | (Hk & _)]; [|exact Hk].
      unfold keep_or_space. destruct (re_ignorecase normalize_class SPACE); reflexivity. }
    rewrite Hmap. rewrite (normalize_unfold s) at 1.
    rewrite split_join_sp by apply split_tokens.
    symmetry. apply normalize_unfold.
  - intros Hin. apply normalize_chars in Hin as [Hsp | (_ & Hne & _)].
    + discriminate Hsp.
    + apply Hne; reflexivity.
Qed.

End Normalize.

(** ** Binary64 order and arithmetic

    The comparisons of [float] order the numbers that are not NaN, and the
    scores the program computes are not NaN. *)


Ltac cmp_cases :=
  repeat match goal with
  | H : context [Pos.compare_cont Eq ?a ?b] |- _ =>
      change (Pos.compare_cont Eq a b) with (Pos.compare a b) in H
  | |- context [Pos.compare_cont Eq ?a ?b] =>
      change (Pos.compare_cont Eq a b) with (Pos.compare a b)
  end;
  repeat match goal with
  | H : context [Z.compare ?a ?b] |- _ => destruct (Z.compare_spec a b); simpl in H
  | |- context [Z.compare ?a ?b] => destruct (Z.compare_spec a b); simpl
  | H : context [Pos.compare ?a ?b] |- _ => destruct (Pos.compare_spec a b); simpl in H
  | |- context [Pos.compare ?a ?b] => destruct (Pos.compare_spec a b); simpl
  end;
  subst; try discriminate; try reflexivity; try lia; try congruence.

Lemma SF_total (x y : spec_float) :
  x <> S754_nan -> y <> S754_nan -> SFltb x y = false -> SFleb y x = true.
Proof.
  unfold SFltb, SFleb.
  destruct x as [sx|sx| |sx mx ex], y as [sy|sy| |sy my ey]; try congruence;
    try destruct sx; try destruct sy; simpl; intros _ _; try congruence; cmp_cases.
Qed.

Lemma SF_leb_total (x y : spec_float) :
  x <> S754_nan -> y <> S754_nan -> SFleb x y = false -> SFltb y x = true.
Proof.
  unfold SFltb, SFleb.
  destruct x as [sx|sx| |sx mx ex], y as [sy|sy| |sy my ey]; try congruence;
    try destruct sx; try destruct sy; simpl; intros _ _; try congruence; cmp_cases.
Qed.

Lemma SF_ltb_leb (x y : spec_float) : SFltb x y = true -> SFleb x y = true.
Proof.
  unfold SFltb, SFleb. destruct (SFcompare x y) as [[]|]; congruence.
Qed.

Lemma SF_leb_trans (x y z : spec_float) :
  SFleb x y = true -> SFleb y z = true -> SFleb x z = true.
Proof.
  unfold SFleb.
  destruct x as [sx|sx| |sx mx ex], y as [sy|sy| |sy my ey], z as [sz|sz| |sz mz ez];
    try destruct sx; try destruct sy; try destruct sz; simpl; try congruence;
    intros H1 H2; cmp_cases.
Qed.
Lemma iter_pos_shr_nonneg (p : positive) (mrs : shr_record) :
  0 <= shr_m mrs -> 0 <= shr_m (SpecFloat.iter_pos shr_1 p mrs).
Proof.
  assert (Hone : forall r, 0 <= shr_m r -> 0 <= shr_m (shr_1 r)).
  { intros [m r s] Hm. simpl in Hm. destruct m as [|[q|q|]|q]; simpl; lia. }
  revert mrs. induction p as [p IH|p IH|]; intros mrs Hm; simpl; auto.
Qed.

Lemma shr_fexp_nonneg (m e : Z) (l : location) :
  0 <= m -> 0 <= shr_m (fst (shr_fexp prec emax m e l)).
Proof.
  intros Hm. unfold shr_fexp, shr.
  assert (0 <= shr_m (shr_record_of_loc m l)) by (destruct l as [|[]]; exact Hm).
  destruct (fexp prec emax (Zdigits2 m + e) - e); simpl; auto using iter_pos_shr_nonneg.
Qed.

Lemma binary_round_aux_not_nan (sx : bool) (mx ex : Z) (lx : location) :
  0 <= mx -> binary_round_aux prec emax sx mx ex lx <> S754_nan.
Proof.
  intros Hm. unfold binary_round_aux.
  pose proof (shr_fexp_nonneg mx ex lx Hm) as H1.
  destruct (shr_fexp prec emax mx ex lx) as [mrs' e']. simpl in H1.
  assert (H2 : 0 <= round_nearest_even (shr_m mrs') (loc_of_shr_record mrs')).
  { unfold round_nearest_even. destruct (loc_of_shr_record mrs') as [|[]];
      try destruct (Z.even _); lia. }
  pose proof (shr_fexp_nonneg _ e' loc_Exact H2) as H3.
  destruct (shr_fexp prec emax _ e' loc_Exact) as [mrs'' e'']. simpl in H3.
  destruct (shr_m mrs''); [discriminate | | lia].
  destruct (e'' <=? emax - prec); discriminate.
Qed.

Lemma binary_normalize_not_nan (m e : Z) (s : bool) :
  binary_normalize prec emax m e s <> S754_nan.
Proof.
  unfold binary_normalize, binary_round.
  destruct m; [discriminate | |];
    destruct (shl_align _ _ _); apply binary_round_aux_not_nan; lia.
Qed.

Lemma SF_ltb_leb_trans (x y z : spec_float) :
  SFltb x y = true -> SFleb y z = true -> SFltb x z = true.
Proof.
  unfold SFleb, SFltb.
  destruct x as [sx|sx| |sx mx ex], y as [sy|sy| |sy my ey], z as [sz|sz| |sz mz ez];
    try destruct sx; try destruct sy; try destruct sz; simpl; try congruence;
    intros H1 H2; cmp_cases.
Qed.

Lemma SF_leb_ltb_trans (x y z : spec_float) :
  SFleb x y = true -> SFltb y z = true -> SFltb x z = true.
Proof.
  unfold SFleb, SFltb.
  destruct x as [sx|sx| |sx mx ex], y as [sy|sy| |sy my ey], z as [sz|sz| |sz mz ez];
    try destruct sx; try destruct sy; try destruct sz; simpl; try congruence;
    intros H1 H2; cmp_cases.
Qed.

Lemma SF_ltb_not_leb (x y : spec_float) : SFltb x y = true -> SFleb y x = false.
Proof.
  unfold SFleb, SFltb.
  destruct x as [sx|sx| |sx mx ex], y as [sy|sy| |sy my ey];
    try destruct sx; try destruct sy; simpl; try congruence; intros H1; cmp_cases.
Qed.

Lemma SF_ltb_not_eqb (x y v : spec_float) :
  SFltb x y = true -> SFeqb x v = true -> SFeqb y v = false.
Proof.
  unfold SFeqb, SFltb.
  destruct x as [sx|sx| |sx mx ex], y as [sy|sy| |sy my ey], v as [sv|sv| |sv mv ev];
    try destruct sx; try destruct sy; try destruct sv; simpl; try congruence;
    intros H1 H2; cmp_cases.
Qed.

Lemma ltb_false_leb (x y : float) :
  not_nan x -> not_nan y -> (x <? y)%float = false -> (y <=? x)%float = true.
Proof. rewrite FloatAxioms.ltb_spec, FloatAxioms.leb_spec. apply SF_total. Qed.

Lemma leb_false_ltb (x y : float) :
  not_nan x -> not_nan y -> (x <=? y)%float = false -> (y <? x)%float = true.
Proof. rewrite FloatAxioms.ltb_spec, FloatAxioms.leb_spec. apply SF_leb_total. Qed.

Lemma ltb_leb (x y : float) : (x <? y)%float = true -> (x <=? y)%float = true.
Proof. rewrite FloatAxioms.ltb_spec, FloatAxioms.leb_spec. apply SF_ltb_leb. Qed.

Lemma leb_trans (x y z : float) :
  (x <=? y)%float = true -> (y <=? z)%float = true -> (x <=? z)%float = true.
Proof. rewrite !FloatAxioms.leb_spec. apply SF_leb_trans. Qed.

Lemma ltb_leb_trans (x y z : float) :
  (x <? y)%float = true -> (y <=? z)%float = true -> (x <? z)%float = true.
Proof. rewrite !FloatAxioms.ltb_spec, FloatAxioms.leb_spec. apply SF_ltb_leb_trans. Qed.

Lemma leb_ltb_trans (x y z : float) :
  (x <=? y)%float = true -> (y <? z)%float = true -> (x <? z)%float = true.
Proof. rewrite !FloatAxioms.ltb_spec, FloatAxioms.leb_spec. apply SF_leb_ltb_trans. Qed.

Lemma ltb_not_leb (x y : float) : (x <? y)%float = true -> (y <=? x)%float = false.
Proof. rewrite FloatAxioms.ltb_spec, FloatAxioms.leb_spec. apply SF_ltb_not_leb. Qed.

Lemma ltb_not_eqb (x y v : float) :
  (x <? y)%float = true -> (x =? v)%float = true -> (y =? v)%float = false.
Proof. rewrite FloatAxioms.ltb_spec, !FloatAxioms.eqb_spec. apply SF_ltb_not_eqb. Qed.

Lemma leb_refl (x : float) : not_nan x -> (x <=? x)%float = true.
Proof.
  intros Hx. destruct (x <? x)%float eqn:E.
  - apply ltb_leb; assumption.
  - apply ltb_false_leb; assumption.
Qed.

Lemma float_of_nat_not_nan (n : nat) : not_nan (float_of_nat n).
Proof.
  unfold not_nan, float_of_nat. rewrite of_uint63_spec. apply binary_normalize_not_nan.
Qed.

(** A product with a finite constant. *)
Lemma mul_finite_not_nan (x c : float) (s : bool) (m : positive) (e : Z) :
  Prim2SF c = S754_finite s m e -> not_nan x -> not_nan (x * c)%float.
Proof.
  unfold not_nan. intros Hc Hx. rewrite mul_spec, Hc. unfold SF64mul, SFmul.
  destruct (Prim2SF x); try discriminate; [contradiction|].
  apply binary_round_aux_not_nan. lia.
Qed.

Lemma in_unit_finite (r : float) :
  in_unit r ->
  (exists s, Prim2SF r = S754_zero s) \/ (exists s m e, Prim2SF r = S754_finite s m e).
Proof.
  unfold in_unit. rewrite !FloatAxioms.leb_spec.
  replace (Prim2SF 0) with (S754_zero false) by reflexivity.
  replace (Prim2SF 1) with (S754_finite false 4503599627370496 (-52)) by reflexivity.
  intros [H0 H1]. destruct (Prim2SF r) as [s|[]| |s m e]; try discriminate; eauto.
Qed.

Lemma in_unit_not_nan (r : float) : in_unit r -> not_nan r.
Proof.
  intros Hr. unfold not_nan.
  destruct (in_unit_finite r Hr) as [[s ->] | (s & m & e & ->)]; discriminate.
Qed.

(** A sum with a ratio. *)
Lemma add_unit_not_nan (x r : float) : not_nan x -> in_unit r -> not_nan (x + r)%float.
Proof.
  unfold not_nan. intros Hx Hr. rewrite add_spec. unfold SF64add, SFadd.
  destruct (in_unit_finite r Hr) as [[s ->] | (s & m & e & ->)];
    destruct (Prim2SF x) as [sx|sx| |sx mx ex]; try discriminate; try contradiction.
  - destruct sx, s; discriminate.
  - apply binary_normalize_not_nan.
Qed.

(** ** Retrieval ranking *)

Lemma starts_with_app (sub s : pystr) :
  starts_with sub s = true <-> exists post, s = sub ++ post.
Proof.
  revert s. induction sub as [|x sub IH]; intros s; simpl.
  - split; eauto.
  - destruct s as [|y s].
    + split; [discriminate | intros [post Hp]; discriminate].
    + unfold chr_eqb. rewrite andb_true_iff, N.eqb_eq, IH. split.
      * intros [-> [post ->]]. eauto.
      * intros [post [= -> ->]]. eauto.
Qed.

Lemma contains_occurs (sub s : pystr) : contains sub s = true <-> occurs_in sub s.
Proof.
  unfold occurs_in. induction s as [|y s IH].
  - simpl. rewrite orb_false_r, starts_with_app. split.
    + intros [post ->]. exists [], post. reflexivity.
    + intros (pre & post & Hs). symmetry in Hs.
      apply app_eq_nil in Hs as [-> Hs]. apply app_eq_nil in Hs as [-> ->].
      exists []. reflexivity.
  - simpl. rewrite orb_true_iff, starts_with_app, IH. split.
    + intros [[post ->] | (pre & post & ->)].
      * exists [], post. reflexivity.
      * exists (y :: pre), post. reflexivity.
    + intros ([|x pre] & post & Hs).
      * left. exists post. exact Hs.
      * right. injection Hs as _ ->. eauto.
Qed.

Lemma re_search_any_matches (alts : list string) (q : pystr) :
  re_search_any alts q = true <-> matches alts q.
Proof.
  unfold re_search_any, matches. rewrite existsb_exists.
  split; intros (alt & Hin & Hc); exists alt; (split; [assumption|]);
    apply contains_occurs; assumption.
Qed.

Section Ranking.
Context `{PyLib}.

Lemma score_not_nan (n : nat) (c r : float) (s : bool) (m : positive) (e : Z) :
  Prim2SF c = S754_finite s m e -> in_unit r -> not_nan (float_of_nat n * c + r)%float.
Proof.
  intros Hc Hr. apply add_unit_not_nan; [|assumption].
  eapply mul_finite_not_nan; [eassumption | apply float_of_nat_not_nan].
Qed.

Lemma faq_score_not_nan (q : pystr) (row : faq_row) :
  in_unit (seq_ratio q (normalize (f_tags row))) -> not_nan (faq_score q row).
Proof. intros Hr. unfold faq_score. eapply score_not_nan; [reflexivity | exact Hr]. Qed.

(** The loop of [search_faq_answer] finds the first row of the highest
    score, if one beats the score it starts from. *)
Lemma faq_fold_spec (q : pystr) (rows : list faq_row) (best_answer : option pystr)
    (best_score : float) :
  not_nan best_score ->
  Forall (fun r => not_nan (faq_score q r)) rows ->
  let res := fold_left (faq_step q) rows (best_answer, best_score) in
  (res = (best_answer, best_score)
   /\ Forall (fun r => (faq_score q r <=? best_score)%float = true) rows)
  \/ (exists i r,
        nth_error rows i = Some r
        /\ res = (Some (f_answer r), faq_score q r)
        /\ (best_score <? faq_score q r)%float = true
        /\ Forall (fun r' => (faq_score q r' <=? faq_score q r)%float = true) rows
        /\ forall j r', (j < i)%nat -> nth_error rows j = Some r' ->
                        (faq_score q r' <? faq_score q r)%float = true).
Proof.
  cbv zeta. revert best_answer best_score.
  induction rows as [|r0 rows IH]; intros best_answer best_score Hbest Hrows.
  - left. split; [reflexivity | constructor].
  - inversion Hrows as [|? ? Hr0 Hrest]; subst. simpl.
    replace (faq_step q (best_answer, best_score) r0)
      with (if (best_score <? faq_score q r0)%float
            then (Some (f_answer r0), faq_score q r0)
            else (best_answer, best_score)) by reflexivity.
    destruct (best_score <? faq_score q r0)%float eqn:Hlt.
    + right.
      destruct (IH (Some (f_answer r0)) (faq_score q r0) Hr0 Hrest)
        as [[Hres Hall] | (i & r & Hi & Hres & Hgt & Hall & Hfirst)].
      * exists O, r0. split; [reflexivity|]. split; [exact Hres|].
        split; [exact Hlt|]. split.
        -- constructor; [apply leb_refl; assumption | exact Hall].
        -- intros j r' Hj. lia.
      * exists (S i), r. split; [exact Hi|]. split; [exact Hres|]. split.
        -- eapply ltb_leb_trans; [exact Hlt | apply ltb_leb; exact Hgt].
        -- split; [constructor; [apply ltb_leb; exact Hgt | exact Hall]|].
           intros [|j] r' Hj Hnth.
           ++ injection Hnth as <-. exact Hgt.
           ++ apply (Hfirst j r'); [lia | exact Hnth].
    + assert (Hle0 : (faq_score q r0 <=? best_score)%float = true)
        by (apply ltb_false_leb; assumption).
      destruct (IH best_answer best_score Hbest Hrest)
        as [[Hres Hall] | (i & r & Hi & Hres & Hgt & Hall & Hfirst)].
      * left. split; [exact Hres | constructor; assumption].
      * right. exists (S i), r. split; [exact Hi|]. split; [exact Hres|].
        split; [exact Hgt|]. split.
        -- constructor; [|exact Hall].
           apply ltb_leb. eapply leb_ltb_trans; eassumption.
        -- intros [|j] r' Hj Hnth.
           ++ injection Hnth as <-. eapply leb_ltb_trans; eassumption.
           ++ apply (Hfirst j r'); [lia | exact Hnth].
Qed.

Lemma first_route_cons (alts : list string) (answer : pystr)
    (rest : list (list string * pystr)) (q : pystr) :
  (matches alts q -> first_route ((alts, answer) :: rest) q = Some answer)
  /\ (~ matches alts q -> first_route ((alts, answer) :: rest) q = first_route rest q).
Proof.
  simpl. destruct (re_search_any alts q) eqn:E.
  - apply re_search_any_matches in E. split; [reflexivity | contradiction].
  - split; [|reflexivity]. intros Hm. apply re_search_any_matches in Hm. congruence.
Qed.

(** C5: [search_faq_answer] tries the five priority patterns on the
    normalized query, in their order, and returns the answer of the first
    that matches. When none matches it scores every FAQ row as 2.0 times
    the number of tokens the query shares with the normalized tags plus the
    similarity ratio of the two strings, and returns the answer of the
    first row of the highest score if that score is at least 0.9, and
    [None] if every score is below 0.9. *)
Theorem search_faq_answer_spec (d : db) (user_text : pystr) :
  let q := normalize user_text in
  let score := faq_score q in
  let found := search_faq_answer d user_text in
  let dorm := matches ["общежит"] q in
  let grants := matches ["скидк"; "грант"] q in
  let price := matches ["стоим"; "цена"; "оплат"] q in
  let open_day := matches ["дод"; "день открытых двер"; "открытых дверей"] q in
  let deadlines := matches ["сроки"; "прием"; "приём"] q in
  Forall (fun row => in_unit (seq_ratio q (normalize (f_tags row)))) (faq d) ->
  (forall row,
     score row =
       (float_of_nat (shared_tokens q (normalize (f_tags row))) * 2.0
        + seq_ratio q (normalize (f_tags row)))%float)
  /\ (dorm -> found = Some ANSWER_DORM)
  /\ (~ dorm -> grants -> found = Some ANSWER_GRANTS)
  /\ (~ dorm -> ~ grants -> price -> found = Some ANSWER_PRICE)
  /\ (~ dorm -> ~ grants -> ~ price -> open_day -> found = Some ANSWER_OPEN_DAY)
  /\ (~ dorm -> ~ grants -> ~ price -> ~ open_day -> deadlines ->
      found = Some ANSWER_DEADLINES)
  /\ (~ dorm -> ~ grants -> ~ price -> ~ open_day -> ~ deadlines ->
      (Forall (fun row => (score row <? FAQ_THRESHOLD)%float = true) (faq d)
       /\ found = None)
      \/ (exists i row,
            nth_error (faq d) i = Some row
            /\ (FAQ_THRESHOLD <=? score row)%float = true
            /\ Forall (fun row' => (score row' <=? score row)%float = true) (faq d)
            /\ (forall j row', (j < i)%nat -> nth_error (faq d) j = Some row' ->
                               (score row' <? score row)%float = true)
            /\ found = Some (f_answer row))).
Proof.
  cbv zeta. intros Hratio.
  set (q := normalize user_text).
  assert (Hnn : Forall (fun r => not_nan (faq_score q r)) (faq d)).
  { eapply Forall_impl; [exact Hratio|]. intros row. apply faq_score_not_nan. }
  unfold search_faq_answer. fold q. unfold hard_routes.
  split; [reflexivity|].
  split; [intros H1; rewrite (proj1 (first_route_cons _ _ _ q) H1); reflexivity|].
  split; [intros H1 H2;
          rewrite (proj2 (first_route_cons _ _ _ q) H1),
                  (proj1 (first_route_cons _ _ _ q) H2); reflexivity|].
  split; [intros H1 H2 H3;
          rewrite (proj2 (first_route_cons _ _ _ q) H1),
                  (proj2 (first_route_cons _ _ _ q) H2),
                  (proj1 (first_route_cons _ _ _ q) H3); reflexivity|].
  split; [intros H1 H2 H3 H4;
          rewrite (proj2 (first_route_cons _ _ _ q) H1),
                  (proj2 (first_route_cons _ _ _ q) H2),
                  (proj2 (first_route_cons _ _ _ q) H3),
                  (proj1 (first_route_cons _ _ _ q) H4); reflexivity|].
  split; [intros H1 H2 H3 H4 H5;
          rewrite (proj2 (first_route_cons _ _ _ q) H1),
                  (proj2 (first_route_cons _ _ _ q) H2),
                  (proj2 (first_route_cons _ _ _ q) H3),
                  (proj2 (first_route_cons _ _ _ q) H4),
                  (proj1 (first_route_cons _ _ _ q) H5); reflexivity|].
  intros H1 H2 H3 H4 H5.
  rewrite (proj2 (first_route_cons _ _ _ q) H1), (proj2 (first_route_cons _ _ _ q) H2),
          (proj2 (first_route_cons _ _ _ q) H3), (proj2 (first_route_cons _ _ _ q) H4),
          (proj2 (first_route_cons _ _ _ q) H5).
  simpl first_route.
  assert (Hfloor : not_nan FAQ_FLOOR) by (unfold not_nan; vm_compute; discriminate).
  assert (Hthr : not_nan FAQ_THRESHOLD) by (unfold not_nan; vm_compute; discriminate).
  destruct (faq_fold_spec q (faq d) None FAQ_FLOOR Hfloor Hnn)
    as [[-> Hall] | (i & row & Hi & -> & Hgt & Hall & Hfirst)].
  - left. replace (FAQ_THRESHOLD <=? FAQ_FLOOR)%float with false by reflexivity.
    split; [|reflexivity].
    eapply Forall_impl; [exact Hall|]. intros r Hr. simpl in Hr.
    eapply leb_ltb_trans; [exact Hr | reflexivity].
  - destruct (FAQ_THRESHOLD <=? faq_score q row)%float eqn:Hthreshold.
    + right. exists i, row. auto.
    + left. split; [|reflexivity].
      assert (Hbelow : (faq_score q row <? FAQ_THRESHOLD)%float = true).
      { apply leb_false_ltb; [exact Hthr | | exact Hthreshold].
        rewrite Forall_forall in Hnn. apply Hnn.
        apply list_elem_of_In. eapply nth_error_In; eassumption. }
      eapply Forall_impl; [exact Hall|]. intros r Hr. simpl in Hr.
      eapply leb_ltb_trans; eassumption.
Qed.

End Ranking.

(** *** The stable descending sort *)

Section SortDesc.
Context {A : Type}.
Implicit Types (x y : float * A) (l : list (float * A)).

Lemma insert_desc_perm x l : Permutation (insert_desc x l) (x :: l).
Proof.
  induction l as [|y l IH]; simpl; [reflexivity|].
  destruct (fst x <? fst y)%float; [|reflexivity].
  rewrite IH. apply perm_swap.
Qed.

Lemma sort_desc_perm l : Permutation (sort_desc l) l.
Proof.
  induction l as [|x l IH]; simpl; [reflexivity|].
  rewrite insert_desc_perm. constructor. exact IH.
Qed.

Lemma insert_desc_hd x y l :
  key_ge y x -> HdRel key_ge y l -> HdRel key_ge y (insert_desc x l).
Proof.
  intros Hyx Hhd. destruct l as [|z l]; simpl; [constructor; exact Hyx|].
  destruct (fst x <? fst z)%float; constructor; [|exact Hyx].
  inversion Hhd; assumption.
Qed.

Lemma insert_desc_sorted x l :
  not_nan (fst x) -> Forall (fun y => not_nan (fst y)) l ->
  Sorted key_ge l -> Sorted key_ge (insert_desc x l).
Proof.
  intros Hx Hl Hs. induction Hs as [|y l Hs IH Hhd]; simpl.
  - repeat constructor.
  - inversion Hl as [|? ? Hy Hl']; subst.
    destruct (fst x <? fst y)%float eqn:Hlt.
    + constructor; [apply IH; assumption|].
      apply insert_desc_hd; [apply ltb_leb; exact Hlt | exact Hhd].
    + constructor; [constructor; assumption|].
      constructor. apply ltb_false_leb; assumption.
Qed.

Lemma sort_desc_sorted l :
  Forall (fun y => not_nan (fst y)) l -> Sorted key_ge (sort_desc l).
Proof.
  induction 1 as [|x l Hx Hl IH]; simpl; [constructor|].
  apply insert_desc_sorted; [exact Hx | | exact IH].
  apply Forall_forall. intros y Hy. rewrite Forall_forall in Hl. apply Hl.
  apply list_elem_of_In. apply list_elem_of_In in Hy.
  eapply Permutation_in; [apply sort_desc_perm | exact Hy].
Qed.

(** Entries of one key keep their order. *)
Lemma insert_desc_stable (v : float) x l :
  List.filter (fun y => (fst y =? v)%float) (insert_desc x l)
  = List.filter (fun y => (fst y =? v)%float) (x :: l).
Proof.
  induction l as [|y l IH]; [reflexivity|].
  simpl insert_desc. destruct (fst x <? fst y)%float eqn:Hlt; [|reflexivity].
  simpl in *. rewrite IH.
  destruct (fst x =? v)%float eqn:Hx; [|reflexivity].
  rewrite (ltb_not_eqb _ _ _ Hlt Hx). reflexivity.
Qed.

Lemma sort_desc_stable (v : float) l :
  List.filter (fun y => (fst y =? v)%float) (sort_desc l)
  = List.filter (fun y => (fst y =? v)%float) l.
Proof.
  induction l as [|x l IH]; [reflexivity|].
  simpl sort_desc. rewrite insert_desc_stable. simpl. rewrite IH. reflexivity.
Qed.

Lemma slice_to_int_length (k : Z) (l : list A) :
  0 <= k -> len (slice_to_int k l) = Z.min k (len l).
Proof.
  intros Hk. unfold slice_to_int, len.
  destruct (Z.ltb_spec k 0); [lia|]. rewrite length_firstn. lia.
Qed.

End SortDesc.

Section KbSearch.
Context `{PyLib}.

Lemma kb_score_not_nan (q : pystr) (it : kb_row) :
  in_unit (seq_ratio q (slice_to 1000 (kb_text it))) -> not_nan (kb_score q it).
Proof. intros Hr. unfold kb_score. eapply score_not_nan; [reflexivity | exact Hr]. Qed.

Lemma keyed_sorted (f : kb_row -> float) (l : list (float * kb_row)) :
  Forall (fun p => fst p = f (snd p)) l ->
  Sorted key_ge l ->
  Sorted (fun a b => (f b <=? f a)%float = true) (map snd l).
Proof.
  intros Hkey Hs. induction Hs as [|p l Hs IH Hhd]; simpl; [constructor|].
  inversion Hkey as [|? ? Hp Hl]; subst.
  constructor; [apply IH; exact Hl|].
  destruct Hhd as [|p' l' Hpp']; simpl; constructor.
  inversion Hl as [|? ? Hp' _]; subst.
  unfold key_ge in Hpp'. rewrite Hp, Hp' in Hpp'. exact Hpp'.
Qed.

Lemma keyed_filter (f : kb_row -> float) (v : float) (l : list (float * kb_row)) :
  Forall (fun p => fst p = f (snd p)) l ->
  map snd (List.filter (fun p => (fst p =? v)%float) l)
  = List.filter (fun it => (f it =? v)%float) (map snd l).
Proof.
  induction 1 as [|p l Hp Hl IH]; simpl; [reflexivity|].
  rewrite Hp. destruct (f (snd p) =? v)%float; simpl; rewrite IH; reflexivity.
Qed.

(** C9: for a count [topk] that is not negative, [kb_search] ranks the
    entries by the score 1.5 times the number of tokens the query shares with
    the entry text plus the similarity ratio against the first 1000
    characters of that text, in descending order, entries of one score in
    their corpus order, and returns the first [topk] of the ranking: at
    most [topk] entries, and exactly [topk] when the corpus has as many,
    however low the scores. *)
Theorem kb_search_spec (d : db) (query : pystr) (topk : Z) :
  let q := normalize query in
  let score := kb_score q in
  let result := kb_search d query topk in
  0 <= topk ->
  Forall (fun it => in_unit (seq_ratio q (slice_to 1000 (kb_text it)))) (kb d) ->
  (forall it,
     kb_text it =
       normalize (k_title it ++ u " " ++ k_tags it ++ u " " ++ firstn 1500 (k_content it))
     /\ score it =
          (float_of_nat (shared_tokens q (kb_text it)) * 1.5
           + seq_ratio q (firstn 1000 (kb_text it)))%float)
  /\ len result <= topk
  /\ (topk <= len (kb d) -> len result = topk)
  /\ exists ranked,
       Permutation ranked (kb d)
       /\ StronglySorted (fun a b => (score b <=? score a)%float = true) ranked
       /\ (forall v, List.filter (fun it => (score it =? v)%float) ranked
                     = List.filter (fun it => (score it =? v)%float) (kb d))
       /\ result = firstn (Z.to_nat topk) ranked.
Proof.
  cbv zeta. intros Hk Hratio.
  set (q := normalize query).
  set (scored := map (fun it => (kb_score q it, it)) (kb d)).
  assert (Hsnd : map snd scored = kb d).
  { unfold scored. rewrite List.map_map. simpl. apply List.map_id. }
  assert (Hkey : Forall (fun p => fst p = kb_score q (snd p)) (sort_desc scored)).
  { apply Forall_forall. intros p Hp. apply list_elem_of_In in Hp.
    apply (Permutation_in _ (sort_desc_perm scored)) in Hp.
    unfold scored in Hp. apply in_map_iff in Hp as (it & <- & _). reflexivity. }
  assert (Hnn : Forall (fun p : float * kb_row => not_nan (fst p)) scored).
  { unfold scored. apply Forall_forall. intros p Hp. apply list_elem_of_In in Hp.
    apply in_map_iff in Hp as (it & <- & Hit). simpl.
    apply kb_score_not_nan. rewrite Forall_forall in Hratio.
    apply Hratio. apply list_elem_of_In. exact Hit. }
  assert (Hres : kb_search d query topk
                 = firstn (Z.to_nat topk) (map snd (sort_desc scored))).
  { unfold kb_search, kb_all. fold q. fold scored. unfold slice_to_int.
    destruct (Z.ltb_spec topk 0); [lia|]. symmetry. apply firstn_map. }
  assert (Hlen : length (map snd (sort_desc scored)) = length (kb d)).
  { rewrite length_map. rewrite (Permutation_length (sort_desc_perm scored)).
    unfold scored. apply length_map. }
  split; [intros it; split; reflexivity|].
  rewrite Hres. unfold len. rewrite length_firstn, Hlen.
  split; [lia|]. split; [lia|].
  exists (map snd (sort_desc scored)). split; [|split; [|split]].
  - rewrite <- Hsnd. apply Permutation_map, sort_desc_perm.
  - apply Sorted_StronglySorted.
    + intros a b c Hab Hbc. eapply leb_trans; eassumption.
    + apply keyed_sorted; [exact Hkey | apply sort_desc_sorted; exact Hnn].
  - intros v. rewrite <- (keyed_filter _ _ _ Hkey), sort_desc_stable.
    rewrite (keyed_filter (kb_score q)), Hsnd; [reflexivity|].
    unfold scored. apply Forall_forall. intros p Hp. apply list_elem_of_In in Hp.
    apply in_map_iff in Hp as (it & <- & _). reflexivity.
  - reflexivity.
Qed.

End KbSearch.

(** ** More on the store: keys, users, and how the operations compose *)

Lemma next_rowid_above (seq : Z) (ids : list Z) :
  seq < next_rowid seq ids /\ Forall (fun i => i < next_rowid seq ids) ids.
Proof.
  unfold next_rowid. induction ids as [|i ids [IH1 IH2]]; simpl.
  - split; [lia | constructor].
  - split; [lia|]. constructor; [lia|].
    eapply Forall_impl; [exact IH2|]. simpl. intros; lia.
Qed.

Lemma next_rowid_fresh (seq : Z) (ids : list Z) : ~ In (next_rowid seq ids) ids.
Proof.
  intros Hin. destruct (next_rowid_above seq ids) as [_ Hall].
  rewrite Forall_forall in Hall. apply list_elem_of_In in Hin.
  specialize (Hall _ Hin). simpl in Hall. lia.
Qed.

Lemma NoDup_snoc {A} (l : list A) (x : A) :
  List.NoDup l -> ~ In x l -> List.NoDup (l ++ [x]).
Proof.
  intros Hl Hx.
  induction Hl as [|y l Hy Hl IH]; simpl.
  - constructor; [intros []|constructor].
  - constructor.
    + rewrite in_app_iff. intros [Hin | [Heq | []]]; [contradiction|].
      apply Hx. left. symmetry. assumption.
    + apply IH. intros Hin. apply Hx. right; assumption.
Qed.

Lemma find_app_new {A} (f : A -> bool) (l : list A) (x : A) :
  List.find f l = None -> f x = true -> List.find f (l ++ [x]) = Some x.
Proof.
  induction l as [|y l IH]; simpl; intros Hnone Hx.
  - rewrite Hx. reflexivity.
  - destruct (f y); [discriminate|]. auto.
Qed.

Lemma upsert_user_row (d : db) (now : pystr) (tg_id : Z) (first last uname : pystr) :
  let r := upsert_user d now tg_id first last uname in
  (exists row, In row (users (fst r)) /\ u_id row = snd r /\ u_tg_id row = tg_id)
  /\ bookings (fst r) = bookings d.
Proof.
  cbv zeta. unfold upsert_user.
  destruct (List.find (fun r => u_tg_id r =? tg_id) (users d)) as [row|] eqn:Hfind; simpl.
  - split; [|reflexivity].
    apply find_some in Hfind as [Hin Htg]. apply Z.eqb_eq in Htg. eauto.
  - split; [|reflexivity].
    eexists. split; [apply in_or_app; right; left; reflexivity|]. split; reflexivity.
Qed.

(** X1: [upsert_user] run again for the same Telegram id, whatever names it
    is given, returns the same row id and leaves the store as the first run
    left it; the first run keeps every row of [users] and does not touch
    [bookings]. A row of [users] is never updated. *)
Theorem upsert_user_again (d : db) (now now' : pystr) (tg_id : Z)
    (first last uname first' last' uname' : pystr) :
  let r := upsert_user d now tg_id first last uname in
  upsert_user (fst r) now' tg_id first' last' uname' = r
  /\ (exists row, In row (users (fst r)) /\ u_id row = snd r /\ u_tg_id row = tg_id)
  /\ (forall row, In row (users d) -> In row (users (fst r)))
  /\ bookings (fst r) = bookings d.
Proof.
  cbv zeta.
  destruct (upsert_user_row d now tg_id first last uname) as [Hrow Hbs].
  split; [|split; [assumption|split; [|assumption]]].
  - unfold upsert_user.
    destruct (List.find (fun r => u_tg_id r =? tg_id) (users d)) as [row|] eqn:Hfind.
    + simpl. rewrite Hfind. reflexivity.
    + simpl. rewrite (find_app_new _ _ _ Hfind) by (simpl; apply Z.eqb_refl).
      reflexivity.
  - unfold upsert_user.
    destruct (List.find (fun r => u_tg_id r =? tg_id) (users d)); simpl; [auto|].
    intros row Hin. apply in_or_app. left; assumption.
Qed.

Lemma NoDup_map_filter {A B} (f : A -> B) (p : A -> bool) (l : list A) :
  List.NoDup (map f l) -> List.NoDup (map f (List.filter p l)).
Proof.
  induction l as [|a l IH]; simpl; intros Hnd; [constructor|].
  inversion Hnd as [|? ? Hnotin Hnd']; subst.
  destruct (p a); simpl; [|auto].
  constructor; [|auto].
  intros Hin. apply Hnotin. apply in_map_iff in Hin as (x & Hx & Hin).
  apply filter_In in Hin as [Hin _]. apply in_map_iff. eauto.
Qed.

Lemma Forall_filter_keep {A} (P : A -> Prop) (p : A -> bool) (l : list A) :
  Forall P l -> Forall P (List.filter p l).
Proof.
  induction 1 as [|a l Ha Hl IH]; simpl; [constructor|].
  destruct (p a); [constructor|]; assumption.
Qed.

Lemma delete_bookings_keys (d : db) (where_ : booking -> bool) :
  keys_ok d -> keys_ok (fst (delete_bookings d where_)).
Proof.
  intros (Hu & Ht & Hb & Hus & Hbs). unfold delete_bookings, keys_ok. simpl.
  repeat split; try assumption.
  - apply NoDup_map_filter. assumption.
  - apply Forall_filter_keep. assumption.
Qed.

Lemma delete_bookings_references (d : db) (where_ : booking -> bool) :
  references_ok d -> references_ok (fst (delete_bookings d where_)).
Proof.
  unfold references_ok, delete_bookings. simpl. apply Forall_filter_keep.
Qed.

Lemma find_none_not_in (tg_id : Z) (us : list user_row) :
  List.find (fun r => u_tg_id r =? tg_id) us = None -> ~ In tg_id (map u_tg_id us).
Proof.
  intros Hnone Hin. apply in_map_iff in Hin as (r & Hr & Hin).
  pose proof (find_none _ _ Hnone r Hin) as Hf. simpl in Hf.
  apply Z.eqb_neq in Hf. contradiction.
Qed.

Lemma Forall_le_next (A : Type) (f : A -> Z) (seq : Z) (l : list A) :
  Forall (fun a => f a <= next_rowid seq (map f l)) l.
Proof.
  destruct (next_rowid_above seq (map f l)) as [_ Hall].
  rewrite Forall_forall in Hall. apply Forall_forall. intros a Hin.
  assert (f a < next_rowid seq (map f l)); [|lia].
  apply (Hall (f a)). apply list_elem_of_In. apply in_map.
  apply list_elem_of_In. assumption.
Qed.

Lemma store_step_keys (d d' : db) :
  store_step d d' -> keys_ok d /\ references_ok d -> keys_ok d' /\ references_ok d'.
Proof.
  intros Hstep [Hk Hr]. destruct Hstep.
  - unfold create_booking, insert_booking.
    destruct (unique_date_time_ok d date_str time_str && foreign_key_ok d user_id)
      eqn:Hok; simpl; [|auto].
    apply andb_true_iff in Hok as [_ Hfk].
    destruct Hk as (Hu & Ht & Hb & Hus & Hbs).
    split.
    + unfold keys_ok. simpl. repeat split; try assumption.
      * rewrite map_app. simpl. apply NoDup_snoc; [assumption|].
        apply next_rowid_fresh.
      * apply Forall_app. split; [apply Forall_le_next|].
        constructor; [simpl; lia|constructor].
    + unfold references_ok. simpl. apply Forall_app. split; [exact Hr|].
      constructor; [exact Hfk|constructor].
  - split; [apply delete_bookings_keys | apply delete_bookings_references]; assumption.
  - split; [apply delete_bookings_keys | apply delete_bookings_references]; assumption.
  - unfold upsert_user.
    destruct (List.find (fun r => u_tg_id r =? tg_id) (users d)) eqn:Hfind; simpl; [auto|].
    destruct Hk as (Hu & Ht & Hb & Hus & Hbs).
    split.
    + unfold keys_ok. simpl. repeat split; try assumption.
      * rewrite map_app. simpl. apply NoDup_snoc; [assumption|]. apply next_rowid_fresh.
      * rewrite map_app. simpl. apply NoDup_snoc; [assumption|].
        apply find_none_not_in. assumption.
      * apply Forall_app. split; [apply Forall_le_next|].
        constructor; [simpl; lia|constructor].
    + unfold references_ok, foreign_key_ok in *. simpl.
      eapply Forall_impl; [exact Hr|]. simpl. intros b Hb'.
      rewrite existsb_app, Hb'. reflexivity.
Qed.

(** X2: in every store the program reaches, the ids of [users] and of
    [bookings] and the Telegram ids of [users] are without duplicates, no id
    exceeds its AUTOINCREMENT counter, and every booking refers to a row of
    [users]. *)
Theorem reachable_keys_ok (d : db) : reachable d -> keys_ok d /\ references_ok d.
Proof.
  induction 1 as [faq0 kb0 | d d' _ IH Hstep].
  - unfold keys_ok, references_ok. simpl.
    repeat split; constructor.
  - eapply store_step_keys; eassumption.
Qed.

(** X3: with the user id [upsert_user] has just returned, the foreign key
    of [bookings] cannot fail: [create_booking] succeeds exactly when no row
    holds the slot. It then appends one confirmed row with a new, larger id
    and the values given, and otherwise leaves the store as [upsert_user]
    left it. *)
Theorem create_booking_after_upsert (d : db) (now now' : pystr) (tg_id : Z)
    (first last uname full_name phone date_str time_str topic : pystr) :
  let r := upsert_user d now tg_id first last uname in
  let c := create_booking (fst r) now' (snd r) full_name phone date_str time_str topic in
  foreign_key_ok (fst r) (snd r) = true
  /\ fst (snd c) = unique_date_time_ok d date_str time_str
  /\ (unique_date_time_ok d date_str time_str = true ->
      exists id,
        bookings (fst c) =
          bookings d ++ [mk_booking id (snd r) full_name phone date_str time_str topic
                                    CONFIRMED now']
        /\ Forall (fun b => b_id b < id) (bookings d)
        /\ users (fst c) = users (fst r))
  /\ (unique_date_time_ok d date_str time_str = false -> fst c = fst r).
Proof.
  cbv zeta.
  destruct (upsert_user_row d now tg_id first last uname)
    as ((row & Hin & Hid & _) & Hbs).
  set (r := upsert_user d now tg_id first last uname) in *.
  assert (Hfk : foreign_key_ok (fst r) (snd r) = true).
  { unfold foreign_key_ok. apply existsb_exists. exists row.
    split; [assumption|]. apply Z.eqb_eq. assumption. }
  assert (Hu : unique_date_time_ok (fst r) date_str time_str
               = unique_date_time_ok d date_str time_str).
  { unfold unique_date_time_ok. rewrite Hbs. reflexivity. }
  split; [assumption|].
  unfold create_booking, insert_booking. rewrite Hfk, Hu, andb_true_r.
  destruct (unique_date_time_ok d date_str time_str); simpl.
  - split; [reflexivity|]. split; [|discriminate]. intros _.
    eexists. rewrite Hbs. split; [reflexivity|]. split; [|reflexivity].
    destruct (next_rowid_above (bookings_seq (fst r)) (map b_id (bookings d))) as [_ Hall].
    clear -Hall. apply Forall_forall. intros b Hb. rewrite Forall_forall in Hall.
    apply (Hall (b_id b)). apply list_elem_of_In, in_map, list_elem_of_In. assumption.
  - split; [reflexivity|]. split; [discriminate|reflexivity].
Qed.

Lemma delete_bookings_twice (d : db) (where_ : booking -> bool) :
  delete_bookings (fst (delete_bookings d where_)) where_
  = (fst (delete_bookings d where_), 0).
Proof.
  unfold delete_bookings. simpl.
  assert (Hnone : existsb where_ (List.filter (fun b => negb (where_ b)) (bookings d)) = false).
  { apply not_true_is_false. intros Hex. apply existsb_exists in Hex as (b & Hin & Hw).
    apply filter_In in Hin as [_ Hn]. rewrite Hw in Hn. discriminate. }
  rewrite (filter_none _ _ Hnone), (filter_negb_all _ _ Hnone). reflexivity.
Qed.

(** X6: cancelling the same booking a second time finds nothing: it returns
    [False] and leaves the store as the first cancellation left it. The
    same holds for the privileged [cancel_booking_any]. *)
Theorem cancel_booking_twice (d : db) (user_id : Z) (date_str time_str : pystr) :
  (let r := cancel_booking d user_id date_str time_str in
   cancel_booking (fst r) user_id date_str time_str = (fst r, false))
  /\ (let r := cancel_booking_any d date_str time_str in
      cancel_booking_any (fst r) date_str time_str = (fst r, false)).
Proof.
  cbv zeta. unfold cancel_booking, cancel_booking_any. split.
  - pose proof (delete_bookings_twice d (owned_at_slot user_id date_str time_str)) as H2.
    destruct (delete_bookings d (owned_at_slot user_id date_str time_str)) as [d1 n1].
    cbn [fst snd] in *. rewrite H2. reflexivity.
  - pose proof (delete_bookings_twice d (at_slot date_str time_str)) as H2.
    destruct (delete_bookings d (at_slot date_str time_str)) as [d1 n1].
    cbn [fst snd] in *. rewrite H2. reflexivity.
Qed.

(** X5: a booking just made is cancelled by its owner: [cancel_booking]
    returns [True] and the tables are as before the booking, except that
    the AUTOINCREMENT counter has moved on, so that the id is not given
    again. *)
Theorem create_then_cancel (d : db) (now : pystr) (user_id : Z)
    (full_name phone date_str time_str topic : pystr) :
  let c := create_booking d now user_id full_name phone date_str time_str topic in
  fst (snd c) = true ->
  let r := cancel_booking (fst c) user_id date_str time_str in
  snd r = true
  /\ bookings (fst r) = bookings d
  /\ users (fst r) = users d
  /\ bookings_seq d < bookings_seq (fst r).
Proof.
  cbv zeta. unfold create_booking.
  destruct (insert_booking _ _ _ _ _ _ _ _) as [d'|] eqn:Hins; simpl; [|discriminate].
  intros _.
  pose proof Hins as Hins'. apply insert_booking_Some in Hins' as (Hfree & id & Hbs).
  unfold cancel_booking.
  pose proof (delete_bookings_rowcount d' (owned_at_slot user_id date_str time_str)) as Hcount.
  unfold delete_bookings in *. simpl in *. rewrite Hbs in *.
  assert (Hown : existsb (owned_at_slot user_id date_str time_str) (bookings d) = false).
  { apply not_true_is_false. intros Hex. apply existsb_exists in Hex as (b & Hin & Ho).
    unfold owned_at_slot in Ho. apply andb_true_iff in Ho as [_ Ho].
    assert (existsb (at_slot date_str time_str) (bookings d) = true); [|congruence].
    apply existsb_exists. eauto. }
  assert (Hnew : owned_at_slot user_id date_str time_str
            (mk_booking id user_id full_name phone date_str time_str topic CONFIRMED now)
          = true).
  { apply owned_at_slot_iff. auto. }
  split; [|split; [|split]].
  - rewrite Hcount, existsb_app. simpl. rewrite Hnew. apply orb_true_r.
  - rewrite List.filter_app, (filter_negb_all _ _ Hown). simpl. rewrite Hnew. simpl.
    apply app_nil_r.
  - unfold insert_booking in Hins.
    destruct (_ && _); [|discriminate]. injection Hins as <-. reflexivity.
  - unfold insert_booking in Hins.
    destruct (_ && _); [|discriminate]. injection Hins as <-. simpl.
    destruct (next_rowid_above (bookings_seq d) (map b_id (bookings d))). assumption.
Qed.

Section Availability.
Context `{PyLib}.

Lemma available_slots_filter (d : db) (date_str : pystr) :
  available_slots d date_str =
  match strptime_ymd date_str with
  | None => None
  | Some parsed =>
      Some (List.filter (fun s => negb (existsb (confirmed_at date_str s) (bookings d)))
              (time_slots_for_date (datetime_of_date parsed)))
  end.
Proof.
  unfold available_slots. destruct (strptime_ymd date_str) as [parsed|]; [|reflexivity].
  f_equal. apply filter_ext. intros s. f_equal.
  destruct (existsb (confirmed_at date_str s) (bookings d)) eqn:E.
  - apply bool_decide_eq_true. apply taken_iff. assumption.
  - apply bool_decide_eq_false. rewrite taken_iff. congruence.
Qed.

(** X4: a successful [create_booking] takes exactly its slot out of
    [available_slots]: the free slots of its date are the former ones
    without its time, in the same order, and the free slots of every other
    date are as before. *)
Theorem create_booking_takes_slot (d : db) (now : pystr) (user_id : Z)
    (full_name phone date_str time_str topic : pystr) :
  let c := create_booking d now user_id full_name phone date_str time_str topic in
  fst (snd c) = true ->
  available_slots (fst c) date_str
    = List.filter (fun s => negb (pystr_eqb s time_str)) <$> available_slots d date_str
  /\ (forall other, other <> date_str ->
        available_slots (fst c) other = available_slots d other).
Proof.
  cbv zeta. unfold create_booking.
  destruct (insert_booking _ _ _ _ _ _ _ _) as [d'|] eqn:Hins; simpl; [|discriminate].
  intros _. apply insert_booking_Some in Hins as (_ & id & Hbs).
  split.
  - rewrite !available_slots_filter.
    destruct (strptime_ymd date_str) as [parsed|]; [|reflexivity]. simpl. f_equal.
    rewrite Hbs. induction (time_slots_for_date _) as [|s l IH]; [reflexivity|].
    simpl. rewrite existsb_app. simpl. rewrite orb_false_r.
    unfold confirmed_at at 2. unfold at_slot. simpl.
    rewrite !pystr_eqb_refl. simpl. rewrite andb_true_r.
    replace (pystr_eqb time_str s) with (pystr_eqb s time_str).
    2:{ destruct (pystr_eqb s time_str) eqn:E1, (pystr_eqb time_str s) eqn:E2;
          try reflexivity.
        - apply pystr_eqb_eq in E1. subst. rewrite pystr_eqb_refl in E2. discriminate.
        - apply pystr_eqb_eq in E2. subst. rewrite pystr_eqb_refl in E1. discriminate. }
    destruct (existsb (confirmed_at date_str s) (bookings d)); simpl.
    + exact IH.
    + destruct (pystr_eqb s time_str); simpl; [exact IH | f_equal; exact IH].
  - intros other Hother. rewrite !available_slots_filter.
    destruct (strptime_ymd other) as [parsed|]; [|reflexivity]. f_equal.
    apply filter_ext. intros s. f_equal. rewrite Hbs, existsb_app. simpl.
    rewrite orb_false_r.
    replace (confirmed_at other s _) with false; [apply orb_false_r|].
    symmetry. apply not_true_is_false. intros Hc.
    apply confirmed_at_iff in Hc as (Hd & _). simpl in Hd. congruence.
Qed.

(** X7: a cancellation gives the slot back: after [cancel_booking_any], or
    after a [cancel_booking] that returned [True] in a store satisfying
    [UNIQUE(date, time)], no row holds the slot, and the slot is among the
    [available_slots] of the date again when it is a slot of the day. *)
Theorem cancel_frees_slot (d : db) (user_id : Z) (date_str time_str : pystr) (parsed : date) :
  unique_date_time d ->
  strptime_ymd date_str = Some parsed ->
  In time_str (time_slots_for_date (datetime_of_date parsed)) ->
  let r := cancel_booking d user_id date_str time_str in
  let a := cancel_booking_any d date_str time_str in
  (snd r = true ->
     unique_date_time_ok (fst r) date_str time_str = true
     /\ exists slots, available_slots (fst r) date_str = Some slots /\ In time_str slots)
  /\ unique_date_time_ok (fst a) date_str time_str = true
  /\ exists slots, available_slots (fst a) date_str = Some slots /\ In time_str slots.
Proof.
  intros Huniq Hparse Hslot. cbv zeta.
  assert (Hfree : forall d', unique_date_time_ok d' date_str time_str = true ->
            exists slots, available_slots d' date_str = Some slots /\ In time_str slots).
  { intros d' Hok. rewrite available_slots_filter, Hparse. eexists. split; [reflexivity|].
    apply filter_In. split; [assumption|]. apply negb_true_iff.
    apply not_true_is_false. intros Hex. apply existsb_exists in Hex as (b & Hin & Hc).
    unfold confirmed_at in Hc. apply andb_true_iff in Hc as [Hc _].
    unfold unique_date_time_ok in Hok. apply negb_true_iff in Hok.
    assert (existsb (at_slot date_str time_str) (bookings d') = true); [|congruence].
    apply existsb_exists. eauto. }
  assert (Hany : unique_date_time_ok (fst (cancel_booking_any d date_str time_str))
                   date_str time_str = true).
  { unfold cancel_booking_any, delete_bookings, unique_date_time_ok. simpl.
    apply negb_true_iff, not_true_is_false. intros Hex.
    apply existsb_exists in Hex as (b & Hin & Hw).
    apply filter_In in Hin as [_ Hn]. rewrite Hw in Hn. discriminate. }
  split; [|split; [assumption | apply Hfree; assumption]].
  intros Hok.
  assert (Hown : unique_date_time_ok (fst (cancel_booking d user_id date_str time_str))
                   date_str time_str = true).
  { unfold cancel_booking in *.
    pose proof (delete_bookings_rowcount d (owned_at_slot user_id date_str time_str)) as Hcount.
    unfold delete_bookings, unique_date_time_ok in *. simpl in *.
    rewrite Hcount in Hok. clear Hcount.
    specialize (Huniq date_str time_str).
    apply negb_true_iff, not_true_is_false. intros Hex.
    apply existsb_exists in Hex as (b & Hin & Hw).
    apply filter_In in Hin as [Hin Hn].
    apply existsb_exists in Hok as (b0 & Hin0 & Ho).
    apply negb_true_iff in Hn.
    assert (Hb0 : at_slot date_str time_str b0 = true).
    { unfold owned_at_slot in Ho. apply andb_true_iff in Ho as [_ Ho]. exact Ho. }
    assert (b = b0); [|subst; congruence].
    clear -Huniq Hin Hin0 Hw Hb0.
    induction (bookings d) as [|x l IH]; [destruct Hin|].
    simpl in Huniq. destruct Hin as [-> | Hin], Hin0 as [-> | Hin0].
    - reflexivity.
    - rewrite Hw in Huniq. simpl in Huniq.
      assert (In b0 (List.filter (at_slot date_str time_str) l))
        by (apply filter_In; auto).
      destruct (List.filter (at_slot date_str time_str) l); [contradiction|simpl in *; lia].
    - rewrite Hb0 in Huniq. simpl in Huniq.
      assert (In b (List.filter (at_slot date_str time_str) l))
        by (apply filter_In; auto).
      destruct (List.filter (at_slot date_str time_str) l); [contradiction|simpl in *; lia].
    - apply IH; try assumption.
      destruct (at_slot date_str time_str x); simpl in Huniq; lia. }
  split; [assumption | apply Hfree; assumption].
Qed.

End Availability.

(** ** Escaping *)

Lemma flat_map_flat_map {A B C} (f : A -> list B) (g : B -> list C) (l : list A) :
  flat_map g (flat_map f l) = flat_map (fun a => flat_map g (f a)) l.
Proof.
  induction l as [|a l IH]; simpl; [reflexivity|].
  rewrite flat_map_app, IH. reflexivity.
Qed.

Lemma escape_chr_cases (c : N) :
  (c = 38%N /\ escape_chr c = [38; 97; 109; 112; 59]%N)
  \/ (c = 60%N /\ escape_chr c = [38; 108; 116; 59]%N)
  \/ (c = 62%N /\ escape_chr c = [38; 103; 116; 59]%N)
  \/ (c <> 38%N /\ c <> 60%N /\ c <> 62%N /\ escape_chr c = [c]).
Proof.
  unfold escape_chr, chr_eqb.
  change (chr "&") with 38%N. change (chr "<") with 60%N. change (chr ">") with 62%N.
  change (u "&amp;") with [38; 97; 109; 112; 59]%N.
  change (u "&lt;") with [38; 108; 116; 59]%N.
  change (u "&gt;") with [38; 103; 116; 59]%N.
  destruct (N.eqb_spec c 38); [auto|].
  destruct (N.eqb_spec c 60); [auto|].
  destruct (N.eqb_spec c 62); [auto 6|].
  auto 8.
Qed.

Lemma html_escape_flat_map (text : option pystr) :
  html_escape text = flat_map escape_chr (or_empty text).
Proof.
  unfold html_escape, replace_chr. rewrite !flat_map_flat_map.
  apply flat_map_ext. intros c.
  destruct (escape_chr_cases c) as [[-> ->] | [[-> ->] | [[-> ->] | (H1 & H2 & H3 & ->)]]];
    try reflexivity.
  unfold chr_eqb.
  change (chr "&") with 38%N. change (chr "<") with 60%N. change (chr ">") with 62%N.
  apply N.eqb_neq in H1, H2, H3. simpl. rewrite H1. simpl. rewrite H2. simpl.
  rewrite H3, app_nil_r. reflexivity.
Qed.

(** X8: [html_escape] is one pass over the text: [&], [<] and [>] become
    their entities and every other character is kept (the [&] of an entity
    is not escaped again). Its result has no [<] and no [>], and nothing is
    lost: two texts with the same escaped form are the same text. *)
Theorem html_escape_spec (text : option pystr) :
  html_escape text = flat_map escape_chr (or_empty text)
  /\ ~ In (chr "<") (html_escape text)
  /\ ~ In (chr ">") (html_escape text)
  /\ (forall other, html_escape other = html_escape text -> or_empty other = or_empty text).
Proof.
  split; [apply html_escape_flat_map|].
  assert (Hno : forall c x, In x (escape_chr c) -> x <> 60%N /\ x <> 62%N).
  { intros c x Hin.
    destruct (escape_chr_cases c) as [[-> E] | [[-> E] | [[-> E] | (H1 & H2 & H3 & E)]]];
      rewrite E in Hin; simpl in Hin;
      repeat (destruct Hin as [<- | Hin]; [split; (discriminate || assumption)|]);
      destruct Hin. }
  change (chr "<") with 60%N. change (chr ">") with 62%N.
  rewrite html_escape_flat_map. split; [|split].
  - intros Hin. apply in_flat_map in Hin as (c & _ & Hin).
    apply Hno in Hin as [Hin _]. congruence.
  - intros Hin. apply in_flat_map in Hin as (c & _ & Hin).
    apply Hno in Hin as [_ Hin]. congruence.
  - intros other. rewrite html_escape_flat_map.
    generalize (or_empty text) as b. generalize (or_empty other) as a. clear.
    induction a as [|x a IH]; intros [|y b]; simpl.
    + reflexivity.
    + destruct (escape_chr_cases y) as [[-> E] | [[-> E] | [[-> E] | (H1 & H2 & H3 & E)]]];
        rewrite E; discriminate.
    + destruct (escape_chr_cases x) as [[-> E] | [[-> E] | [[-> E] | (H1 & H2 & H3 & E)]]];
        rewrite E; discriminate.
    + destruct (escape_chr_cases x) as [[-> E] | [[-> E] | [[-> E] | (H1 & H2 & H3 & E)]]];
      destruct (escape_chr_cases y) as [[-> F] | [[-> F] | [[-> F] | (G1 & G2 & G3 & F)]]];
        rewrite ?E, ?F; simpl; intros Heq; injection Heq; intros; subst;
        try discriminate; try congruence;
        f_equal; apply IH; assumption.
Qed.

(** ** Listings *)

Lemma pystr_leb_total (a b : pystr) : pystr_leb a b = false -> pystr_leb b a = true.
Proof.
  revert b. induction a as [|x a IH]; intros [|y b]; simpl; try discriminate; try reflexivity.
  destruct (N.ltb_spec x y); [discriminate|].
  destruct (N.ltb_spec y x); [reflexivity|]. apply IH.
Qed.

Lemma pystr_eqb_sym (a b : pystr) : pystr_eqb a b = pystr_eqb b a.
Proof.
  destruct (pystr_eqb a b) eqn:E1, (pystr_eqb b a) eqn:E2; try reflexivity.
  - apply pystr_eqb_eq in E1. subst. rewrite pystr_eqb_refl in E2. discriminate.
  - apply pystr_eqb_eq in E2. subst. rewrite pystr_eqb_refl in E1. discriminate.
Qed.

Lemma date_time_leb_total (a b : booking) :
  date_time_leb a b = false -> date_time_leb b a = true.
Proof.
  unfold date_time_leb. rewrite (pystr_eqb_sym (b_date b)).
  destruct (pystr_eqb (b_date a) (b_date b)); apply pystr_leb_total.
Qed.

Section OrderBy.
Context {A : Type} (leb : A -> A -> bool).
Hypothesis leb_total : forall a b, leb a b = false -> leb b a = true.

Lemma insert_by_perm (x : A) (l : list A) : Permutation (x :: l) (insert_by leb x l).
Proof.
  induction l as [|y l IH]; simpl; [reflexivity|].
  destruct (leb x y); [reflexivity|].
  rewrite perm_swap. apply perm_skip. exact IH.
Qed.

Lemma order_by_perm (l : list A) : Permutation l (order_by leb l).
Proof.
  induction l as [|x l IH]; simpl; [reflexivity|].
  rewrite <- insert_by_perm. apply perm_skip. exact IH.
Qed.

Lemma insert_by_hd (x y : A) (l : list A) :
  leb y x = true -> HdRel (fun a b => leb a b = true) y l ->
  HdRel (fun a b => leb a b = true) y (insert_by leb x l).
Proof.
  intros Hyx Hhd. destruct l as [|z l]; simpl; [constructor; assumption|].
  destruct (leb x z); constructor; [assumption|].
  inversion Hhd; assumption.
Qed.

Lemma insert_by_sorted (x : A) (l : list A) :
  Sorted (fun a b => leb a b = true) l -> Sorted (fun a b => leb a b = true) (insert_by leb x l).
Proof.
  induction 1 as [|y l Hs IH Hhd]; simpl; [repeat constructor|].
  destruct (leb x y) eqn:Hxy.
  - constructor; [constructor; assumption|]. constructor. assumption.
  - constructor; [assumption|]. apply insert_by_hd; [|assumption].
    apply leb_total. assumption.
Qed.

Lemma order_by_sorted (l : list A) : Sorted (fun a b => leb a b = true) (order_by leb l).
Proof.
  induction l as [|x l IH]; simpl; [constructor|]. apply insert_by_sorted. exact IH.
Qed.

End OrderBy.

(** X9: [list_bookings_for_user] returns the bookings of that user and no
    others, each once (as a multiset: the rows of [bookings] with that
    [user_id]), in ascending order of date and, within a date, of time. *)
Theorem list_bookings_for_user_spec (d : db) (user_id : Z) :
  exists rows,
    list_bookings_for_user d user_id
      = map (fun b => mk_user_item (b_date b) (b_time b) (b_topic b) (b_status b)) rows
    /\ Permutation (List.filter (fun b => b_user_id b =? user_id) (bookings d)) rows
    /\ (forall b, In b rows <-> In b (bookings d) /\ b_user_id b = user_id)
    /\ Sorted (fun a b => date_time_leb a b = true) rows.
Proof.
  eexists. split; [reflexivity|].
  pose proof (order_by_perm date_time_leb
                (List.filter (fun b => b_user_id b =? user_id) (bookings d))) as Hperm.
  split; [exact Hperm|]. split.
  - intros b. split.
    + intros Hin. apply (Permutation_in _ (Permutation_sym Hperm)) in Hin.
      apply filter_In in Hin as [Hin Hu]. apply Z.eqb_eq in Hu. auto.
    + intros [Hin Hu]. apply (Permutation_in _ Hperm). apply filter_In.
      split; [assumption|]. apply Z.eqb_eq. assumption.
  - apply order_by_sorted. exact date_time_leb_total.
Qed.

(** X10: [all_bookings_for_date] returns the bookings of that date string,
    confirmed or not, and no others, in ascending order of time. *)
Theorem all_bookings_for_date_spec (d : db) (date_str : pystr) :
  exists rows,
    all_bookings_for_date d date_str
      = map (fun b => mk_admin_item (b_full_name b) (b_phone b) (b_time b) (b_topic b)
                        (b_status b)) rows
    /\ Permutation (List.filter (fun b => pystr_eqb (b_date b) date_str) (bookings d)) rows
    /\ (forall b, In b rows <-> In b (bookings d) /\ b_date b = date_str)
    /\ Sorted (fun a b => pystr_leb (b_time a) (b_time b) = true) rows.
Proof.
  eexists. split; [reflexivity|].
  pose proof (order_by_perm time_only_leb
                (List.filter (fun b => pystr_eqb (b_date b) date_str) (bookings d))) as Hperm.
  split; [exact Hperm|]. split.
  - intros b. split.
    + intros Hin. apply (Permutation_in _ (Permutation_sym Hperm)) in Hin.
      apply filter_In in Hin as [Hin Hu]. apply pystr_eqb_eq in Hu. auto.
    + intros [Hin Hu]. apply (Permutation_in _ Hperm). apply filter_In.
      split; [assumption|]. apply pystr_eqb_eq. assumption.
  - apply (order_by_sorted time_only_leb).
    intros a b. apply pystr_leb_total.
Qed.

(** ** Keyboards *)

(** The loop that [times_inline_kb] and [_admin_cancel_kb] share: buttons
    are collected in [row], which is moved to [rows] when it has three. *)
Lemma kb_loop_layout {X} (mk : X -> button)
    (step : keyboard * list button -> X -> keyboard * list button) :
  (forall rows row x,
     step (rows, row) x =
     if len (row ++ [mk x]) =? 3 then (rows ++ [row ++ [mk x]], []) else (rows, row ++ [mk x])) ->
  forall (xs : list X) (rows : keyboard) (cur : list button),
    (length cur < 3)%nat ->
    Forall (fun r => length r = 3%nat) rows ->
    concat (fst (fold_left step xs (rows, cur))) ++ snd (fold_left step xs (rows, cur))
      = concat rows ++ cur ++ map mk xs
    /\ Forall (fun r => length r = 3%nat) (fst (fold_left step xs (rows, cur)))
    /\ (length (snd (fold_left step xs (rows, cur))) < 3)%nat.
Proof.
  intros Hstep xs. induction xs as [|x xs IH]; intros rows cur Hcur Hrows; simpl.
  - rewrite app_nil_r. auto.
  - rewrite Hstep. unfold len. rewrite length_app. simpl.
    destruct (Z.eqb_spec (Z.of_nat (length cur + 1)) 3) as [H3|H3]; cbv iota.
    + destruct (IH (rows ++ [cur ++ [mk x]]) []) as (Hc & Hf & Hl).
      { simpl; lia. }
      { apply Forall_app. split; [assumption|].
        constructor; [rewrite length_app; simpl; lia|constructor]. }
      split; [|auto]. eapply eq_trans; [exact Hc|]. rewrite concat_app. simpl.
      rewrite app_nil_r, <- !app_assoc. reflexivity.
    + destruct (IH rows (cur ++ [mk x])) as (Hc & Hf & Hl).
      { rewrite length_app. simpl. lia. }
      { assumption. }
      split; [|auto]. eapply eq_trans; [exact Hc|]. rewrite <- !app_assoc. reflexivity.
Qed.

Section Keyboards.
Context `{PyLib}.

(** X11: the keyboard of [times_inline_kb] for a date [strptime] reads.
    With no free slot it is the notice and the way back. Otherwise its rows
    but the last hold, read row by row, one button for each free slot in the
    order of [available_slots], whose data is [pick_time:<date>:<slot>];
    each of these rows has three buttons, except that the last of them may
    have one or two; the last row of all is the way back. The store is only
    read. *)
Theorem times_inline_kb_layout (date_str : pystr) (w : world) (slots : list pystr) :
  available_slots (w_db w) date_str = Some slots ->
  exists kb,
    times_inline_kb date_str w = (inr kb, w)
    /\ match slots with
       | [] => kb = [ [mk_button (u "Нет свободных слотов") (u "noop")]; [BACK_TO_DATES] ]
       | _ =>
           exists full rest,
             kb = full ++ match rest with [] => [] | _ => [rest] end ++ [[BACK_TO_DATES]]
             /\ concat full ++ rest
                = map (fun s => mk_button s (u "pick_time:" ++ date_str ++ u ":" ++ s)) slots
             /\ Forall (fun r => length r = 3%nat) full
             /\ (length rest < 3)%nat
       end.
Proof.
  intros Hav.
  destruct slots as [|s slots];
    [eexists; split; [unfold times_inline_kb; rewrite Hav|]; reflexivity|].
  set (r := fold_left (times_kb_step date_str) (s :: slots) ([], [])).
  assert (Hrun : times_inline_kb date_str w
                 = (inr (fst r ++ match snd r with [] => [] | _ => [snd r] end
                           ++ [[BACK_TO_DATES]]), w)).
  { unfold times_inline_kb. rewrite Hav. fold r.
    destruct r as [rows [|b row]]; [|rewrite <- app_assoc]; reflexivity. }
  destruct (kb_loop_layout
              (fun s => mk_button s (u "pick_time:" ++ date_str ++ u ":" ++ s))
              (times_kb_step date_str) ltac:(intros; reflexivity)
              (s :: slots) [] [] ltac:(simpl; lia) ltac:(constructor)) as (Hc & Hf & Hl).
  eexists. split; [exact Hrun|]. exists (fst r), (snd r).
  split; [reflexivity|]. split; [exact Hc|]. split; [exact Hf|exact Hl].
Qed.

(** X12: [_admin_cancel_kb] has, read row by row, one button for each item
    in order, whose data is [admin_cancel:<date>:<time>]; every row has
    three buttons, except that the last may have one or two; there is no
    empty row and no other button. *)
Theorem admin_cancel_kb_layout (date_str : pystr) (items : list admin_item) :
  exists full rest,
    _admin_cancel_kb date_str items = full ++ match rest with [] => [] | _ => [rest] end
    /\ concat full ++ rest
       = map (fun it => mk_button (u "❌ " ++ ai_time it)
                          (u "admin_cancel:" ++ date_str ++ u ":" ++ ai_time it)) items
    /\ Forall (fun r => length r = 3%nat) full
    /\ (length rest < 3)%nat.
Proof.
  set (r := fold_left (admin_kb_step date_str) items ([], [])).
  assert (Hrun : _admin_cancel_kb date_str items
                 = fst r ++ match snd r with [] => [] | _ => [snd r] end).
  { unfold _admin_cancel_kb. fold r.
    destruct r as [rows [|b row]]; [rewrite app_nil_r|]; reflexivity. }
  destruct (kb_loop_layout
              (fun it => mk_button (u "❌ " ++ ai_time it)
                           (u "admin_cancel:" ++ date_str ++ u ":" ++ ai_time it))
              (admin_kb_step date_str) ltac:(intros; reflexivity)
              items [] [] ltac:(simpl; lia) ltac:(constructor)) as (Hc & Hf & Hl).
  exists (fst r), (snd r).
  split; [exact Hrun|]. split; [exact Hc|]. split; [exact Hf|exact Hl].
Qed.

End Keyboards.

(** ** The dates offered *)

Lemma days_before_month_succ (y m : Z) :
  2 <= m -> days_before_month y m = days_before_month y (m - 1) + days_in_month y (m - 1).
Proof.
  intros Hm. unfold days_before_month.
  replace (Z.to_nat (m - 1)) with (S (Z.to_nat (m - 1 - 1))) by lia.
  rewrite seq_S, map_app, fold_right_app. simpl.
  replace (Z.of_nat (S (Z.to_nat (m - 1 - 1)))) with (m - 1) by lia.
  generalize (days_in_month y (m - 1)) as x.
  induction (seq 1 (Z.to_nat (m - 1 - 1))) as [|k l IH]; intros x; simpl; [lia|].
  rewrite IH. lia.
Qed.

Lemma days_before_year_cycles (a b c e : Z) :
  0 <= b <= 3 -> 0 <= c <= 24 -> 0 <= e <= 3 ->
  days_before_year (a * 400 + 1 + b * 100 + c * 4 + e)
  = a * 146097 + b * 36524 + c * 1461 + e * 365.
Proof.
  intros Hb Hc He. unfold days_before_year. cbv zeta.
  replace (a * 400 + 1 + b * 100 + c * 4 + e - 1) with (a * 400 + b * 100 + c * 4 + e) by lia.
  assert ((a * 400 + b * 100 + c * 4 + e) / 4 = a * 100 + b * 25 + c) as -> by (Z.div_mod_to_equations; lia).
  assert ((a * 400 + b * 100 + c * 4 + e) / 100 = a * 4 + b) as -> by (Z.div_mod_to_equations; lia).
  assert ((a * 400 + b * 100 + c * 4 + e) / 400 = a) as -> by (Z.div_mod_to_equations; lia).
  lia.
Qed.

(** The ordinal of the date with ordinal [n] is [n]. *)
Lemma toordinal_fromordinal (n : Z) : toordinal (fromordinal n) = n.
Proof.
  unfold fromordinal. cbv zeta.
  set (m := n - 1).
  set (a := m / 146097). set (r1 := m mod 146097).
  set (b := r1 / 36524). set (r2 := r1 mod 36524).
  set (c := r2 / 1461). set (r3 := r2 mod 1461).
  set (e := r3 / 365). set (r := r3 mod 365).
  assert (Hm : m = a * 146097 + b * 36524 + c * 1461 + e * 365 + r
               /\ 0 <= b <= 4 /\ 0 <= c <= 24 /\ 0 <= e <= 4 /\ 0 <= r < 365
               /\ (b = 4 -> c = 0 /\ e = 0 /\ r = 0) /\ (e = 4 -> r = 0)
               /\ 0 <= r1 < 146097 /\ r1 = b * 36524 + c * 1461 + e * 365 + r
               /\ (c = 24 -> b < 4 -> e <= 3)).
  { subst a r1 b r2 c r3 e r m. Z.div_mod_to_equations. lia. }
  clearbody a r1 b r2 c r3 e r. destruct Hm as (Hm & Hb & Hc & He & Hr & Hb4 & He4 & _ & _ & Hc24).
  destruct ((e =? 4) || (b =? 4)) eqn:Hspecial.
  - unfold toordinal. simpl year. simpl month. simpl day.
    replace (days_before_month (a * 400 + 1 + b * 100 + c * 4 + e - 1) 12)
      with (days_before_year (a * 400 + 1 + b * 100 + c * 4 + e)
            - days_before_year (a * 400 + 1 + b * 100 + c * 4 + e - 1) - 31).
    + apply orb_true_iff in Hspecial as [He'|Hb']; 
        [apply Z.eqb_eq in He' | apply Z.eqb_eq in Hb'].
      * unfold days_before_year. cbv zeta. Z.div_mod_to_equations. lia.
      * unfold days_before_year. cbv zeta. Z.div_mod_to_equations. lia.
    + set (y := a * 400 + 1 + b * 100 + c * 4 + e - 1).
      replace (a * 400 + 1 + b * 100 + c * 4 + e) with (y + 1) by (subst y; lia).
      assert (Hleap : is_leap y = true).
      { unfold is_leap. subst y.
        apply orb_true_iff in Hspecial as [He'|Hb']; 
          [apply Z.eqb_eq in He' | apply Z.eqb_eq in Hb'].
        - assert (c <= 23) by lia.
          apply andb_true_iff. split; [apply Z.eqb_eq; Z.div_mod_to_equations; lia|].
          apply orb_true_iff. left. apply negb_true_iff, Z.eqb_neq. Z.div_mod_to_equations. lia.
        - destruct (Hb4 Hb') as (-> & -> & ->).
          apply andb_true_iff. split; [apply Z.eqb_eq; Z.div_mod_to_equations; lia|].
          apply orb_true_iff. right. apply Z.eqb_eq. Z.div_mod_to_equations. lia. }
      unfold days_before_month, days_in_month. rewrite Hleap.
      change (Z.to_nat (12 - 1)) with 11%nat. simpl.
      unfold is_leap in Hleap. unfold days_before_year. cbv zeta.
      apply andb_true_iff in Hleap as [H4 H100].
      apply Z.eqb_eq in H4.
      apply orb_true_iff in H100 as [H100|H400].
      * apply negb_true_iff, Z.eqb_neq in H100. Z.div_mod_to_equations. lia.
      * apply Z.eqb_eq in H400. Z.div_mod_to_equations. lia.
  - apply orb_false_iff in Hspecial as [He' Hb'].
    apply Z.eqb_neq in He', Hb'.
    assert (Hy : days_before_year (a * 400 + 1 + b * 100 + c * 4 + e)
                 = a * 146097 + b * 36524 + c * 1461 + e * 365)
      by (apply days_before_year_cycles; lia).
    set (y := a * 400 + 1 + b * 100 + c * 4 + e) in *.
    destruct (r <? days_before_month y ((r + 50) / 32)) eqn:Hlt.
    + unfold toordinal. simpl year. simpl month. simpl day.
      assert (2 <= (r + 50) / 32 \/ (r + 50) / 32 = 1) as [H2|H1] by (Z.div_mod_to_equations; lia).
      * rewrite (days_before_month_succ y ((r + 50) / 32) H2) in *. lia.
      * rewrite H1 in Hlt. apply Z.ltb_lt in Hlt.
        change (days_before_month y 1) with 0 in Hlt. lia.
    + unfold toordinal. simpl year. simpl month. simpl day. lia.
Qed.

Lemma filter_map_comm {A B} (f : A -> B) (p : B -> bool) (l : list A) :
  List.filter p (map f l) = map f (List.filter (fun a => p (f a)) l).
Proof.
  induction l as [|a l IH]; simpl; [reflexivity|].
  destruct (p (f a)); simpl; rewrite IH; reflexivity.
Qed.

Lemma weekday_plus_days (today : date) (k : Z) :
  weekday (date_plus_days today k) = (weekday today + k) mod 7.
Proof.
  unfold weekday, date_plus_days. rewrite toordinal_fromordinal.
  Z.div_mod_to_equations. lia.
Qed.

Lemma range_days : range WORK_DAYS_AHEAD = [0; 1; 2; 3; 4; 5; 6; 7; 8; 9; 10; 11; 12; 13].
Proof. reflexivity. Qed.

Lemma StronglySorted_filter {A} (R : A -> A -> Prop) (p : A -> bool) (l : list A) :
  StronglySorted R l -> StronglySorted R (List.filter p l).
Proof.
  induction 1 as [|a l Hs IH Ha]; simpl; [constructor|].
  destruct (p a); [|assumption]. constructor; [assumption|].
  apply Forall_filter_keep. assumption.
Qed.

Lemma In_range (n k : Z) : In k (range n) <-> 0 <= k < n.
Proof.
  unfold range. rewrite in_map_iff. split.
  - intros (i & <- & Hin). apply in_seq in Hin. lia.
  - intros Hk. exists (Z.to_nat k). split; [lia|]. apply in_seq. lia.
Qed.

Lemma upcoming_days (today : date) :
  exists ks,
    List.filter (fun day => weekday day <? 6)
      (map (date_plus_days today) (range WORK_DAYS_AHEAD))
    = map (date_plus_days today) ks
    /\ length ks = 12%nat
    /\ StronglySorted Z.lt ks
    /\ (forall k, In k ks <-> 0 <= k < 14 /\ (weekday today + k) mod 7 <> 6).
Proof.
  exists (List.filter (fun k => (weekday today + k) mod 7 <? 6) (range WORK_DAYS_AHEAD)).
  split; [|split; [|split]].
  - rewrite filter_map_comm. f_equal. apply filter_ext. intros k.
    rewrite weekday_plus_days. reflexivity.
  - assert (Hw : 0 <= weekday today < 7) by (unfold weekday; apply Z.mod_pos_bound; lia).
    assert (Hcases : weekday today = 0 \/ weekday today = 1 \/ weekday today = 2
                     \/ weekday today = 3 \/ weekday today = 4 \/ weekday today = 5
                     \/ weekday today = 6) by lia.
    destruct Hcases as [-> | [-> | [-> | [-> | [-> | [-> | ->]]]]]]; vm_compute; reflexivity.
  - apply StronglySorted_filter. rewrite range_days.
    repeat (constructor; [|repeat (constructor; [lia|]); constructor]). constructor.
  - intros k. rewrite filter_In, In_range. change WORK_DAYS_AHEAD with 14.
    assert (0 <= (weekday today + k) mod 7 < 7) by (apply Z.mod_pos_bound; lia).
    destruct (Z.ltb_spec ((weekday today + k) mod 7) 6); split; intros [? ?];
      split; try assumption; try lia. 
Qed.

(** ** Callback data *)

Lemma partition_at_app (sep : N) (a rest : pystr) :
  ~ In sep a -> partition_at sep (a ++ sep :: rest) = (a, Some rest).
Proof.
  induction a as [|x a IH]; simpl; intros Hnot.
  - unfold chr_eqb. rewrite N.eqb_refl. reflexivity.
  - unfold chr_eqb. destruct (N.eqb_spec x sep) as [->|Hne]; [exfalso; auto|].
    rewrite IH by auto. reflexivity.
Qed.

Lemma split_sep_cons (sep : N) (n : nat) (a rest : pystr) :
  ~ In sep a -> split_sep sep (S n) (a ++ sep :: rest) = a :: split_sep sep n rest.
Proof. intros Hnot. simpl. rewrite partition_at_app by assumption. reflexivity. Qed.

Lemma not_In_forallb (sep : N) (s : pystr) :
  forallb (fun c => negb (chr_eqb c sep)) s = true -> ~ In sep s.
Proof.
  intros Hall Hin. rewrite forallb_forall in Hall.
  specialize (Hall _ Hin).
  unfold chr_eqb in Hall. rewrite N.eqb_refl in Hall. discriminate.
Qed.

(** The data of a button, [<tag>:<a>:<b>], read back by [split(":", 2)]. *)
Lemma split_tagged (tag : string) (a b : pystr) :
  forallb (fun c => negb (chr_eqb c COLON)) (u tag) = true ->
  ~ In COLON a ->
  split_sep COLON 2 ((u tag ++ [COLON]) ++ a ++ [COLON] ++ b) = [u tag; a; b].
Proof.
  intros Htag Ha. rewrite <- app_assoc. simpl app.
  rewrite split_sep_cons by (apply not_In_forallb; assumption).
  rewrite split_sep_cons by assumption. reflexivity.
Qed.

Lemma split_tagged1 (tag : string) (a : pystr) :
  forallb (fun c => negb (chr_eqb c COLON)) (u tag) = true ->
  split_sep COLON 1 ((u tag ++ [COLON]) ++ a) = [u tag; a].
Proof.
  intros Htag. rewrite <- app_assoc. simpl app.
  rewrite split_sep_cons by (apply not_In_forallb; assumption). reflexivity.
Qed.

Section CallbackHandlers.
Context `{PyLib}.
#[local] Arguments u : simpl never.

(** X13: [cb_pick_time] on the data of a time button,
    [pick_time:<date>:<time>] with a date that has no colon (the time may
    have some): it stores that date and that time in the session, keeping
    the other keys, whatever the store holds for the slot. With a profile
    whose name and phone are not empty it also stores these and goes to
    [entering_topic]; otherwise it goes to [entering_name]. It edits the
    message once, answers the query, and leaves store and profiles
    alone. *)
Theorem cb_pick_time_spec (c : callback) (cw : cworld) (date_str time_str : pystr) :
  ~ In COLON date_str ->
  c_data c = u "pick_time:" ++ date_str ++ u ":" ++ time_str ->
  let cw' := snd (cb_pick_time c cw) in
  let picked := <["date" := date_str]> (<["time" := time_str]> (s_data (cw_session cw))) in
  fst (cb_pick_time c cw) = inr tt
  /\ cw_db cw' = cw_db cw
  /\ cw_profiles cw' = cw_profiles cw
  /\ (exists text, cw_acts cw' = cw_acts cw ++ [Edited (mk_reply text None); Answered None false])
  /\ cw_session cw' =
       match get_profile (cw_profiles cw) (c_from_id c) with
       | Some p =>
           if negb (len (pf_full_name p) =? 0) && negb (len (pf_phone p) =? 0)
           then mk_session (Some entering_topic)
                  (<["phone" := pf_phone p]> (<["full_name" := pf_full_name p]> picked))
           else mk_session (Some entering_name) picked
       | None => mk_session (Some entering_name) picked
       end.
Proof.
  intros Hd Hdata. cbv zeta.
  assert (Hsplit : split_sep COLON 2 (c_data c) = [u "pick_time"; date_str; time_str]).
  { rewrite Hdata. apply (split_tagged "pick_time"); [reflexivity | assumption]. }
  unfold cb_pick_time. unfold mbind, CM_bind. rewrite Hsplit. simpl.
  unfold read_profile.
  destruct (get_profile (cw_profiles cw) (c_from_id c)) as [p|]; simpl.
  - destruct (negb (len (pf_full_name p) =? 0) && negb (len (pf_phone p) =? 0)); simpl.
    + repeat split; try reflexivity. eexists. rewrite <- !app_assoc. reflexivity.
    + repeat split; try reflexivity. eexists. rewrite <- !app_assoc. reflexivity.
  - repeat split; try reflexivity. eexists. rewrite <- !app_assoc. reflexivity.
Qed.

Lemma times_inline_kb_reads (date_str : pystr) (w : world) :
  times_inline_kb date_str w
  = (fst (times_inline_kb date_str (mk_world (w_db w) (mk_session None ∅) [])), w).
Proof.
  unfold times_inline_kb. simpl.
  destruct (available_slots (w_db w) date_str) as [[|s slots]|]; try reflexivity.
  destruct (fold_left _ _ _) as [rows row]. reflexivity.
Qed.

Lemma lift_times_inline_kb (date_str : pystr) (cw : cworld) :
  lift (times_inline_kb date_str) cw
  = (fst (times_inline_kb date_str (mk_world (cw_db cw) (mk_session None ∅) [])),
     mk_cworld (cw_db cw) (cw_profiles cw) (cw_session cw) (cw_acts cw ++ [])).
Proof. unfold lift. rewrite times_inline_kb_reads. reflexivity. Qed.

Lemma times_inline_kb_result (date_str : pystr) (w : world) :
  match strptime_ymd date_str with
  | Some _ => exists kb, fst (times_inline_kb date_str w) = inr kb
  | None => fst (times_inline_kb date_str w) = inl ValueError
  end.
Proof.
  unfold times_inline_kb, available_slots.
  destruct (strptime_ymd date_str) as [parsed|]; [|reflexivity].
  match goal with
  | |- context [List.filter ?f ?l] => destruct (List.filter f l) as [|s slots]
  end; [eexists; reflexivity|].
  destruct (fold_left _ _ _) as [rows row]. eexists. reflexivity.
Qed.

(** X14: [cb_pick_date] on the data of a date button, [pick_date:<date>],
    whatever the date string holds: it stores the date and goes to
    [choosing_time]. For a date [strptime] reads it then shows the keyboard
    of [times_inline_kb] for that date and answers the query; for any other
    it raises [ValueError] with the session already changed and nothing
    shown. The store is not changed. *)
Theorem cb_pick_date_spec (c : callback) (cw : cworld) (date_str : pystr) :
  c_data c = u "pick_date:" ++ date_str ->
  let cw' := snd (cb_pick_date c cw) in
  cw_db cw' = cw_db cw
  /\ cw_profiles cw' = cw_profiles cw
  /\ cw_session cw' = mk_session (Some choosing_time)
                        (<["date" := date_str]> (s_data (cw_session cw)))
  /\ match strptime_ymd date_str with
     | Some _ =>
         exists kb text,
           fst (times_inline_kb date_str (mk_world (cw_db cw) (mk_session None ∅) []))
             = inr kb
           /\ fst (cb_pick_date c cw) = inr tt
           /\ cw_acts cw' = cw_acts cw ++ [Edited (mk_reply text (Some kb)); Answered None false]
     | None => fst (cb_pick_date c cw) = inl ValueError /\ cw_acts cw' = cw_acts cw
     end.
Proof.
  intros Hdata. cbv zeta.
  assert (Hsplit : split_sep COLON 1 (c_data c) = [u "pick_date"; date_str]).
  { rewrite Hdata. apply (split_tagged1 "pick_date"). reflexivity. }
  pose proof (times_inline_kb_result date_str
                (mk_world (cw_db cw) (mk_session None ∅) [])) as Hres.
  unfold cb_pick_date. unfold mbind, CM_bind. rewrite Hsplit.
  cbn [unpack2 mret CM_ret]. unfold lift at 1 2. cbn -[u times_inline_kb fmt_user_date].
  rewrite lift_times_inline_kb. cbn -[u times_inline_kb fmt_user_date].
  destruct (strptime_ymd date_str) as [parsed|].
  - destruct Hres as [kb Hkb]. rewrite Hkb. cbn -[u times_inline_kb fmt_user_date].
    repeat split; try reflexivity. do 2 eexists. split; [reflexivity|].
    split; [reflexivity|]. rewrite !app_nil_r, <- app_assoc. reflexivity.
  - rewrite Hres. cbn -[u times_inline_kb fmt_user_date].
    repeat split; try reflexivity. rewrite !app_nil_r. reflexivity.
Qed.

(** X15: [cb_cancel] on the data of a cancel button, [cancel:<date>:<time>]
    with a date that has no colon: with the [users] id of the one who
    pressed it (their row is made when missing) it removes the bookings of
    that user at that date and time and no other row, so a booking of
    somebody else stays; the message says the booking is cancelled exactly
    when there was such a row. Session and profiles are left alone. *)
Theorem cb_cancel_spec (now : pystr) (c : callback) (cw : cworld) (d t : pystr) :
  ~ In COLON d ->
  c_data c = u "cancel:" ++ d ++ u ":" ++ t ->
  let up := upsert_user (cw_db cw) now (c_from_id c) (or_empty (c_first_name c))
              (or_empty (c_last_name c)) (or_empty (c_username c)) in
  let cw' := snd (cb_cancel now c cw) in
  fst (cb_cancel now c cw) = inr tt
  /\ cw_session cw' = cw_session cw
  /\ cw_profiles cw' = cw_profiles cw
  /\ users (cw_db cw') = users (fst up)
  /\ bookings (cw_db cw')
     = List.filter (fun b => negb (owned_at_slot (snd up) d t b)) (bookings (cw_db cw))
  /\ (forall b, In b (bookings (cw_db cw)) -> b_user_id b <> snd up ->
        In b (bookings (cw_db cw')))
  /\ cw_acts cw'
     = cw_acts cw
       ++ [Edited (mk_reply
                     (if existsb (owned_at_slot (snd up) d t) (bookings (cw_db cw))
                      then MSG_CANCELLED else MSG_NOT_CANCELLED) None);
           Answered None false].
Proof.
  intros Hd Hdata. cbv zeta.
  assert (Hsplit : split_sep COLON 2 (c_data c) = [u "cancel"; d; t]).
  { rewrite Hdata. apply (split_tagged "cancel"); [reflexivity | assumption]. }
  destruct (upsert_user_row (cw_db cw) now (c_from_id c) (or_empty (c_first_name c))
              (or_empty (c_last_name c)) (or_empty (c_username c))) as [_ Hbs].
  unfold cb_cancel. unfold mbind, CM_bind. rewrite Hsplit. simpl.
  unfold lift, on_db. simpl.
  destruct (upsert_user (cw_db cw) now (c_from_id c) _ _ _) as [d1 uid] eqn:Hup. simpl in *.
  unfold cancel_booking.
  pose proof (delete_bookings_rowcount d1 (owned_at_slot uid d t)) as Hcount.
  unfold delete_bookings in *. simpl in *. rewrite Hcount, Hbs.
  split; [reflexivity|]. split; [reflexivity|]. split; [reflexivity|].
  split; [reflexivity|]. split; [reflexivity|]. split.
  - intros b Hin Hother. apply filter_In. split; [assumption|].
    apply negb_true_iff, not_true_is_false. intros Ho.
    apply owned_at_slot_iff in Ho as [Ho _]. contradiction.
  - rewrite !app_nil_r, <- app_assoc. reflexivity.
Qed.

Section Admins.
Variable ADMIN_IDS : list Z.

(** X16: [cb_admin_cancel]. For somebody who is not an administrator it
    only answers with an alert: store, session and message stay as they
    are. For an administrator, on [admin_cancel:<date>:<time>] with a date
    that has no colon, it removes every booking at that date and time,
    whoever made it, and no other row; then it shows the list and the
    keyboard of the bookings now held for that date, none at that time, by
    editing the message or, when the edit fails, in a new message. *)
Theorem cb_admin_cancel_spec (edit_ok : bool) (c : callback) (cw : cworld) (d t : pystr) :
  ~ In COLON d ->
  c_data c = u "admin_cancel:" ++ d ++ u ":" ++ t ->
  let cw' := snd (cb_admin_cancel ADMIN_IDS edit_ok c cw) in
  fst (cb_admin_cancel ADMIN_IDS edit_ok c cw) = inr tt
  /\ cw_session cw' = cw_session cw
  /\ cw_profiles cw' = cw_profiles cw
  /\ if is_admin ADMIN_IDS (c_from_id c) then
       let items := all_bookings_for_date (cw_db cw') d in
       bookings (cw_db cw')
         = List.filter (fun b => negb (at_slot d t b)) (bookings (cw_db cw))
       /\ users (cw_db cw') = users (cw_db cw)
       /\ Forall (fun it => ai_time it <> t) items
       /\ exists alert shown,
            cw_acts cw' = cw_acts cw ++ [alert; shown]
            /\ alert = (if existsb (at_slot d t) (bookings (cw_db cw))
                        then Answered (Some (u "Отменено: " ++ d ++ u " " ++ t)) false
                        else Answered (Some ALERT_NOT_FOUND) true)
            /\ shown = (if edit_ok then Edited else Sent)
                         (mk_reply (_format_admin_list_text d items)
                            (match items with
                             | [] => None
                             | _ => Some (_admin_cancel_kb d items)
                             end))
     else
       cw_db cw' = cw_db cw
       /\ cw_acts cw' = cw_acts cw ++ [Answered (Some ALERT_ADMINS_ONLY) true].
Proof.
  intros Hd Hdata. cbv zeta.
  assert (Hsplit : split_sep COLON 2 (c_data c) = [u "admin_cancel"; d; t]).
  { rewrite Hdata. apply (split_tagged "admin_cancel"); [reflexivity | assumption]. }
  unfold cb_admin_cancel. rewrite Hsplit.
  destruct (is_admin ADMIN_IDS (c_from_id c)); simpl; [|auto].
  unfold mbind, CM_bind. simpl.
  unfold lift, on_db, cancel_booking_any. simpl.
  pose proof (delete_bookings_rowcount (cw_db cw) (at_slot d t)) as Hcount.
  unfold delete_bookings in *. simpl in *. rewrite Hcount.
  set (d' := with_bookings (cw_db cw) _ _).
  assert (Hgone : Forall (fun it => ai_time it <> t) (all_bookings_for_date d' d)).
  { apply Forall_forall. intros it Hin. apply list_elem_of_In in Hin.
    unfold all_bookings_for_date in Hin. apply in_map_iff in Hin as (b & <- & Hin).
    apply (Permutation_in _ (Permutation_sym (order_by_perm _ _))) in Hin.
    apply filter_In in Hin as [Hin Hdate]. subst d'. simpl in Hin.
    apply filter_In in Hin as [_ Hat]. simpl. intros Ht.
    apply negb_true_iff in Hat. apply pystr_eqb_eq in Hdate.
    assert (at_slot d t b = true) by (apply at_slot_iff; auto). congruence. }
  destruct (existsb (at_slot d t) (bookings (cw_db cw))); simpl;
    destruct edit_ok; simpl;
    (split; [reflexivity|]); (split; [reflexivity|]); (split; [reflexivity|]);
    (split; [reflexivity|]); (split; [reflexivity|]); (split; [exact Hgone|]);
    do 2 eexists; (split; [|split; reflexivity]);
    rewrite ?app_nil_r, <- ?app_assoc; reflexivity.
Qed.

End Admins.

(** X17: a callback whose data has too few parts. [cb_pick_time] and
    [cb_cancel] raise [ValueError] with nothing done; [cb_admin_cancel],
    for an administrator, answers with an alert and does nothing else. *)
Theorem callback_data_too_short (now : pystr) (admins : list Z) (edit_ok : bool)
    (c : callback) (cw : cworld) :
  length (split_sep COLON 2 (c_data c)) <> 3%nat ->
  cb_pick_time c cw = (inl ValueError, cw)
  /\ cb_cancel now c cw = (inl ValueError, cw)
  /\ (is_admin admins (c_from_id c) = true ->
      cb_admin_cancel admins edit_ok c cw
      = (inr tt, mk_cworld (cw_db cw) (cw_profiles cw) (cw_session cw)
                   (cw_acts cw ++ [Answered (Some ALERT_BAD_DATA) true]))).
Proof.
  intros Hlen. unfold cb_pick_time, cb_cancel, cb_admin_cancel, mbind, CM_bind.
  destruct (split_sep COLON 2 (c_data c)) as [|p1 [|p2 [|p3 [|p4 ps]]]];
    simpl in *; try (exfalso; apply Hlen; reflexivity);
    (split; [reflexivity|]); (split; [reflexivity|]); intros ->; reflexivity.
Qed.

End CallbackHandlers.

Lemma StronglySorted_map {A B} (R : A -> A -> Prop) (S : B -> B -> Prop) (f : A -> B)
    (l : list A) :
  (forall a b, R a b -> S (f a) (f b)) ->
  StronglySorted R l -> StronglySorted S (map f l).
Proof.
  intros Hf. induction 1 as [|a l Hs IH Ha]; simpl; constructor; [assumption|].
  rewrite Forall_forall in Ha. apply Forall_forall. intros y Hy.
  apply list_elem_of_In, in_map_iff in Hy as (x & <- & Hx).
  apply Hf, Ha, list_elem_of_In, Hx.
Qed.

Lemma digit_chr_range (n : Z) : (48 <= digit_chr (n mod 10) <= 57)%N.
Proof.
  unfold digit_chr. assert (0 <= n mod 10 < 10) by (apply Z.mod_pos_bound; lia). lia.
Qed.

Lemma isoformat_chars (d : date) (c : N) :
  In c (isoformat d) -> c = chr "-" \/ (48 <= c <= 57)%N.
Proof.
  unfold isoformat, four_digits, two_digits. simpl.
  intros Hin.
  repeat (destruct Hin as [<- | Hin];
          [first [left; reflexivity | right; apply digit_chr_range]|]).
  destruct Hin.
Qed.

Lemma upcoming_dates_days (today : date) :
  exists days,
    upcoming_dates today = map isoformat days
    /\ length days = 12%nat
    /\ (forall day, In day days -> exists k, 0 <= k < 14 /\ day = date_plus_days today k).
Proof.
  destruct (upcoming_days today) as (ks & Hks & Hlen & _ & Hin).
  exists (map (date_plus_days today) ks).
  split; [unfold upcoming_dates; rewrite Hks; reflexivity|].
  split; [rewrite length_map; exact Hlen|].
  intros day Hday. apply in_map_iff in Hday as (k & <- & Hk).
  exists k. split; [apply Hin; assumption | reflexivity].
Qed.

(** X20: [upcoming_dates] offers exactly twelve dates, whatever the day it
    is asked: the days from today to thirteen days ahead that are not
    Sundays, each once, in ascending order, written as ISO dates of ten
    characters, digits and hyphens, none of them a colon. *)
Theorem upcoming_dates_spec (today : date) :
  dates_in_range today ->
  exists days,
    upcoming_dates today = map isoformat days
    /\ length days = 12%nat
    /\ StronglySorted (fun a b => toordinal a < toordinal b) days
    /\ (forall day, In day days <->
          exists k, 0 <= k < 14 /\ day = date_plus_days today k /\ weekday day <> 6)
    /\ Forall (fun s => length s = 10%nat /\ ~ In COLON s) (upcoming_dates today).
Proof.
  intros _.
  destruct (upcoming_days today) as (ks & Hks & Hlen & Hsorted & Hin).
  exists (map (date_plus_days today) ks).
  split; [unfold upcoming_dates; rewrite Hks; reflexivity|].
  split; [rewrite length_map; exact Hlen|].
  split; [|split].
  - apply (StronglySorted_map Z.lt); [|exact Hsorted].
    intros a b Hab. unfold date_plus_days. rewrite !toordinal_fromordinal. lia.
  - intros day. rewrite in_map_iff. split.
    + intros (k & <- & Hk). apply Hin in Hk as [Hk Hwd]. exists k.
      rewrite weekday_plus_days. auto.
    + intros (k & Hk & -> & Hwd). exists k. split; [reflexivity|].
      apply Hin. rewrite weekday_plus_days in Hwd. auto.
  - unfold upcoming_dates. apply Forall_forall. intros s Hs.
    apply list_elem_of_In, in_map_iff in Hs as (day & <- & _).
    split; [reflexivity|]. intros Hc. apply isoformat_chars in Hc as [Hc | Hc].
    + vm_compute in Hc. discriminate.
    + change COLON with 58%N in Hc. lia.
Qed.

Section DatesKeyboard.
Context `{PyLib}.
#[local] Arguments u : simpl never.

Lemma dates_rows (days : list date) :
  (forall day, In day days -> strptime_ymd (isoformat day) = Some day) ->
  mapM (fun d => parsed ← strptime_ymd d ;
                 Some [mk_button (strftime_a_dm parsed) (u "pick_date:" ++ d)])
    (map isoformat days)
  = Some (map (fun day => [mk_button (strftime_a_dm day) (u "pick_date:" ++ isoformat day)])
            days).
Proof.
  intros Hparse. apply mapM_Some. induction days as [|day days IH]; simpl; constructor.
  - rewrite Hparse by (left; reflexivity). reflexivity.
  - apply IH. intros d Hd. apply Hparse. right; assumption.
Qed.

(** X21: where [strptime] reads back the ISO form of the dates offered,
    [dates_inline_kb] has twelve rows of one button, one for each date of
    [upcoming_dates] in order; the data of each, [pick_date:<date>], is read
    back to that date by the [split(":", 1)] of [cb_pick_date]. [cmd_book]
    answers with this keyboard after emptying the session, dropping what a
    dialogue had collected; [cb_back_dates] shows it again and keeps the
    session data. Both leave the store alone and end in [choosing_date]. *)
Theorem dates_inline_kb_spec (today : date) :
  dates_in_range today ->
  (forall k, 0 <= k < 14 ->
     strptime_ymd (isoformat (date_plus_days today k)) = Some (date_plus_days today k)) ->
  exists kb,
    dates_inline_kb today = Some kb
    /\ length kb = 12%nat
    /\ map (map btn_callback_data) kb
       = map (fun s => [u "pick_date:" ++ s]) (upcoming_dates today)
    /\ Forall (fun s => split_sep COLON 1 (u "pick_date:" ++ s) = [u "pick_date"; s])
         (upcoming_dates today)
    /\ (forall m w,
          cmd_book today m w
          = (inr tt, mk_world (w_db w) (mk_session (Some choosing_date) ∅)
                       (w_sent w ++ [mk_reply PROMPT_PICK_DATE (Some kb)])))
    /\ (forall c cw,
          cb_back_dates today c cw
          = (inr tt, mk_cworld (cw_db cw) (cw_profiles cw)
                       (mk_session (Some choosing_date) (s_data (cw_session cw)))
                       (cw_acts cw ++ [Edited (mk_reply PROMPT_PICK_DATE (Some kb));
                                       Answered None false]))).
Proof.
  intros _ Hparse.
  destruct (upcoming_dates_days today) as (days & Hdates & Hlen & Hin).
  set (kb := map (fun day => [mk_button (strftime_a_dm day)
                                (u "pick_date:" ++ isoformat day)]) days).
  assert (Hkb : dates_inline_kb today = Some kb).
  { unfold dates_inline_kb. rewrite Hdates. apply dates_rows.
    intros day Hday. apply Hin in Hday as (k & Hk & ->). apply Hparse. assumption. }
  exists kb. split; [exact Hkb|].
  split; [unfold kb; rewrite length_map; exact Hlen|].
  split; [|split; [|split]].
  - unfold kb. rewrite Hdates, !List.map_map. reflexivity.
  - apply Forall_forall. intros s _. apply (split_tagged1 "pick_date"). reflexivity.
  - intros m w. unfold cmd_book, mbind, M_bind, dates_kb. rewrite Hkb. reflexivity.
  - intros c cw. clearbody kb. unfold cb_back_dates, mbind, CM_bind, dates_kb, lift.
    cbn -[PROMPT_PICK_DATE dates_inline_kb]. rewrite Hkb.
    cbn -[PROMPT_PICK_DATE]. rewrite ?app_nil_r.
    unfold c_answer, act. cbn -[PROMPT_PICK_DATE]. rewrite <- app_assoc. reflexivity.
Qed.

End DatesKeyboard.

(** ** Profiles and onboarding *)

Lemma get_profile_save_other (ps : list profile_row) (now : pystr) (tg_id other : Z)
    (full_name phone : pystr) :
  other <> tg_id ->
  get_profile (save_profile ps now tg_id full_name phone) other = get_profile ps other.
Proof.
  intros Hother. unfold get_profile, save_profile.
  destruct (existsb (fun r => p_tg_id r =? tg_id) ps).
  - induction ps as [|r ps IH]; simpl; [reflexivity|].
    destruct (Z.eqb_spec (p_tg_id r) tg_id) as [Heq|Hne]; simpl.
    + destruct (Z.eqb_spec tg_id other) as [->|_]; [contradiction|].
      destruct (Z.eqb_spec (p_tg_id r) other) as [Heq'|_]; [congruence|]. exact IH.
    + destruct (p_tg_id r =? other); [reflexivity | exact IH].
  - induction ps as [|r ps IH]; simpl.
    + destruct (Z.eqb_spec tg_id other) as [->|_]; [contradiction | reflexivity].
    + destruct (p_tg_id r =? other); [reflexivity | exact IH].
Qed.

Lemma get_profile_save_same (ps : list profile_row) (now : pystr) (tg_id : Z)
    (full_name phone : pystr) :
  get_profile (save_profile ps now tg_id full_name phone) tg_id
  = Some (mk_profile_dict full_name phone).
Proof.
  unfold get_profile, save_profile.
  destruct (existsb (fun r => p_tg_id r =? tg_id) ps) eqn:Hex.
  - induction ps as [|r ps IH]; simpl in *; [discriminate|].
    destruct (Z.eqb_spec (p_tg_id r) tg_id) as [Heq|Hne]; simpl.
    + rewrite Z.eqb_refl. reflexivity.
    + destruct (Z.eqb_spec (p_tg_id r) tg_id); [contradiction|]. apply IH. exact Hex.
  - induction ps as [|r ps IH]; simpl in *.
    + rewrite Z.eqb_refl. reflexivity.
    + apply orb_false_iff in Hex as [Hr Hps]. rewrite Hr. apply IH. exact Hps.
Qed.

(** X18: [get_profile] after [save_profile] for the same Telegram id
    returns the name and the phone just saved, whether or not the id had a
    profile; the profile of every other id is as before; a table with one
    row for each id stays so, with no row lost. *)
Theorem save_profile_get_profile (ps : list profile_row) (now : pystr) (tg_id : Z)
    (full_name phone : pystr) :
  let ps' := save_profile ps now tg_id full_name phone in
  get_profile ps' tg_id = Some (mk_profile_dict full_name phone)
  /\ (forall other, other <> tg_id -> get_profile ps' other = get_profile ps other)
  /\ (List.NoDup (map p_tg_id ps) -> List.NoDup (map p_tg_id ps'))
  /\ (forall other, In other (map p_tg_id ps) -> In other (map p_tg_id ps')).
Proof.
  cbv zeta. split; [apply get_profile_save_same|].
  split; [intros; apply get_profile_save_other; assumption|].
  unfold save_profile.
  destruct (existsb (fun r => p_tg_id r =? tg_id) ps) eqn:Hex.
  - assert (Hids : map p_tg_id
             (map (fun r => if p_tg_id r =? tg_id
                            then mk_profile tg_id (Some full_name) (Some phone) (p_created_at r)
                            else r) ps) = map p_tg_id ps).
    { rewrite List.map_map. apply map_ext. intros r.
      destruct (Z.eqb_spec (p_tg_id r) tg_id); simpl; congruence. }
    rewrite Hids. auto.
  - rewrite map_app. simpl. split.
    + intros Hnd. apply NoDup_snoc; [assumption|]. intros Hin.
      apply in_map_iff in Hin as (r & Hr & Hin).
      assert (existsb (fun r => p_tg_id r =? tg_id) ps = true); [|congruence].
      apply existsb_exists. exists r. split; [assumption|]. apply Z.eqb_eq. assumption.
    + intros other Hin. apply in_or_app. left; assumption.
Qed.

Section Onboarding.
Context `{PyLib}.
#[local] Arguments u : simpl never.

Lemma lift_on_db {A} (f : db -> db * A) (cw : cworld) :
  lift (on_db f) cw
  = (inr (snd (f (cw_db cw))),
     mk_cworld (fst (f (cw_db cw))) (cw_profiles cw) (cw_session cw) (cw_acts cw ++ [])).
Proof. unfold lift, on_db. simpl. destruct (f (cw_db cw)). reflexivity. Qed.

Lemma phone_match_not_empty (phone : pystr) : phone_match phone = true -> phone <> [].
Proof.
  intros Hm ->. apply phone_match_valid in Hm as (digits & [Heq | Heq] & _ & Hlen).
  - subst digits. unfold len in Hlen. simpl in Hlen. lia.
  - discriminate.
Qed.

Lemma re_phone_not_empty (phone : pystr) : re_phone phone = true -> phone <> [].
Proof.
  unfold re_phone. intros Hm. apply orb_true_iff in Hm as [Hm | Hm].
  - apply phone_match_not_empty. assumption.
  - intros ->. apply phone_match_not_empty in Hm. apply Hm. reflexivity.
Qed.

(** X19: [ob_enter_phone] on a phone its pattern accepts (the contact's
    number as it is, or the digits and [+] of the text), with a name in the
    session: it saves name and phone as the profile of the sender, clears
    the session and thanks once, without touching the bookings. When the
    name is not empty the profile counts as filled from then on: a later
    [cmd_start] of that user greets without asking again and leaves the
    session alone, and [cb_pick_time] takes the name and the phone from the
    profile and goes to [entering_topic]. *)
Theorem ob_enter_phone_saves (now : pystr) (contact : option pystr) (m : message)
    (cw : cworld) (full_name : pystr) :
  let phone := match contact with
               | Some (c :: r) => c :: r
               | _ => phone_chars (or_empty (m_text m))
               end in
  re_phone phone = true ->
  s_data (cw_session cw) !! "full_name" = Some full_name ->
  full_name <> [] ->
  let cw1 := snd (ob_enter_phone now contact m cw) in
  fst (ob_enter_phone now contact m cw) = inr tt
  /\ cw_db cw1 = cw_db cw
  /\ cw_session cw1 = mk_session None ∅
  /\ cw_acts cw1 = cw_acts cw ++ [Sent (mk_reply MSG_SAVED None)]
  /\ get_profile (cw_profiles cw1) (m_from_id m) = Some (mk_profile_dict full_name phone)
  /\ (forall now' m' cw2,
        m_from_id m' = m_from_id m -> cw_profiles cw2 = cw_profiles cw1 ->
        fst (cmd_start now' m' cw2) = inr tt
        /\ cw_session (snd (cmd_start now' m' cw2)) = cw_session cw2
        /\ cw_acts (snd (cmd_start now' m' cw2))
           = cw_acts cw2 ++ [Sent (mk_reply MSG_WELCOME None)])
  /\ (forall c cw2 date_str time_str,
        c_from_id c = m_from_id m -> cw_profiles cw2 = cw_profiles cw1 ->
        ~ In COLON date_str ->
        c_data c = u "pick_time:" ++ date_str ++ u ":" ++ time_str ->
        cw_session (snd (cb_pick_time c cw2))
        = mk_session (Some entering_topic)
            (<["phone" := phone]>
               (<["full_name" := full_name]>
                  (<["date" := date_str]>
                     (<["time" := time_str]> (s_data (cw_session cw2))))))).
Proof.
  intros phone Hphone Hname Hne. cbv zeta.
  assert (Hrun : ob_enter_phone now contact m cw
                 = (inr tt, mk_cworld (cw_db cw)
                              (save_profile (cw_profiles cw) now (m_from_id m) full_name phone)
                              (mk_session None ∅)
                              (cw_acts cw ++ [Sent (mk_reply MSG_SAVED None)]))).
  { unfold ob_enter_phone. fold phone. rewrite Hphone. cbn [negb].
    unfold mbind, CM_bind, lift, get_data, getitem. cbn -[MSG_SAVED save_profile].
    rewrite Hname. cbn -[MSG_SAVED save_profile]. rewrite !app_nil_r. reflexivity. }
  rewrite Hrun. cbn [fst snd cw_db cw_session cw_acts cw_profiles].
  pose proof (get_profile_save_same (cw_profiles cw) now (m_from_id m) full_name phone)
    as Hget.
  assert (Hfilled : negb (len full_name =? 0) && negb (len phone =? 0) = true).
  { apply re_phone_not_empty in Hphone. unfold len.
    destruct full_name; [contradiction|]. destruct phone; [contradiction|]. reflexivity. }
  split; [reflexivity|]. split; [reflexivity|]. split; [reflexivity|].
  split; [reflexivity|]. split; [exact Hget|]. split.
  - intros now' m' cw2 Hid Hps.
    unfold cmd_start, mbind, CM_bind, read_profile, upsert_sender.
    rewrite lift_on_db. cbn [cw_profiles]. rewrite Hps, Hid, Hget.
    unfold profile_filled. cbn [pf_full_name pf_phone]. rewrite Hfilled.
    cbn -[MSG_WELCOME]. rewrite ?app_nil_r. auto.
  - intros c cw2 date_str time_str Hid Hps Hd Hdata.
    assert (Hsplit : split_sep COLON 2 (c_data c) = [u "pick_time"; date_str; time_str]).
    { rewrite Hdata. apply (split_tagged "pick_time"); [reflexivity | assumption]. }
    unfold cb_pick_time. unfold mbind, CM_bind. rewrite Hsplit.
    unfold read_profile. cbn -[u get_profile fmt_user_date].
    rewrite Hps, Hid, Hget. cbn -[u fmt_user_date]. rewrite Hfilled.
    reflexivity.
Qed.

End Onboarding.

(** ** The dialogue log *)

Lemma insert_by_last {A} (leb : A -> A -> bool) (x : A) (l : list A) :
  Forall (fun y => leb x y = false) l -> insert_by leb x l = l ++ [x].
Proof.
  induction 1 as [|y l Hy Hl IH]; simpl; [reflexivity|].
  rewrite Hy, IH. reflexivity.
Qed.

Lemma order_by_desc_rev (l : list log_row) :
  StronglySorted (fun a b => l_id a < l_id b) l ->
  order_by (fun a b => l_id b <=? l_id a) l = rev l.
Proof.
  induction 1 as [|x l Hs IH Hx]; simpl; [reflexivity|].
  rewrite IH. apply insert_by_last.
  rewrite Forall_forall in Hx. apply Forall_forall. intros y Hy.
  apply list_elem_of_In, in_rev, list_elem_of_In in Hy. specialize (Hx y Hy).
  apply Z.leb_gt. exact Hx.
Qed.

Lemma StronglySorted_snoc {A} (R : A -> A -> Prop) (l : list A) (x : A) :
  StronglySorted R l -> Forall (fun y => R y x) l -> StronglySorted R (l ++ [x]).
Proof.
  induction 1 as [|a l Hs IH Ha]; simpl; intros Hall.
  - repeat constructor.
  - inversion Hall; subst. constructor; [auto|].
    apply Forall_app. split; [assumption|]. constructor; [assumption|constructor].
Qed.

Lemma logged_sorted (t : log_table) :
  logged t -> StronglySorted (fun a b => l_id a < l_id b) (log_rows t).
Proof.
  induction 1 as [|d t t' now user_id user_text bot_reply _ IH Hadd]; simpl; [constructor|].
  unfold add_log in Hadd. destruct (match user_id with Some _ => _ | None => _ end);
    [|discriminate].
  injection Hadd as <-. simpl. apply StronglySorted_snoc; [assumption|].
  destruct (next_rowid_above (logs_seq t) (map l_id (log_rows t))) as [_ Hall].
  rewrite Forall_forall in Hall. apply Forall_forall. intros y Hy. simpl.
  apply (Hall (l_id y)). apply list_elem_of_In, in_map, list_elem_of_In. assumption.
Qed.

(** X22: on a log that [add_log] has built, [last_dialog_for_user] with a
    limit that is not negative returns the last [limit] exchanges of that
    user, all of them when there are fewer, in the order they were logged;
    exchanges of other users and those logged without a user are left
    out. *)
Theorem last_dialog_for_user_spec (t : log_table) (user_id limit : Z) :
  logged t ->
  0 <= limit ->
  let mine :=
    map (fun r => (l_user_text r, l_bot_reply r))
      (List.filter (fun r => match l_user_id r with
                             | Some uid => uid =? user_id
                             | None => false
                             end) (log_rows t)) in
  last_dialog_for_user t user_id limit = skipn (length mine - Z.to_nat limit) mine
  /\ len (last_dialog_for_user t user_id limit) = Z.min limit (len mine).
Proof.
  intros Hlog Hlimit. cbv zeta.
  assert (Heq : last_dialog_for_user t user_id limit
                = skipn (length (map (fun r => (l_user_text r, l_bot_reply r))
                                   (List.filter (fun r => match l_user_id r with
                                                          | Some uid => uid =? user_id
                                                          | None => false
                                                          end) (log_rows t)))
                         - Z.to_nat limit)
                    (map (fun r => (l_user_text r, l_bot_reply r))
                       (List.filter (fun r => match l_user_id r with
                                              | Some uid => uid =? user_id
                                              | None => false
                                              end) (log_rows t)))).
  { unfold last_dialog_for_user. cbv zeta.
    destruct (Z.ltb_spec limit 0) as [Hneg|_]; [lia|].
    rewrite order_by_desc_rev
      by (apply StronglySorted_filter, logged_sorted; assumption).
    rewrite <- firstn_map, map_rev, firstn_rev, rev_involutive. reflexivity. }
  split; [exact Heq|].
  rewrite Heq. unfold len. rewrite length_skipn. lia.
Qed.

(** ** The sessions the bot reaches *)

Section SessionInvariant.
Context `{PyLib}.
#[local] Arguments u : simpl never.

Lemma lift_session {A} (m : M A) (cw : cworld) :
  cw_session (snd (lift m cw))
  = w_session (snd (m (mk_world (cw_db cw) (cw_session cw) []))).
Proof. unfold lift. destruct (m _) as [r w]. reflexivity. Qed.

Lemma fsm_enter_name_session (m : message) (w : world) :
  w_session (snd (fsm_enter_name m w)) = w_session w
  \/ exists v, w_session (snd (fsm_enter_name m w))
               = mk_session (Some entering_phone) (<["full_name" := v]> (s_data (w_session w))).
Proof.
  unfold fsm_enter_name. destruct (len _ <? 5); [left; reflexivity|].
  right. eexists. reflexivity.
Qed.

Lemma fsm_enter_phone_session (m : message) (w : world) :
  w_session (snd (fsm_enter_phone m w)) = w_session w
  \/ exists v, w_session (snd (fsm_enter_phone m w))
               = mk_session (Some entering_topic) (<["phone" := v]> (s_data (w_session w))).
Proof.
  unfold fsm_enter_phone. destruct (negb _); [left; reflexivity|].
  right. eexists. reflexivity.
Qed.

Lemma fsm_enter_topic_session (m : message) (w : world) :
  w_session (snd (fsm_enter_topic m w)) = w_session w
  \/ exists v, w_session (snd (fsm_enter_topic m w))
               = mk_session (Some confirm) (<["topic" := v]> (s_data (w_session w))).
Proof.
  unfold fsm_enter_topic. destruct (len _ <? 3); [left; reflexivity|].
  right. eexists. reflexivity.
Qed.

Lemma ob_enter_name_session (m : message) (w : world) :
  w_session (snd (ob_enter_name m w)) = w_session w
  \/ exists v, w_session (snd (ob_enter_name m w))
               = mk_session (Some ob_phone) (<["full_name" := v]> (s_data (w_session w))).
Proof.
  unfold ob_enter_name. destruct (_ || _); [left; reflexivity|].
  right. eexists. reflexivity.
Qed.

Lemma fsm_confirm_session (now : pystr) (m : message) (w : world) :
  w_session (snd (fsm_confirm now m w)) = w_session w
  \/ w_session (snd (fsm_confirm now m w)) = mk_session None ∅
  \/ w_session (snd (fsm_confirm now m w))
     = mk_session (Some choosing_time) (s_data (w_session w)).
Proof.
  unfold fsm_confirm.
  destruct (pystr_in _ YES_WORDS).
  - unfold mbind, M_bind, get_data, upsert_sender, on_db, getitem. cbn [fst snd w_db].
    match goal with
    | |- context [upsert_user ?a ?b ?c ?d ?e ?f] =>
        destruct (upsert_user a b c d e f) as [d1 uid]
    end.
    cbn [w_session s_data].
    destruct (s_data (w_session w) !! "full_name") as [full_name|]; [|left; reflexivity].
    cbn -[create_booking times_inline_kb MSG_CANCEL_HINT PROMPT_OTHER_TIME].
    destruct (s_data (w_session w) !! "phone") as [phone|]; [|left; reflexivity].
    cbn -[create_booking times_inline_kb MSG_CANCEL_HINT PROMPT_OTHER_TIME].
    destruct (s_data (w_session w) !! "date") as [date_str|]; [|left; reflexivity].
    cbn -[create_booking times_inline_kb MSG_CANCEL_HINT PROMPT_OTHER_TIME].
    destruct (s_data (w_session w) !! "time") as [time_str|]; [|left; reflexivity].
    cbn -[create_booking times_inline_kb MSG_CANCEL_HINT PROMPT_OTHER_TIME].
    destruct (s_data (w_session w) !! "topic") as [topic|]; [|left; reflexivity].
    cbn -[create_booking times_inline_kb MSG_CANCEL_HINT PROMPT_OTHER_TIME].
    destruct (create_booking d1 now uid full_name phone date_str time_str topic)
      as [d2 [[|] msg]];
      cbn -[times_inline_kb MSG_CANCEL_HINT PROMPT_OTHER_TIME].
    + right. left. reflexivity.
    + right. right. rewrite times_inline_kb_reads.
      destruct (fst (times_inline_kb _ _)); reflexivity.
  - destruct (pystr_in _ NO_WORDS); [right; left; reflexivity | left; reflexivity].
Qed.

Lemma has_keys_insert (keys : list string) (st st' : option fsm_state)
    (data : gmap string pystr) (k : string) (v : pystr) :
  has_keys keys (mk_session st data) ->
  has_keys (keys ++ [k]) (mk_session st' (<[k := v]> data)).
Proof.
  unfold has_keys. simpl. intros Hall. apply Forall_app. split.
  - eapply Forall_impl; [exact Hall|]. simpl. intros k' Hk'.
    apply lookup_insert_is_Some'. right; assumption.
  - constructor; [|constructor]. apply lookup_insert_is_Some'. left; reflexivity.
Qed.

Lemma session_ok_state (s : session) (st : fsm_state) :
  s_state s = Some st -> session_ok s ->
  match st with
  | choosing_time => has_keys ["date"] s
  | entering_name => has_keys ["date"; "time"] s
  | entering_phone => has_keys ["date"; "time"; "full_name"] s
  | entering_topic => has_keys ["date"; "time"; "full_name"; "phone"] s
  | confirm => has_keys ["date"; "time"; "full_name"; "phone"; "topic"] s
  | ob_phone => has_keys ["full_name"] s
  | _ => True
  end.
Proof. unfold session_ok. intros ->. destruct st; auto. Qed.

Lemma session_eta (s : session) : s = mk_session (s_state s) (s_data s).
Proof. destruct s; reflexivity. Qed.

Lemma bot_step_session_ok (cw cw' : cworld) :
  bot_step cw cw' -> session_ok (cw_session cw) -> session_ok (cw_session cw').
Proof.
  intros Hstep Hok. destruct Hstep as
    [ now m cw | m cw Hst | now contact m cw Hst | today m cw | c cw | today c cw | c cw
    | m cw Hst | m cw Hst | m cw Hst | now m cw Hst | cw cw' Hsame ].
  - (* cmd_start *)
    unfold cmd_start, mbind, CM_bind, upsert_sender, read_profile. rewrite lift_on_db.
    cbn [cw_profiles]. destruct (negb _); cbn -[MSG_ASK_NAME MSG_WELCOME].
    + exact I.
    + exact Hok.
  - (* ob_enter_name *)
    rewrite lift_session.
    destruct (ob_enter_name_session m (mk_world (cw_db cw) (cw_session cw) []))
      as [-> | [v ->]]; [exact Hok|].
    unfold session_ok. simpl. apply (has_keys_insert [] None). constructor.
  - (* ob_enter_phone *)
    unfold ob_enter_phone. destruct (negb _).
    + rewrite lift_session. exact Hok.
    + unfold mbind, CM_bind, lift, get_data, getitem. cbn -[MSG_SAVED save_profile].
      destruct (s_data (cw_session cw) !! "full_name"); cbn -[MSG_SAVED save_profile].
      * exact I.
      * exact Hok.
  - (* cmd_book *)
    rewrite lift_session. unfold cmd_book, mbind, M_bind, dates_kb.
    cbn -[dates_inline_kb PROMPT_PICK_DATE].
    destruct (dates_inline_kb today); exact I.
  - (* cb_pick_date *)
    unfold cb_pick_date, mbind, CM_bind.
    destruct (split_sep COLON 1 (c_data c)) as [|p1 [|p2 [|p3 ps]]];
      cbn [unpack2 craise mret CM_ret]; try exact Hok.
    unfold lift at 1 2. cbn -[u times_inline_kb fmt_user_date].
    rewrite lift_times_inline_kb. cbn -[u times_inline_kb fmt_user_date].
    assert (Hnew : session_ok (mk_session (Some choosing_time)
                                 (<["date" := p2]> (s_data (cw_session cw))))).
    { unfold session_ok. simpl. apply (has_keys_insert [] None). constructor. }
    destruct (fst (times_inline_kb p2 _)); exact Hnew.
  - (* cb_back_dates *)
    unfold cb_back_dates, mbind, CM_bind, dates_kb, lift.
    cbn -[dates_inline_kb PROMPT_PICK_DATE].
    destruct (dates_inline_kb today); exact I.
  - (* cb_pick_time *)
    unfold cb_pick_time, mbind, CM_bind.
    destruct (split_sep COLON 2 (c_data c)) as [|p1 [|p2 [|p3 [|p4 ps]]]];
      cbn [unpack3 craise mret CM_ret]; try exact Hok.
    unfold read_profile. cbn -[u fmt_user_date get_profile profile_filled].
    assert (Hpicked : has_keys ["date"; "time"]
              (mk_session None (<["date" := p2]> (<["time" := p3]> (s_data (cw_session cw)))))).
    { unfold has_keys. simpl. repeat constructor; apply lookup_insert_is_Some'; auto.
      right. apply lookup_insert_is_Some'. auto. }
    destruct (get_profile (cw_profiles cw) (c_from_id c)) as [p|];
      [destruct (profile_filled (Some p))|]; cbn -[u fmt_user_date].
    + unfold session_ok. simpl.
      apply (has_keys_insert ["date"; "time"; "full_name"] None).
      apply (has_keys_insert ["date"; "time"] None). exact Hpicked.
    + exact Hpicked.
    + exact Hpicked.
  - (* fsm_enter_name *)
    rewrite lift_session.
    pose proof (session_ok_state _ _ Hst Hok) as Hkeys. simpl in Hkeys.
    destruct (fsm_enter_name_session m (mk_world (cw_db cw) (cw_session cw) []))
      as [-> | [v ->]]; [exact Hok|].
    unfold session_ok. simpl. apply (has_keys_insert ["date"; "time"] (s_state (cw_session cw))).
    rewrite <- session_eta. exact Hkeys.
  - (* fsm_enter_phone *)
    rewrite lift_session.
    pose proof (session_ok_state _ _ Hst Hok) as Hkeys. simpl in Hkeys.
    destruct (fsm_enter_phone_session m (mk_world (cw_db cw) (cw_session cw) []))
      as [-> | [v ->]]; [exact Hok|].
    unfold session_ok. simpl.
    apply (has_keys_insert ["date"; "time"; "full_name"] (s_state (cw_session cw))).
    rewrite <- session_eta. exact Hkeys.
  - (* fsm_enter_topic *)
    rewrite lift_session.
    pose proof (session_ok_state _ _ Hst Hok) as Hkeys. simpl in Hkeys.
    destruct (fsm_enter_topic_session m (mk_world (cw_db cw) (cw_session cw) []))
      as [-> | [v ->]]; [exact Hok|].
    unfold session_ok. simpl.
    apply (has_keys_insert ["date"; "time"; "full_name"; "phone"] (s_state (cw_session cw))).
    rewrite <- session_eta. exact Hkeys.
  - (* fsm_confirm *)
    rewrite lift_session.
    pose proof (session_ok_state _ _ Hst Hok) as Hkeys. simpl in Hkeys.
    destruct (fsm_confirm_session now m (mk_world (cw_db cw) (cw_session cw) []))
      as [-> | [-> | ->]]; [exact Hok | exact I |].
    unfold session_ok. simpl. unfold has_keys in *. simpl.
    inversion Hkeys; subst. constructor; [assumption|constructor].
  - rewrite Hsame. exact Hok.
Qed.

Lemma bot_reachable_session_ok (cw : cworld) :
  bot_reachable cw -> session_ok (cw_session cw).
Proof.
  induction 1 as [cw Hempty | cw cw' _ IH Hstep].
  - rewrite Hempty. exact I.
  - eapply bot_step_session_ok; eassumption.
Qed.

(** X23: in every world the bot reaches from an empty session, the session
    holds what its state relies on: in [confirm] all of [date], [time],
    [full_name], [phone] and [topic], in the states before it the keys
    collected so far, in the phone step of the onboarding the name. So
    [fsm_confirm] and [ob_enter_phone] never raise [KeyError] when they
    run. *)
Theorem dialogue_never_KeyError (cw : cworld) :
  bot_reachable cw ->
  session_ok (cw_session cw)
  /\ (forall now m key,
        s_state (cw_session cw) = Some confirm ->
        fst (lift (fsm_confirm now m) cw) <> inl (KeyError key))
  /\ (forall now contact m key,
        s_state (cw_session cw) = Some ob_phone ->
        fst (ob_enter_phone now contact m cw) <> inl (KeyError key)).
Proof.
  intros Hreach. pose proof (bot_reachable_session_ok cw Hreach) as Hok.
  split; [exact Hok|]. split.
  - intros now m key Hst.
    pose proof (session_ok_state _ _ Hst Hok) as Hkeys. simpl in Hkeys.
    unfold has_keys in Hkeys.
    repeat match goal with
           | Hk : Forall _ (_ :: _) |- _ => inversion Hk; subst; clear Hk
           end.
    repeat match goal with
           | Hk : is_Some _ |- _ => destruct Hk as [? Hk]
           end.
    unfold lift, fsm_confirm.
    destruct (pystr_in _ YES_WORDS).
    + unfold mbind, M_bind, get_data, upsert_sender, on_db, getitem. cbn [fst snd w_db].
      match goal with
      | |- context [upsert_user ?a ?b ?c ?d ?e ?f] =>
          destruct (upsert_user a b c d e f) as [d1 uid]
      end.
      cbn [w_session s_data].
      repeat match goal with
             | Hk : s_data (cw_session cw) !! _ = Some _ |- _ => rewrite Hk; clear Hk
             end.
      cbn -[create_booking times_inline_kb MSG_CANCEL_HINT PROMPT_OTHER_TIME].
      match goal with
      | |- context [create_booking ?a ?b ?c ?d ?e ?f ?g ?h] =>
          destruct (create_booking a b c d e f g h) as [d2 [[|] msg]]
      end; cbn -[times_inline_kb MSG_CANCEL_HINT PROMPT_OTHER_TIME].
      * discriminate.
      * rewrite times_inline_kb_reads. cbn -[times_inline_kb PROMPT_OTHER_TIME].
        match goal with
        | |- context [fst (times_inline_kb ?ds ?w0)] =>
            pose proof (times_inline_kb_result ds w0) as Hres;
            destruct (strptime_ymd ds);
            [destruct Hres as [kb Hkb]; rewrite Hkb | rewrite Hres]
        end; cbn -[PROMPT_OTHER_TIME]; discriminate.
    + destruct (pystr_in _ NO_WORDS); cbn -[MSG_DECLINED PROMPT_YES_NO]; discriminate.
  - intros now contact m key Hst.
    pose proof (session_ok_state _ _ Hst Hok) as Hkeys. simpl in Hkeys.
    unfold has_keys in Hkeys. inversion Hkeys as [|? ? [v Hv] _]; subst.
    unfold ob_enter_phone. destruct (negb _).
    + unfold lift, answer. cbn -[PROMPT_BAD_PHONE]. discriminate.
    + unfold mbind, CM_bind, lift, get_data, getitem. cbn -[MSG_SAVED save_profile].
      rewrite Hv. cbn -[MSG_SAVED save_profile]. discriminate.
Qed.

End SessionInvariant.

(** ** The booking dialogue, from the time button to the cancel button *)

Lemma upsert_user_find (d : db) (now : pystr) (tg_id : Z) (first last uname : pystr) :
  let r := upsert_user d now tg_id first last uname in
  exists row,
    List.find (fun x => u_tg_id x =? tg_id) (users (fst r)) = Some row /\ u_id row = snd r.
Proof.
  cbv zeta. unfold upsert_user.
  destruct (List.find (fun r => u_tg_id r =? tg_id) (users d)) as [row|] eqn:Hfind; simpl.
  - exists row. auto.
  - eexists. split; [apply find_app_new; [assumption | simpl; apply Z.eqb_refl]|].
    reflexivity.
Qed.

Lemma upsert_user_known (d : db) (now : pystr) (tg_id : Z) (first last uname : pystr)
    (row : user_row) :
  List.find (fun x => u_tg_id x =? tg_id) (users d) = Some row ->
  upsert_user d now tg_id first last uname = (d, u_id row).
Proof. intros Hfind. unfold upsert_user. rewrite Hfind. reflexivity. Qed.

Lemma upsert_user_foreign_key (d : db) (now : pystr) (tg_id : Z) (first last uname : pystr) :
  let r := upsert_user d now tg_id first last uname in
  foreign_key_ok (fst r) (snd r) = true
  /\ forall date_str time_str,
       unique_date_time_ok (fst r) date_str time_str = unique_date_time_ok d date_str time_str.
Proof.
  cbv zeta.
  destruct (upsert_user_row d now tg_id first last uname) as ((row & Hin & Hid & _) & Hbs).
  split.
  - unfold foreign_key_ok. apply existsb_exists. exists row.
    split; [assumption|]. apply Z.eqb_eq. assumption.
  - intros date_str time_str. unfold unique_date_time_ok. rewrite Hbs. reflexivity.
Qed.

Lemma cancel_new_booking (bs : list booking) (id uid : Z)
    (full_name phone date_str time_str topic now : pystr) :
  existsb (at_slot date_str time_str) bs = false ->
  let row := mk_booking id uid full_name phone date_str time_str topic CONFIRMED now in
  existsb (owned_at_slot uid date_str time_str) (bs ++ [row]) = true
  /\ List.filter (fun b => negb (owned_at_slot uid date_str time_str b)) (bs ++ [row]) = bs.
Proof.
  intros Hfree. cbv zeta.
  assert (Hown : existsb (owned_at_slot uid date_str time_str) bs = false).
  { apply not_true_is_false. intros Hex. apply existsb_exists in Hex as (b & Hin & Ho).
    unfold owned_at_slot in Ho. apply andb_true_iff in Ho as [_ Ho].
    assert (existsb (at_slot date_str time_str) bs = true); [|congruence].
    apply existsb_exists. eauto. }
  assert (Hnew : owned_at_slot uid date_str time_str
            (mk_booking id uid full_name phone date_str time_str topic CONFIRMED now)
          = true).
  { apply owned_at_slot_iff. auto. }
  split.
  - rewrite existsb_app. simpl. rewrite Hnew. apply orb_true_r.
  - rewrite List.filter_app, (filter_negb_all _ _ Hown). simpl. rewrite Hnew. simpl.
    apply app_nil_r.
Qed.

Section HappyPath.
Context `{PyLib}.
#[local] Arguments u : simpl never.

Lemma fsm_confirm_yes (now : pystr) (m : message) (w : world)
    (full_name phone date_str time_str topic : pystr) :
  In (str_lower (strip (or_empty (m_text m)))) YES_WORDS ->
  s_data (w_session w) !! "full_name" = Some full_name ->
  s_data (w_session w) !! "phone" = Some phone ->
  s_data (w_session w) !! "date" = Some date_str ->
  s_data (w_session w) !! "time" = Some time_str ->
  s_data (w_session w) !! "topic" = Some topic ->
  unique_date_time_ok (w_db w) date_str time_str = true ->
  let up := upsert_user (w_db w) now (m_from_id m) (or_empty (m_first_name m))
              (or_empty (m_last_name m)) (or_empty (m_username m)) in
  let id := next_rowid (bookings_seq (fst up)) (map b_id (bookings (w_db w))) in
  fsm_confirm now m w
  = (inr tt,
     mk_world
       (with_bookings (fst up)
          (bookings (w_db w)
           ++ [mk_booking id (snd up) full_name phone date_str time_str topic CONFIRMED now])
          id)
       (mk_session None ∅)
       (w_sent w ++ [mk_reply MSG_CONFIRMED None;
                     mk_reply MSG_CANCEL_HINT (Some (cancel_booking_kb date_str time_str))])).
Proof.
  intros Hyes Hname Hphone Hdate Htime Htopic Hfree. cbv zeta.
  apply pystr_in_In in Hyes.
  destruct (upsert_user_foreign_key (w_db w) now (m_from_id m) (or_empty (m_first_name m))
              (or_empty (m_last_name m)) (or_empty (m_username m))) as [Hfk Huniq].
  destruct (upsert_user_row (w_db w) now (m_from_id m) (or_empty (m_first_name m))
              (or_empty (m_last_name m)) (or_empty (m_username m))) as [_ Hbs].
  specialize (Huniq date_str time_str). rewrite Hfree in Huniq.
  unfold fsm_confirm. rewrite Hyes.
  unfold mbind, M_bind, get_data, upsert_sender, on_db, getitem. cbn [fst snd w_db].
  destruct (upsert_user (w_db w) now (m_from_id m) _ _ _) as [d1 uid].
  cbn [fst snd w_session s_data] in *.
  rewrite Hname, Hphone, Hdate, Htime, Htopic.
  cbn -[create_booking MSG_CANCEL_HINT cancel_booking_kb MSG_CONFIRMED].
  unfold create_booking, insert_booking. rewrite Huniq, Hfk, Hbs.
  cbn -[MSG_CANCEL_HINT cancel_booking_kb MSG_CONFIRMED CONFIRMED].
  unfold answer, state_clear. cbn -[MSG_CANCEL_HINT cancel_booking_kb MSG_CONFIRMED CONFIRMED].
  rewrite <- app_assoc. reflexivity.
Qed.

(** X24: in [confirm], on an affirmative answer with the five values in
    the session and no row at the slot, [fsm_confirm] books: after making
    sure the sender has a row in [users] it appends one confirmed booking
    of that user with the session's values under a new id, empties the
    session, and sends the confirmation and then the cancel button. *)
Theorem fsm_confirm_books (now : pystr) (m : message) (w : world)
    (full_name phone date_str time_str topic : pystr) :
  In (str_lower (strip (or_empty (m_text m)))) YES_WORDS ->
  s_data (w_session w) !! "full_name" = Some full_name ->
  s_data (w_session w) !! "phone" = Some phone ->
  s_data (w_session w) !! "date" = Some date_str ->
  s_data (w_session w) !! "time" = Some time_str ->
  s_data (w_session w) !! "topic" = Some topic ->
  unique_date_time_ok (w_db w) date_str time_str = true ->
  let up := upsert_user (w_db w) now (m_from_id m) (or_empty (m_first_name m))
              (or_empty (m_last_name m)) (or_empty (m_username m)) in
  let w' := snd (fsm_confirm now m w) in
  fst (fsm_confirm now m w) = inr tt
  /\ (exists id,
        bookings (w_db w')
        = bookings (w_db w)
          ++ [mk_booking id (snd up) full_name phone date_str time_str topic CONFIRMED now]
        /\ Forall (fun b => b_id b < id) (bookings (w_db w)))
  /\ users (w_db w') = users (fst up)
  /\ foreign_key_ok (w_db w') (snd up) = true
  /\ w_session w' = mk_session None ∅
  /\ w_sent w'
     = w_sent w ++ [mk_reply MSG_CONFIRMED None;
                    mk_reply MSG_CANCEL_HINT (Some (cancel_booking_kb date_str time_str))].
Proof.
  intros Hyes Hname Hphone Hdate Htime Htopic Hfree. cbv zeta.
  rewrite (fsm_confirm_yes now m w full_name phone date_str time_str topic) by assumption.
  cbn [fst snd w_db w_session w_sent with_bookings bookings users].
  split; [reflexivity|]. split; [|split; [reflexivity|split; [|split; reflexivity]]].
  - eexists. split; [reflexivity|].
    match goal with
    | |- context [next_rowid ?seq ?ids] =>
        destruct (next_rowid_above seq ids) as [_ Hall]
    end.
    rewrite Forall_forall in Hall. apply Forall_forall. intros b Hb.
    apply (Hall (b_id b)), list_elem_of_In, in_map, list_elem_of_In, Hb.
  - apply (upsert_user_foreign_key (w_db w) now (m_from_id m)).
Qed.

(** X25: the cancel button that [fsm_confirm] sends undoes the booking.
    When the user who confirmed presses it, [cb_cancel] reads the date and
    the time back from its data (the date having no colon), finds the row
    of that user at that slot and removes it: [bookings] is as it was
    before the confirmation, and the message says the booking is
    cancelled. *)
Theorem cancel_button_undoes_booking (now now' : pystr) (m : message) (w : world)
    (c : callback) (cw : cworld) (full_name phone date_str time_str topic : pystr) :
  In (str_lower (strip (or_empty (m_text m)))) YES_WORDS ->
  s_data (w_session w) !! "full_name" = Some full_name ->
  s_data (w_session w) !! "phone" = Some phone ->
  s_data (w_session w) !! "date" = Some date_str ->
  s_data (w_session w) !! "time" = Some time_str ->
  s_data (w_session w) !! "topic" = Some topic ->
  unique_date_time_ok (w_db w) date_str time_str = true ->
  ~ In COLON date_str ->
  cw_db cw = w_db (snd (fsm_confirm now m w)) ->
  c_from_id c = m_from_id m ->
  [[mk_button (u "❌ Отменить запись") (c_data c)]] = cancel_booking_kb date_str time_str ->
  let cw' := snd (cb_cancel now' c cw) in
  fst (cb_cancel now' c cw) = inr tt
  /\ bookings (cw_db cw') = bookings (w_db w)
  /\ users (cw_db cw') = users (cw_db cw)
  /\ cw_acts cw' = cw_acts cw ++ [Edited (mk_reply MSG_CANCELLED None); Answered None false].
Proof.
  intros Hyes Hname Hphone Hdate Htime Htopic Hfree Hcolon Hdb Hfrom Hbutton. cbv zeta.
  rewrite (fsm_confirm_yes now m w full_name phone date_str time_str topic) in Hdb
    by assumption.
  cbn [snd w_db] in Hdb.
  injection Hbutton as Hdata.
  assert (Hsplit : split_sep COLON 2 (c_data c) = [u "cancel"; date_str; time_str]).
  { rewrite Hdata. apply (split_tagged "cancel"); [reflexivity | assumption]. }
  destruct (upsert_user_find (w_db w) now (m_from_id m) (or_empty (m_first_name m))
              (or_empty (m_last_name m)) (or_empty (m_username m))) as (row & Hfind & Hid).
  set (up := upsert_user (w_db w) now (m_from_id m) (or_empty (m_first_name m))
               (or_empty (m_last_name m)) (or_empty (m_username m))) in *.
  assert (Hup2 : upsert_user (cw_db cw) now' (c_from_id c) (or_empty (c_first_name c))
                   (or_empty (c_last_name c)) (or_empty (c_username c))
                 = (cw_db cw, snd up)).
  { rewrite <- Hid. apply upsert_user_known. rewrite Hdb, Hfrom. exact Hfind. }
  assert (Hfree' : existsb (at_slot date_str time_str) (bookings (w_db w)) = false).
  { unfold unique_date_time_ok in Hfree. apply negb_true_iff in Hfree. exact Hfree. }
  unfold cb_cancel, mbind, CM_bind. rewrite Hsplit. cbn [unpack3 mret CM_ret].
  rewrite lift_on_db, Hup2. cbn [fst snd cw_db].
  rewrite lift_on_db. cbn [fst snd cw_db cw_profiles cw_session cw_acts].
  unfold cancel_booking.
  pose proof (delete_bookings_rowcount (cw_db cw)
                (owned_at_slot (snd up) date_str time_str)) as Hcount.
  unfold delete_bookings in *. cbn [fst snd] in *. rewrite Hcount.
  rewrite Hdb. cbn [bookings with_bookings users].
  match goal with
  | |- context [mk_booking ?id (snd up) full_name phone date_str time_str topic CONFIRMED now] =>
      destruct (cancel_new_booking (bookings (w_db w)) id (snd up) full_name phone
                  date_str time_str topic now Hfree') as [Hex Hfilter]
  end.
  rewrite Hex, Hfilter. unfold edit_text, c_answer, act.
  cbn -[MSG_CANCELLED]. rewrite ?app_nil_r, <- ?app_assoc.
  repeat split; reflexivity.
Qed.

End HappyPath.

Section WholeDialogue.
Context `{PyLib}.
#[local] Arguments u : simpl never.

Lemma fsm_enter_phone_accepts (m : message) (w : world) :
  let phone := phone_chars (or_empty (m_text m)) in
  phone_match phone = true ->
  fsm_enter_phone m w =
    (inr tt,
     mk_world (w_db w)
       (mk_session (Some entering_topic) (<["phone" := phone]> (s_data (w_session w))))
       (w_sent w ++ [mk_reply PROMPT_TOPIC None])).
Proof.
  cbv zeta. intros Hm. unfold fsm_enter_phone. rewrite Hm. reflexivity.
Qed.

Lemma fsm_enter_topic_accepts (m : message) (w : world) :
  let topic := strip (or_empty (m_text m)) in
  3 <= len topic ->
  fsm_enter_topic m w =
    (inr tt,
     mk_world (w_db w)
       (mk_session (Some confirm) (<["topic" := topic]> (s_data (w_session w))))
       (w_sent w ++ [mk_reply (confirm_prompt (<["topic" := topic]> (s_data (w_session w))))
                       None])).
Proof.
  cbv zeta. intros Hlen. unfold fsm_enter_topic.
  apply Z.ltb_ge in Hlen. rewrite Hlen. reflexivity.
Qed.

Lemma dialogue_run_cons (now : pystr) (m : message) (ms : list message) (w w1 : world) :
  dialogue_step now w m = Some w1 ->
  dialogue_run now (m :: ms) w = dialogue_run now ms w1.
Proof. intros Hstep. unfold dialogue_run. simpl. rewrite Hstep. reflexivity. Qed.

Lemma dialogue_step_in (now : pystr) (st : fsm_state) (handler : message -> M unit)
    (m : message) (w : world) (r : exn + unit) (w1 : world) :
  s_state (w_session w) = Some st ->
  booking_handler now st = Some handler ->
  handler m w = (r, w1) ->
  dialogue_step now w m = Some w1.
Proof.
  intros Hst Hh Hrun. unfold dialogue_step. rewrite Hst, Hh, Hrun. reflexivity.
Qed.

(** X26: the whole booking dialogue of a user without a filled profile.
    After the time button ([cb_pick_time]), a name of at least 5 characters
    once stripped, a phone whose digits and [+] match the pattern, a topic
    of at least 3 characters once stripped and an affirmative answer, sent
    in this order to the handlers of the states they meet, end in one new
    confirmed booking of the sender of the answer: for the date and time of
    the button, with the stripped name, the phone reduced to digits and
    [+], and the stripped topic, provided no row holds the slot. The
    session ends empty and five messages were sent. *)
Theorem booking_dialogue_books (now : pystr) (c : callback) (cw : cworld)
    (m1 m2 m3 m4 : message) (date_str time_str : pystr) :
  ~ In COLON date_str ->
  c_data c = u "pick_time:" ++ date_str ++ u ":" ++ time_str ->
  profile_filled (get_profile (cw_profiles cw) (c_from_id c)) = false ->
  let full_name := strip (or_empty (m_text m1)) in
  let phone := phone_chars (or_empty (m_text m2)) in
  let topic := strip (or_empty (m_text m3)) in
  5 <= len full_name ->
  phone_match phone = true ->
  3 <= len topic ->
  In (str_lower (strip (or_empty (m_text m4)))) YES_WORDS ->
  unique_date_time_ok (cw_db cw) date_str time_str = true ->
  let cw1 := snd (cb_pick_time c cw) in
  let up := upsert_user (cw_db cw) now (m_from_id m4) (or_empty (m_first_name m4))
              (or_empty (m_last_name m4)) (or_empty (m_username m4)) in
  exists w' id,
    dialogue_run now [m1; m2; m3; m4] (mk_world (cw_db cw1) (cw_session cw1) []) = Some w'
    /\ bookings (w_db w')
       = bookings (cw_db cw)
         ++ [mk_booking id (snd up) full_name phone date_str time_str topic CONFIRMED now]
    /\ users (w_db w') = users (fst up)
    /\ w_session w' = mk_session None ∅
    /\ map r_text (w_sent w')
       = [PROMPT_PHONE; PROMPT_TOPIC;
          confirm_prompt
            (<["topic" := topic]>
               (<["phone" := phone]>
                  (<["full_name" := full_name]>
                     (<["date" := date_str]>
                        (<["time" := time_str]> (s_data (cw_session cw)))))));
          MSG_CONFIRMED; MSG_CANCEL_HINT].
Proof.
  intros Hcolon Hdata Hprof full_name phone topic Hname Hphone Htopic Hyes Hfree. cbv zeta.
  assert (Hsplit : split_sep COLON 2 (c_data c) = [u "pick_time"; date_str; time_str]).
  { rewrite Hdata. apply (split_tagged "pick_time"); [reflexivity | assumption]. }
  assert (Hpick : snd (cb_pick_time c cw)
                  = mk_cworld (cw_db cw) (cw_profiles cw)
                      (mk_session (Some entering_name)
                         (<["date" := date_str]>
                            (<["time" := time_str]> (s_data (cw_session cw)))))
                      (snd (cb_pick_time c cw)).(cw_acts)).
  { unfold cb_pick_time, mbind, CM_bind. rewrite Hsplit.
    unfold read_profile. cbn -[u get_profile fmt_user_date profile_filled].
    destruct (get_profile (cw_profiles cw) (c_from_id c)) as [p|];
      [rewrite Hprof|]; reflexivity. }
  rewrite Hpick. cbn [cw_db cw_session].
  set (data0 := <["date" := date_str]> (<["time" := time_str]> (s_data (cw_session cw)))).
  erewrite (dialogue_run_cons now m1);
    [|eapply (dialogue_step_in now entering_name fsm_enter_name);
      [reflexivity | reflexivity | apply fsm_enter_name_accepts; exact Hname]].
  erewrite (dialogue_run_cons now m2);
    [|eapply (dialogue_step_in now entering_phone fsm_enter_phone);
      [reflexivity | reflexivity | apply fsm_enter_phone_accepts; exact Hphone]].
  erewrite (dialogue_run_cons now m3);
    [|eapply (dialogue_step_in now entering_topic fsm_enter_topic);
      [reflexivity | reflexivity | apply fsm_enter_topic_accepts; exact Htopic]].
  cbn [w_db w_session s_data w_sent]. fold full_name phone topic.
  set (data3 := <["topic" := topic]> (<["phone" := phone]> (<["full_name" := full_name]> data0))).
  assert (Hkeys : data3 !! "full_name" = Some full_name /\ data3 !! "phone" = Some phone
                  /\ data3 !! "date" = Some date_str /\ data3 !! "time" = Some time_str
                  /\ data3 !! "topic" = Some topic).
  { subst data3 data0. repeat split; simplify_map_eq; reflexivity. }
  destruct Hkeys as (K1 & K2 & K3 & K4 & K5).
  match goal with
  | |- context [dialogue_run now [m4] ?w3] =>
      pose proof (fsm_confirm_yes now m4 w3 full_name phone date_str time_str topic
                    Hyes K1 K2 K3 K4 K5 Hfree) as Hrun
  end.
  cbv zeta in Hrun. cbn [w_db w_sent] in Hrun.
  erewrite (dialogue_run_cons now m4);
    [|eapply (dialogue_step_in now confirm (fsm_confirm now));
      [reflexivity | reflexivity | exact Hrun]].
  do 2 eexists. split; [reflexivity|].
  cbn [w_db with_bookings bookings users w_session w_sent].
  split; [reflexivity|]. split; [reflexivity|]. split; reflexivity.
Qed.

End WholeDialogue.

(** ** The administrator's list *)

Section AdminList.
Context `{PyLib}.
#[local] Arguments u : simpl never.

Lemma _admin_cancel_kb_buttons (date_str : pystr) (items : list admin_item) :
  concat (_admin_cancel_kb date_str items)
  = map (fun it => mk_button (u "❌ " ++ ai_time it)
                     (u "admin_cancel:" ++ date_str ++ u ":" ++ ai_time it)) items.
Proof.
  set (r := fold_left (admin_kb_step date_str) items ([], [])).
  assert (Hrun : _admin_cancel_kb date_str items
                 = fst r ++ match snd r with [] => [] | _ => [snd r] end).
  { unfold _admin_cancel_kb. fold r.
    destruct r as [rows [|b row]]; [rewrite app_nil_r|]; reflexivity. }
  destruct (kb_loop_layout
              (fun it => mk_button (u "❌ " ++ ai_time it)
                           (u "admin_cancel:" ++ date_str ++ u ":" ++ ai_time it))
              (admin_kb_step date_str) ltac:(intros; reflexivity)
              items [] [] ltac:(simpl; lia) ltac:(constructor)) as (Hc & _ & _).
  rewrite Hrun. transitivity (concat (fst r) ++ snd r); [|exact Hc].
  rewrite concat_app. destruct (snd r); simpl; rewrite ?app_nil_r; reflexivity.
Qed.

Lemma isoformat_no_colon (d : date) : ~ In COLON (isoformat d).
Proof.
  intros Hc. apply isoformat_chars in Hc as [Hc | Hc].
  - vm_compute in Hc. discriminate.
  - change COLON with 58%N in Hc. lia.
Qed.

(** X27: [cmd_list]. Somebody who is not an administrator gets the refusal
    and nothing else. An administrator gets the bookings of one day: the
    day of the argument when [strptime] reads it, written back in ISO form,
    and today when there is no argument or it is not a date. The store and
    the session are only read. Each button of the keyboard carries
    [admin_cancel:<day>:<time>] for a booking listed, which the
    [split(":", 2)] of [cb_admin_cancel] reads back to that day and time,
    the ISO form of a day having no colon. *)
Theorem cmd_list_spec (admins : list Z) (today : date) (args : option pystr)
    (m : message) (w : world) :
  if is_admin admins (m_from_id m) then
    exists day,
      (strptime_ymd (strip (strip (or_empty args))) = Some day
       \/ (day = today
           /\ (strip (or_empty args) = []
               \/ strptime_ymd (strip (strip (or_empty args))) = None)))
      /\ let items := all_bookings_for_date (w_db w) (isoformat day) in
         let kb := match items with
                   | [] => None
                   | _ => Some (_admin_cancel_kb (isoformat day) items)
                   end in
         cmd_list admins today args m w
         = (inr tt,
            mk_world (w_db w) (w_session w)
              (w_sent w ++ [mk_reply (_format_admin_list_text (isoformat day) items) kb]))
         /\ Forall (fun b => exists t,
                      In t (map ai_time items)
                      /\ split_sep COLON 2 (btn_callback_data b)
                         = [u "admin_cancel"; isoformat day; t])
              (concat (default [] kb))
  else
    cmd_list admins today args m w
    = (inr tt, mk_world (w_db w) (w_session w)
                 (w_sent w ++ [mk_reply MSG_ADMINS_ONLY None])).
Proof.
  unfold cmd_list. destruct (is_admin admins (m_from_id m)); [|reflexivity].
  cbn [negb].
  assert (Hday : exists day,
            (strptime_ymd (strip (strip (or_empty args))) = Some day
             \/ (day = today
                 /\ (strip (or_empty args) = []
                     \/ strptime_ymd (strip (strip (or_empty args))) = None)))
            /\ or_else (_parse_date_arg (Some (strip (or_empty args)))) (isoformat today)
               = isoformat day).
  { unfold _parse_date_arg. destruct (strip (or_empty args)) as [|c s] eqn:Harg.
    - exists today. split; [right; auto | reflexivity].
    - destruct (strptime_ymd (strip (c :: s))) as [day|] eqn:Hparse.
      + exists day. split; [left; reflexivity | reflexivity].
      + exists today. split; [right; auto | reflexivity]. }
  destruct Hday as (day & Hwhich & Hdate).
  exists day. split; [exact Hwhich|]. cbv zeta. rewrite Hdate. split.
  - unfold mbind, M_bind, on_db, answer. reflexivity.
  - destruct (all_bookings_for_date (w_db w) (isoformat day)) as [|it items] eqn:Hitems;
      [constructor|].
    change (default [] (Some (_admin_cancel_kb (isoformat day) (it :: items))))
      with (_admin_cancel_kb (isoformat day) (it :: items)).
    rewrite _admin_cancel_kb_buttons.
    apply Forall_forall. intros b Hb.
    apply list_elem_of_In, in_map_iff in Hb as (it' & <- & Hin).
    exists (ai_time it'). split; [apply in_map; exact Hin|].
    cbn [btn_callback_data].
    apply (split_tagged "admin_cancel"); [reflexivity | apply isoformat_no_colon].
Qed.

(** X28: [cmd_mybookings] makes sure the sender has a row in [users], lists
    the bookings of that row and answers once: with the notice that there
    are none exactly when no booking has that [user_id], and otherwise with
    the heading and one line for each. Bookings and session are only
    read. *)
Theorem cmd_mybookings_spec (now : pystr) (m : message) (w : world) :
  let up := upsert_user (w_db w) now (m_from_id m) (or_empty (m_first_name m))
              (or_empty (m_last_name m)) (or_empty (m_username m)) in
  let items := list_bookings_for_user (fst up) (snd up) in
  exists text,
    cmd_mybookings now m w
    = (inr tt, mk_world (fst up) (w_session w) (w_sent w ++ [mk_reply text None]))
    /\ bookings (fst up) = bookings (w_db w)
    /\ length items
       = length (List.filter (fun b => b_user_id b =? snd up) (bookings (w_db w)))
    /\ (text = MSG_NO_BOOKINGS <-> items = [])
    /\ (items <> [] ->
        exists lines,
          text = u "<b>Мои записи</b>" ++ [10]%N ++ join_with [10]%N lines
          /\ length lines = length items).
Proof.
  cbv zeta.
  destruct (upsert_user_row (w_db w) now (m_from_id m) (or_empty (m_first_name m))
              (or_empty (m_last_name m)) (or_empty (m_username m))) as [_ Hbs].
  unfold cmd_mybookings, mbind, M_bind, upsert_sender, on_db. cbn [fst snd w_db].
  destruct (upsert_user (w_db w) now (m_from_id m) _ _ _) as [d1 uid].
  cbn [fst snd w_db w_session w_sent] in *.
  assert (Hlen : length (list_bookings_for_user d1 uid)
                 = length (List.filter (fun b => b_user_id b =? uid) (bookings (w_db w)))).
  { unfold list_bookings_for_user. rewrite length_map, Hbs.
    symmetry. apply Permutation_length, order_by_perm. }
  destruct (list_bookings_for_user d1 uid) as [|it items] eqn:Hitems.
  - eexists. split; [reflexivity|]. split; [exact Hbs|]. split; [exact Hlen|].
    split; [tauto|]. intros Hne. contradiction.
  - eexists. split; [reflexivity|]. split; [exact Hbs|]. split; [exact Hlen|]. split.
    + split; [|discriminate]. intros Heq. exfalso.
      apply (f_equal (fun s => nth 0 s 0%N)) in Heq. vm_compute in Heq. discriminate.
    + intros _. eexists. split; [reflexivity|]. rewrite length_map. reflexivity.
Qed.

End AdminList.

(** ** Closed instances

    The properties above at the reference runtime and the sample data. *)

#[local] Existing Instance basic_pylib.
#[local] Existing Instance basic_aiogram.

Ltac eval_chars :=
  unfold in_range, one_of in *;
  repeat match goal with
  | |- context [chr ?s] => let v := eval vm_compute in (chr s) in change (chr s) with v
  | H : context [chr ?s] |- _ =>
      let v := eval vm_compute in (chr s) in change (chr s) with v in H
  | |- context [u ?s] => let v := eval vm_compute in (u s) in change (u s) with v
  | H : context [u ?s] |- _ =>
      let v := eval vm_compute in (u s) in change (u s) with v in H
  end;
  unfold chr_eqb in *; simpl existsb in *.

Ltac bool_props :=
  repeat match goal with
  | H : _ = true |- _ =>
      first [ apply orb_true_iff in H | apply andb_true_iff in H
            | apply N.leb_le in H | apply N.eqb_eq in H ]
  | H : _ = false |- _ =>
      first [ apply orb_false_iff in H | apply andb_false_iff in H
            | apply N.leb_gt in H | apply N.eqb_neq in H ]
  | H : _ /\ _ |- _ => destruct H
  | H : _ \/ _ |- _ => destruct H
  end.

Lemma basic_lower_chr_idempotent (c : N) :
  basic_lower_chr (basic_lower_chr c) = basic_lower_chr c.
Proof.
  assert (Hfix : forall x,
    (in_range "A" "Z" x || in_range "А" "Я" x) = false ->
    in_range "Ѐ" "Џ" x = false -> one_of "ӘҒҚҢӨҰҮҺ" x = false ->
    basic_lower_chr x = x).
  { intros x H1 H2 H3. unfold basic_lower_chr. rewrite H1, H2, H3. reflexivity. }
  assert (Hval : basic_lower_chr c =
    if in_range "A" "Z" c || in_range "А" "Я" c then (c + 32)%N
    else if in_range "Ѐ" "Џ" c then (c + 80)%N
    else if one_of "ӘҒҚҢӨҰҮҺ" c then (c + 1)%N else c) by reflexivity.
  rewrite Hval. clear Hval.
  destruct (in_range "A" "Z" c || in_range "А" "Я" c) eqn:E1;
    [|destruct (in_range "Ѐ" "Џ" c) eqn:E2;
      [|destruct (one_of "ӘҒҚҢӨҰҮҺ" c) eqn:E3; [|apply Hfix; assumption]]];
    apply Hfix; clear Hfix; eval_chars;
    repeat match goal with
    | |- _ = false => apply not_true_is_false; intros Hgoal
    end;
    bool_props; lia.
Qed.

Lemma basic_lower_laws : str_lower_laws.
Proof.
  unfold str_lower_laws. simpl str_lower. repeat split.
  - intros s c Hc. apply in_map_iff in Hc as (y & <- & _). simpl.
    rewrite basic_lower_chr_idempotent. reflexivity.
  - intros t Hfix. induction t as [|c t IH]; [reflexivity|]. simpl. f_equal.
    + specialize (Hfix c (or_introl eq_refl)). simpl in Hfix. congruence.
    + apply IH. intros x Hx. apply Hfix. right. exact Hx.
Qed.

(** C10 at a sample text. *)
Lemma normalize_idempotent_witness :
  str_lower_laws
  /\ normalize (u "  Ёлка,  ПРИВЕТ-мир!  Қазақ ТІЛІ ") = u "елка привет мир қазақ тілі"
  /\ normalize (normalize (u "  Ёлка,  ПРИВЕТ-мир!  Қазақ ТІЛІ "))
     = normalize (u "  Ёлка,  ПРИВЕТ-мир!  Қазақ ТІЛІ ").
Proof.
  split; [exact basic_lower_laws|]. split; [vm_compute; reflexivity|].
  apply (normalize_idempotent (u "  Ёлка,  ПРИВЕТ-мир!  Қазақ ТІЛІ ")).
  exact basic_lower_laws.
Defined.

(** C6 at the sample store: the booked 10:00 is not offered. *)
Lemma available_slots_witness :
  strptime_ymd (u "2025-09-01") = Some (mk_date 2025 9 1)
  /\ available_slots sample_db (u "2025-09-01")
     = Some (map u ["10:30"; "11:00"; "11:30"; "12:00"; "12:30";
                    "14:00"; "14:30"; "15:00"; "15:30"; "16:00"; "16:30"; "17:00";
                    "17:30"; "18:00"]%string).
Proof.
  assert (Hparse : strptime_ymd (u "2025-09-01") = Some (mk_date 2025 9 1))
    by reflexivity.
  split; [exact Hparse|].
  destruct (available_slots_spec sample_db (u "2025-09-01") (mk_date 2025 9 1) Hparse)
    as (slots & -> & -> & _).
  vm_compute. reflexivity.
Defined.

(** C1 at the sample store: a second booking of the taken slot. *)
Lemma create_booking_conflict_witness :
  (exists b, In b (bookings sample_db) /\ b_date b = u "2025-09-01"
             /\ b_time b = u "10:00" /\ b_status b = CONFIRMED)
  /\ create_booking sample_db sample_now 2 (u "Иванов Иван") (u "+77001234567")
       (u "2025-09-01") (u "10:00") (u "Поступление")
     = (sample_db, (false, MSG_CONFLICT)).
Proof.
  assert (Htaken : exists b, In b (bookings sample_db) /\ b_date b = u "2025-09-01"
                             /\ b_time b = u "10:00" /\ b_status b = CONFIRMED).
  { eexists. split; [left; reflexivity|]. repeat split. }
  split; [exact Htaken|].
  apply (proj1 (proj2 (proj2 (create_booking_conflict sample_db sample_now 2 (u "Иванов Иван")
                         (u "+77001234567") (u "2025-09-01") (u "10:00")
                         (u "Поступление"))))).
  exact Htaken.
Defined.

(** C8 at the sample store: the owner cancels, another user does not. *)
Lemma cancel_booking_witness :
  snd (cancel_booking sample_db 1 (u "2025-09-01") (u "10:00")) = true
  /\ snd (cancel_booking sample_db 2 (u "2025-09-01") (u "10:00")) = false
  /\ fst (cancel_booking sample_db 2 (u "2025-09-01") (u "10:00")) = sample_db.
Proof.
  split; [reflexivity|]. split; [reflexivity|].
  apply (proj2 (proj2 (proj2
           (cancel_booking_spec sample_db 2 (u "2025-09-01") (u "10:00"))))).
  reflexivity.
Defined.

(** C7 at a sample input: a phone without digits. *)
Lemma invalid_input_keeps_session_witness :
  s_state (w_session (sample_world entering_phone)) = Some entering_phone
  /\ invalid_input entering_phone (text_message "abc")
  /\ is_bot_command (text_message "abc") None = false
  /\ is_menu_button (text_message "abc") = false
  /\ route (Some entering_phone) (text_message "abc") None = Some H_fsm_enter_phone
  /\ on_message sample_now sample_today (sample_world entering_phone)
       (text_message "abc") None
     = Some (inr tt,
             mk_world sample_db (sample_session entering_phone)
               [mk_reply PROMPT_BAD_PHONE None]).
Proof.
  assert (Hbad : invalid_input entering_phone (text_message "abc")).
  { simpl. intros Hv. apply phone_match_valid in Hv. discriminate Hv. }
  assert (Hst : s_state (w_session (sample_world entering_phone)) = Some entering_phone)
    by reflexivity.
  assert (Hcmd : is_bot_command (text_message "abc") None = false) by reflexivity.
  assert (Hmenu : is_menu_button (text_message "abc") = false) by reflexivity.
  split; [exact Hst|]. split; [exact Hbad|]. split; [exact Hcmd|]. split; [exact Hmenu|].
  destruct (invalid_input_keeps_session sample_now sample_today entering_phone
              (text_message "abc") None (sample_world entering_phone) Hst Hbad Hcmd Hmenu)
    as (h & handler & prompt & Hroute & _ & Hh & Hrun & Hmsg & _).
  split; [reflexivity|].
  rewrite Hmsg. injection Hh as <-. vm_compute in Hrun.
  injection Hrun as Hprompt. rewrite <- Hprompt. reflexivity.
Defined.

(** C7, as the claim states it, fails: [/book] in the phone step, where it
    is not a phone number, goes to [cmd_book], which clears the session and
    starts the dialogue again at the choice of the date; so does the text
    of the booking button in the confirm step, where it is neither a yes
    nor a no. *)
Lemma book_command_leaves_dialogue :
  let w := sample_world entering_phone in
  let m := text_message "/book" in
  let w' := snd (cmd_book sample_today m w) in
  let wc := sample_world confirm in
  let mc := text_message "📅 Записаться на консультацию" in
  s_state (w_session w) = Some entering_phone
  /\ invalid_input entering_phone m
  /\ route (s_state (w_session w)) m None = Some H_cmd_book
  /\ on_message sample_now sample_today w m None = Some (cmd_book sample_today m w)
  /\ (exists kb, cmd_book sample_today m w
                 = (inr tt,
                    mk_world sample_db (mk_session (Some choosing_date) ∅)
                      [mk_reply PROMPT_PICK_DATE (Some kb)]))
  /\ s_state (w_session w') = Some choosing_date
  /\ s_state (w_session w') <> s_state (w_session w)
  /\ s_data (w_session w) !! "date" = Some (u "2025-09-01")
  /\ s_data (w_session w') !! "date" = None
  /\ invalid_input confirm mc
  /\ route (s_state (w_session wc)) mc None = Some H_btn_book
  /\ on_message sample_now sample_today wc mc None = Some (cmd_book sample_today mc wc)
  /\ s_state (w_session (snd (cmd_book sample_today mc wc))) = Some choosing_date
  /\ s_data (w_session (snd (cmd_book sample_today mc wc))) = ∅.
Proof.
  cbv zeta.
  assert (Hbad : invalid_input entering_phone (text_message "/book")).
  { simpl. intros Hv. apply phone_match_valid in Hv. discriminate Hv. }
  assert (Hbadc : invalid_input confirm (text_message "📅 Записаться на консультацию")).
  { unfold invalid_input. cbv zeta.
    split; intros Hin; apply (proj2 (pystr_in_In _ _)) in Hin; vm_compute in Hin;
      discriminate Hin. }
  split; [reflexivity|]. split; [exact Hbad|].
  split; [vm_compute; reflexivity|].
  split; [vm_compute; reflexivity|].
  split; [eexists; vm_compute; reflexivity|].
  split; [vm_compute; reflexivity|].
  split; [vm_compute; discriminate|].
  split; [vm_compute; reflexivity|].
  split; [vm_compute; reflexivity|].
  split; [exact Hbadc|].
  split; [vm_compute; reflexivity|].
  split; [vm_compute; reflexivity|].
  split; [vm_compute; reflexivity|].
  vm_compute; reflexivity.
Qed.

(** C4, as the claim states it, fails: after the conflict the session still
    holds the time that was refused. *)
Lemma confirm_conflict_keeps_stale_time :
  let w := sample_world confirm in
  let m := text_message "Да" in
  let w' := snd (fsm_confirm sample_now m w) in
  In (str_lower (strip (or_empty (m_text m)))) YES_WORDS
  /\ snd (create_booking sample_db sample_now 2 (u "Иванов Иван") (u "+77001234567")
            (u "2025-09-01") (u "10:00") (u "Поступление")) = (false, MSG_CONFLICT)
  /\ s_state (w_session w') = Some choosing_time
  /\ s_data (w_session w') !! "time" = Some (u "10:00")
  /\ s_data (w_session w') !! "time" <> None.
Proof.
  cbv zeta. split; [left; reflexivity|]. split; [reflexivity|].
  split; [vm_compute; reflexivity|].
  assert (Htime : s_data (w_session (snd (fsm_confirm sample_now (text_message "Да")
                                            (sample_world confirm)))) !! "time"
                  = Some (u "10:00")) by (vm_compute; reflexivity).
  split; [exact Htime|]. rewrite Htime. discriminate.
Qed.

(** C4 at the sample store. *)
Lemma confirm_conflict_keeps_data_witness :
  let w := sample_world confirm in
  let m := text_message "Да" in
  In (str_lower (strip (or_empty (m_text m)))) YES_WORDS
  /\ s_state (w_session (snd (fsm_confirm sample_now m w))) = Some choosing_time
  /\ s_data (w_session (snd (fsm_confirm sample_now m w))) = s_data (w_session w).
Proof.
  cbv zeta.
  assert (Hyes : In (str_lower (strip (or_empty (m_text (text_message "Да"))))) YES_WORDS)
    by (left; reflexivity).
  split; [exact Hyes|].
  pose proof (confirm_conflict_keeps_data sample_now (text_message "Да")
                (sample_world confirm) (u "Иванов Иван") (u "+77001234567")
                (u "2025-09-01") (u "10:00") (u "Поступление")) as Hspec.
  cbv zeta in Hspec.
  destruct Hspec as (Hstate & Hdata & _); try reflexivity; try exact Hyes.
  split; assumption.
Defined.

(** C3: [fsm_enter_name] accepts a name of one word, which the claim and the
    onboarding handler [ob_enter_name] reject. *)
Theorem fsm_enter_name_accepts_one_word :
  let m := text_message "Иванов" in
  let w := sample_world entering_name in
  len (split (strip (or_empty (m_text m)))) = 1
  /\ fsm_enter_name m w =
       (inr tt,
        mk_world sample_db
          (mk_session (Some entering_phone)
             (<["full_name" := u "Иванов"]> (s_data (sample_session entering_name))))
          [mk_reply PROMPT_PHONE None])
  /\ ob_enter_name m (mk_world sample_db (mk_session (Some ob_name) ∅) []) =
       (inr tt,
        mk_world sample_db (mk_session (Some ob_name) ∅)
          [mk_reply PROMPT_OB_FULL_NAME None]).
Proof.
  cbv zeta. split; [reflexivity|]. split.
  - apply (fsm_enter_name_accepts (text_message "Иванов") (sample_world entering_name)).
    vm_compute. discriminate.
  - reflexivity.
Qed.

(** C5 at the sample FAQ: a query that no route takes is scored, and the
    row of the highest score answers it. *)
Lemma search_faq_answer_witness :
  let q := normalize (u "Какой у вас адрес?") in
  Forall (fun row => in_unit (seq_ratio q (normalize (f_tags row)))) (faq sample_db)
  /\ exists i row,
       nth_error (faq sample_db) i = Some row
       /\ (FAQ_THRESHOLD <=? faq_score q row)%float = true
       /\ Forall (fun row' => (faq_score q row' <=? faq_score q row)%float = true)
            (faq sample_db)
       /\ search_faq_answer sample_db (u "Какой у вас адрес?") = Some (f_answer row).
Proof.
  cbv zeta.
  assert (Hratio : Forall (fun row => in_unit (seq_ratio (normalize (u "Какой у вас адрес?"))
                                        (normalize (f_tags row)))) (faq sample_db)).
  { repeat constructor. }
  split; [exact Hratio|].
  pose proof (search_faq_answer_spec sample_db (u "Какой у вас адрес?") Hratio) as Hspec.
  cbv zeta in Hspec.
  destruct Hspec as (_ & _ & _ & _ & _ & _ & Hscored).
  destruct Hscored as [[_ Hnone] | (i & row & Hi & Hthr & Hmax & _ & Hfound)];
    try (intros Hm; apply re_search_any_matches in Hm; vm_compute in Hm;
         discriminate Hm).
  - vm_compute in Hnone. discriminate Hnone.
  - exists i, row. auto.
Defined.

Example search_faq_answer_routed :
  search_faq_answer sample_db (u "Есть ли общежитие?") = Some ANSWER_DORM
  /\ search_faq_answer sample_db (u "Сколько стоит обучение, есть ли скидки?")
     = Some ANSWER_GRANTS.
Proof. vm_compute. split; reflexivity. Qed.

Example search_faq_answer_scored :
  search_faq_answer sample_db (u "Какой у вас адрес?")
    = Some (u "Наш адрес: г. Алматы, проспект Сейфуллина, 521")
  /\ faq_score (normalize (u "Какой у вас адрес?")) (mk_faq [] (u "адрес"))
     = (2 + 10 / 22)%float
  /\ search_faq_answer sample_db (u "Привет") = None.
Proof. vm_compute. repeat split. Qed.

(** C9 at the sample corpus. *)
Lemma kb_search_witness :
  0 <= 2
  /\ Forall (fun it => in_unit (seq_ratio (normalize (u "документы для поступления"))
                                  (slice_to 1000 (kb_text it)))) (kb sample_db)
  /\ len (kb_search sample_db (u "документы для поступления") 2) = 2.
Proof.
  assert (Hratio : Forall (fun it => in_unit (seq_ratio (normalize (u "документы для поступления"))
                                  (slice_to 1000 (kb_text it)))) (kb sample_db)).
  { repeat constructor. }
  split; [lia|]. split; [exact Hratio|].
  apply (proj1 (proj2 (proj2
           (kb_search_spec sample_db (u "документы для поступления") 2
              ltac:(lia) Hratio)))).
  vm_compute. discriminate.
Defined.

Example kb_search_ranked :
  map k_title (kb_search sample_db (u "документы для поступления") 2)
    = [u "Документы"; u "Контакты"]
  /\ map k_title (kb_search sample_db (u "документы для поступления") (-1))
     = [u "Документы"; u "Контакты"]
  /\ map k_title (kb_search sample_db (u "документы для поступления") 8)
     = [u "Документы"; u "Контакты"; u "Общежитие"].
Proof. vm_compute. repeat split. Qed.

(** A free slot is booked: the session is cleared and the row is stored. *)
Example confirm_books_free_slot :
  let w := mk_world sample_db
             (mk_session (Some confirm)
                (<["time" := u "10:30"]> (s_data (sample_session confirm)))) [] in
  let w' := snd (fsm_confirm sample_now (text_message "да") w) in
  w_session w' = mk_session None ∅
  /\ map (fun b => (b_user_id b, b_date b, b_time b, b_status b)) (bookings (w_db w'))
     = [(1, u "2025-09-01", u "10:00", CONFIRMED);
        (2, u "2025-09-01", u "10:30", CONFIRMED)]
  /\ map r_text (w_sent w') = [MSG_CONFIRMED; MSG_CANCEL_HINT].
Proof. vm_compute. repeat split. Qed.

(** The dialogue of a whole booking: each rejected input leaves the step
    where it was, each accepted one moves on, and the last one books. *)
Example booking_dialogue :
  let w0 := mk_world sample_db
              (mk_session (Some entering_name)
                 (<["time" := u "10:30"]> (<["date" := u "2025-09-01"]> ∅))) [] in
  let run texts := dialogue_run sample_now (map text_message texts) w0 in
  map (fun texts => option_map (fun w => s_state (w_session w)) (run texts))
    [ ["A B"];
      ["A B"; "Ivanov Ivan"];
      ["A B"; "Ivanov Ivan"; "abc"];
      ["A B"; "Ivanov Ivan"; "abc"; "+77001234567"];
      ["A B"; "Ivanov Ivan"; "abc"; "+77001234567"; "hi"];
      ["A B"; "Ivanov Ivan"; "abc"; "+77001234567"; "hi"; "Admission question"];
      ["A B"; "Ivanov Ivan"; "abc"; "+77001234567"; "hi"; "Admission question"; "maybe"];
      ["A B"; "Ivanov Ivan"; "abc"; "+77001234567"; "hi"; "Admission question"; "maybe";
       "yes"] ]%string
  = map Some
      [ Some entering_name; Some entering_phone; Some entering_phone;
        Some entering_topic; Some entering_topic; Some confirm; Some confirm; None ]
  /\ option_map
       (fun w => map (fun b => (b_full_name b, b_phone b, b_date b, b_time b, b_topic b,
                                b_status b)) (bookings (w_db w)))
       (run ["A B"; "Ivanov Ivan"; "abc"; "+77001234567"; "hi"; "Admission question";
             "yes"]%string)
     = Some [ (u "Сатпаева Айгерим", u "+77011112233", u "2025-09-01", u "10:00",
               u "Поступление", CONFIRMED);
              (u "Ivanov Ivan", u "+77001234567", u "2025-09-01", u "10:30",
               u "Admission question", CONFIRMED) ].
Proof. vm_compute. split; reflexivity. Qed.

(** ** Further closed instances *)

Lemma sample_db_reachable : reachable sample_db.
Proof.
  assert (Hsteps :
    fst (create_booking
           (fst (upsert_user
                   (fst (upsert_user empty_db (u "2025-08-30T09:00:00+05:00") 100
                           (u "Айгерим") (u "") (u "aigerim")))
                   (u "2025-08-30T09:05:00+05:00") 200 (u "Иван") (u "Иванов") (u "")))
           (u "2025-08-30T09:01:00+05:00") 1 (u "Сатпаева Айгерим") (u "+77011112233")
           (u "2025-09-01") (u "10:00") (u "Поступление"))
    = sample_db) by (vm_compute; reflexivity).
  rewrite <- Hsteps.
  eapply reach_step; [|apply step_create].
  eapply reach_step; [|apply step_upsert].
  eapply reach_step; [|apply step_upsert].
  apply reach_init.
Qed.

Lemma sample_db_unique : unique_date_time sample_db.
Proof.
  intros ds ts. simpl. destruct (at_slot ds ts _); simpl; lia.
Qed.

Lemma sample_date_no_colon : ~ In COLON (u "2025-09-01").
Proof. apply not_In_forallb. reflexivity. Qed.

(** X2 at the sample store. *)
Lemma reachable_keys_ok_witness :
  reachable sample_db /\ keys_ok sample_db /\ references_ok sample_db.
Proof.
  split; [exact sample_db_reachable|].
  exact (reachable_keys_ok sample_db sample_db_reachable).
Defined.

(** X4 at the sample store: the second user books 10:30. *)
Lemma create_booking_takes_slot_witness :
  fst (snd (create_booking sample_db sample_now 2 (u "Иванов Иван") (u "+77001234567")
              (u "2025-09-01") (u "10:30") (u "Поступление"))) = true
  /\ available_slots
       (fst (create_booking sample_db sample_now 2 (u "Иванов Иван") (u "+77001234567")
               (u "2025-09-01") (u "10:30") (u "Поступление")))
       (u "2025-09-01")
     = Some (map u ["11:00"; "11:30"; "12:00"; "12:30";
                    "14:00"; "14:30"; "15:00"; "15:30"; "16:00"; "16:30"; "17:00";
                    "17:30"; "18:00"]%string).
Proof.
  assert (Hok : fst (snd (create_booking sample_db sample_now 2 (u "Иванов Иван")
                            (u "+77001234567") (u "2025-09-01") (u "10:30")
                            (u "Поступление"))) = true) by reflexivity.
  split; [exact Hok|].
  rewrite (proj1 (create_booking_takes_slot sample_db sample_now 2 (u "Иванов Иван")
                    (u "+77001234567") (u "2025-09-01") (u "10:30") (u "Поступление") Hok)).
  vm_compute. reflexivity.
Defined.

(** X5 at the sample store: the second user books 10:30 and cancels. *)
Lemma create_then_cancel_witness :
  fst (snd (create_booking sample_db sample_now 2 (u "Иванов Иван") (u "+77001234567")
              (u "2025-09-01") (u "10:30") (u "Поступление"))) = true
  /\ bookings
       (fst (cancel_booking
               (fst (create_booking sample_db sample_now 2 (u "Иванов Иван")
                       (u "+77001234567") (u "2025-09-01") (u "10:30") (u "Поступление")))
               2 (u "2025-09-01") (u "10:30")))
     = sample_bookings.
Proof.
  assert (Hok : fst (snd (create_booking sample_db sample_now 2 (u "Иванов Иван")
                            (u "+77001234567") (u "2025-09-01") (u "10:30")
                            (u "Поступление"))) = true) by reflexivity.
  split; [exact Hok|].
  exact (proj1 (proj2 (create_then_cancel sample_db sample_now 2 (u "Иванов Иван")
                         (u "+77001234567") (u "2025-09-01") (u "10:30") (u "Поступление")
                         Hok))).
Defined.

(** X7 at the sample store: the owner cancels 10:00, which is free again. *)
Lemma cancel_frees_slot_witness :
  unique_date_time sample_db
  /\ strptime_ymd (u "2025-09-01") = Some (mk_date 2025 9 1)
  /\ In (u "10:00") (time_slots_for_date (datetime_of_date (mk_date 2025 9 1)))
  /\ snd (cancel_booking sample_db 1 (u "2025-09-01") (u "10:00")) = true
  /\ exists slots,
       available_slots (fst (cancel_booking sample_db 1 (u "2025-09-01") (u "10:00")))
         (u "2025-09-01") = Some slots
       /\ In (u "10:00") slots.
Proof.
  assert (Hparse : strptime_ymd (u "2025-09-01") = Some (mk_date 2025 9 1))
    by reflexivity.
  assert (Hslot : In (u "10:00") (time_slots_for_date (datetime_of_date (mk_date 2025 9 1)))).
  { rewrite time_slots_for_date_eq. left. reflexivity. }
  assert (Hok : snd (cancel_booking sample_db 1 (u "2025-09-01") (u "10:00")) = true)
    by reflexivity.
  split; [exact sample_db_unique|]. split; [exact Hparse|]. split; [exact Hslot|].
  split; [exact Hok|].
  exact (proj2 (proj1 (cancel_frees_slot sample_db 1 (u "2025-09-01") (u "10:00")
                         (mk_date 2025 9 1) sample_db_unique Hparse Hslot) Hok)).
Defined.

(** X11 at the sample store: fourteen free slots make five rows. *)
Lemma times_inline_kb_layout_witness :
  available_slots sample_db (u "2025-09-01") = Some (tl DAY_SLOTS)
  /\ exists kb,
       times_inline_kb (u "2025-09-01") (sample_world choosing_time)
       = (inr kb, sample_world choosing_time)
       /\ map (map btn_text) kb
          = [map u ["10:30"; "11:00"; "11:30"]; map u ["12:00"; "12:30"; "14:00"];
             map u ["14:30"; "15:00"; "15:30"]; map u ["16:00"; "16:30"; "17:00"];
             map u ["17:30"; "18:00"]; [btn_text BACK_TO_DATES]]%string.
Proof.
  assert (Hav : available_slots (w_db (sample_world choosing_time)) (u "2025-09-01")
                = Some (tl DAY_SLOTS)) by (vm_compute; reflexivity).
  split; [exact Hav|].
  destruct (times_inline_kb_layout (u "2025-09-01") (sample_world choosing_time)
              (tl DAY_SLOTS) Hav) as (kb & Hrun & _).
  exists kb. split; [exact Hrun|].
  assert (Hkb : inr kb = fst (times_inline_kb (u "2025-09-01") (sample_world choosing_time)))
    by (rewrite Hrun; reflexivity).
  vm_compute in Hkb. injection Hkb as ->. vm_compute. reflexivity.
Defined.

(** X13 at the sample world: a user without a profile picks 10:30. *)
Lemma cb_pick_time_spec_witness :
  ~ In COLON (u "2025-09-01")
  /\ c_data (sample_callback 200 "pick_time:2025-09-01:10:30")
     = u "pick_time:" ++ u "2025-09-01" ++ u ":" ++ u "10:30"
  /\ cw_session (snd (cb_pick_time (sample_callback 200 "pick_time:2025-09-01:10:30")
                        sample_cworld))
     = mk_session (Some entering_name)
         (<["date" := u "2025-09-01"]> (<["time" := u "10:30"]> ∅)).
Proof.
  assert (Hdata : c_data (sample_callback 200 "pick_time:2025-09-01:10:30")
                  = u "pick_time:" ++ u "2025-09-01" ++ u ":" ++ u "10:30")
    by (vm_compute; reflexivity).
  split; [exact sample_date_no_colon|]. split; [exact Hdata|].
  exact (proj2 (proj2 (proj2 (proj2
           (cb_pick_time_spec (sample_callback 200 "pick_time:2025-09-01:10:30")
              sample_cworld (u "2025-09-01") (u "10:30") sample_date_no_colon Hdata))))).
Defined.

(** X14 at the sample world: the date button of 1 September. *)
Lemma cb_pick_date_spec_witness :
  c_data (sample_callback 200 "pick_date:2025-09-01") = u "pick_date:" ++ u "2025-09-01"
  /\ cw_session (snd (cb_pick_date (sample_callback 200 "pick_date:2025-09-01")
                        sample_cworld))
     = mk_session (Some choosing_time) (<["date" := u "2025-09-01"]> ∅).
Proof.
  assert (Hdata : c_data (sample_callback 200 "pick_date:2025-09-01")
                  = u "pick_date:" ++ u "2025-09-01") by (vm_compute; reflexivity).
  split; [exact Hdata|].
  exact (proj1 (proj2 (proj2
           (cb_pick_date_spec (sample_callback 200 "pick_date:2025-09-01")
              sample_cworld (u "2025-09-01") Hdata)))).
Defined.

(** X15 at the sample world: the second user presses the cancel button of
    the first user's booking, which stays. *)
Lemma cb_cancel_spec_witness :
  ~ In COLON (u "2025-09-01")
  /\ c_data (sample_callback 200 "cancel:2025-09-01:10:00")
     = u "cancel:" ++ u "2025-09-01" ++ u ":" ++ u "10:00"
  /\ bookings (cw_db (snd (cb_cancel sample_now
                             (sample_callback 200 "cancel:2025-09-01:10:00")
                             sample_cworld)))
     = sample_bookings
  /\ cw_acts (snd (cb_cancel sample_now (sample_callback 200 "cancel:2025-09-01:10:00")
                     sample_cworld))
     = [Edited (mk_reply MSG_NOT_CANCELLED None); Answered None false].
Proof.
  assert (Hdata : c_data (sample_callback 200 "cancel:2025-09-01:10:00")
                  = u "cancel:" ++ u "2025-09-01" ++ u ":" ++ u "10:00")
    by (vm_compute; reflexivity).
  split; [exact sample_date_no_colon|]. split; [exact Hdata|].
  destruct (cb_cancel_spec sample_now (sample_callback 200 "cancel:2025-09-01:10:00")
              sample_cworld (u "2025-09-01") (u "10:00") sample_date_no_colon Hdata)
    as (_ & _ & _ & _ & Hbs & _ & Hacts).
  split; [rewrite Hbs | rewrite Hacts]; vm_compute; reflexivity.
Defined.

(** X16 at the sample world: the first user is the administrator and
    cancels the booking of 10:00. *)
Lemma cb_admin_cancel_spec_witness :
  ~ In COLON (u "2025-09-01")
  /\ c_data (sample_callback 100 "admin_cancel:2025-09-01:10:00")
     = u "admin_cancel:" ++ u "2025-09-01" ++ u ":" ++ u "10:00"
  /\ is_admin [100] 100 = true
  /\ bookings (cw_db (snd (cb_admin_cancel [100] true
                             (sample_callback 100 "admin_cancel:2025-09-01:10:00")
                             sample_cworld)))
     = [].
Proof.
  assert (Hdata : c_data (sample_callback 100 "admin_cancel:2025-09-01:10:00")
                  = u "admin_cancel:" ++ u "2025-09-01" ++ u ":" ++ u "10:00")
    by (vm_compute; reflexivity).
  split; [exact sample_date_no_colon|]. split; [exact Hdata|]. split; [reflexivity|].
  pose proof (proj2 (proj2 (proj2
                (cb_admin_cancel_spec [100] true
                   (sample_callback 100 "admin_cancel:2025-09-01:10:00")
                   sample_cworld (u "2025-09-01") (u "10:00") sample_date_no_colon Hdata))))
    as Hadmin.
  change (is_admin [100] (c_from_id (sample_callback 100 "admin_cancel:2025-09-01:10:00")))
    with true in Hadmin.
  cbv zeta in Hadmin. destruct Hadmin as (Hbs & _). rewrite Hbs. vm_compute. reflexivity.
Defined.

(** X17 at the sample world: a cancel button without a time. *)
Lemma callback_data_too_short_witness :
  length (split_sep COLON 2 (c_data (sample_callback 200 "cancel:2025-09-01"))) <> 3%nat
  /\ cb_cancel sample_now (sample_callback 200 "cancel:2025-09-01") sample_cworld
     = (inl ValueError, sample_cworld).
Proof.
  assert (Hlen : length (split_sep COLON 2 (c_data (sample_callback 200 "cancel:2025-09-01")))
                 <> 3%nat) by (vm_compute; discriminate).
  split; [exact Hlen|].
  exact (proj1 (proj2 (callback_data_too_short sample_now [] true
                         (sample_callback 200 "cancel:2025-09-01") sample_cworld Hlen))).
Defined.

(** X19 at a sample world: the second user types a phone with spaces and
    brackets. *)
Lemma ob_enter_phone_saves_witness :
  re_phone (phone_chars (or_empty (m_text (text_message "+7 (700) 123-45-67")))) = true
  /\ s_data (cw_session onboarding_cworld) !! "full_name" = Some (u "Иванов Иван Иванович")
  /\ u "Иванов Иван Иванович" <> []
  /\ get_profile
       (cw_profiles (snd (ob_enter_phone sample_now None
                            (text_message "+7 (700) 123-45-67") onboarding_cworld)))
       200
     = Some (mk_profile_dict (u "Иванов Иван Иванович") (u "+77001234567")).
Proof.
  assert (Hphone : re_phone (match @None pystr with
                             | Some (c :: r) => c :: r
                             | _ => phone_chars (or_empty (m_text (text_message
                                                                     "+7 (700) 123-45-67")))
                             end) = true) by (vm_compute; reflexivity).
  assert (Hname : s_data (cw_session onboarding_cworld) !! "full_name"
                  = Some (u "Иванов Иван Иванович")) by reflexivity.
  assert (Hne : u "Иванов Иван Иванович" <> []) by (vm_compute; discriminate).
  split; [exact Hphone|]. split; [exact Hname|]. split; [exact Hne|].
  pose proof (proj1 (proj2 (proj2 (proj2 (proj2
                (ob_enter_phone_saves sample_now None (text_message "+7 (700) 123-45-67")
                   onboarding_cworld (u "Иванов Иван Иванович") Hphone Hname Hne))))))
    as Hget.
  cbv zeta in Hget. exact Hget.
Defined.

Lemma sample_dates_parse (k : Z) :
  0 <= k < 14 ->
  strptime_ymd (isoformat (date_plus_days sample_today k))
  = Some (date_plus_days sample_today k).
Proof.
  intros Hk.
  assert (Hcases : k = 0 \/ k = 1 \/ k = 2 \/ k = 3 \/ k = 4 \/ k = 5 \/ k = 6 \/ k = 7
                   \/ k = 8 \/ k = 9 \/ k = 10 \/ k = 11 \/ k = 12 \/ k = 13) by lia.
  repeat (destruct Hcases as [-> | Hcases]; [vm_compute; reflexivity|]).
  subst. vm_compute. reflexivity.
Qed.

Lemma sample_today_in_range : dates_in_range sample_today.
Proof. unfold dates_in_range. vm_compute. split; discriminate. Qed.

(** X20 on a Sunday: the two weeks from 31 August 2025. *)
Lemma upcoming_dates_spec_witness :
  dates_in_range sample_today
  /\ length (upcoming_dates sample_today) = 12%nat
  /\ upcoming_dates sample_today
     = map u ["2025-09-01"; "2025-09-02"; "2025-09-03"; "2025-09-04"; "2025-09-05";
              "2025-09-06"; "2025-09-08"; "2025-09-09"; "2025-09-10"; "2025-09-11";
              "2025-09-12"; "2025-09-13"]%string.
Proof.
  split; [exact sample_today_in_range|].
  destruct (upcoming_dates_spec sample_today sample_today_in_range)
    as (days & Heq & Hlen & _).
  split; [rewrite Heq, length_map; exact Hlen|].
  vm_compute. reflexivity.
Defined.

(** X21 on a Sunday: the first date offered is the Monday after. *)
Lemma dates_inline_kb_spec_witness :
  dates_in_range sample_today
  /\ (forall k, 0 <= k < 14 ->
     strptime_ymd (isoformat (date_plus_days sample_today k))
     = Some (date_plus_days sample_today k))
  /\ exists kb,
       dates_inline_kb sample_today = Some kb
       /\ map (map btn_text) kb
          = map (fun s => [u s])
              ["Mon 01.09"; "Tue 02.09"; "Wed 03.09"; "Thu 04.09"; "Fri 05.09"; "Sat 06.09";
               "Mon 08.09"; "Tue 09.09"; "Wed 10.09"; "Thu 11.09"; "Fri 12.09";
               "Sat 13.09"]%string.
Proof.
  split; [exact sample_today_in_range|]. split; [exact sample_dates_parse|].
  destruct (dates_inline_kb_spec sample_today sample_today_in_range sample_dates_parse)
    as (kb & Hkb & _).
  exists kb. split; [exact Hkb|].
  assert (Hrun : Some kb = dates_inline_kb sample_today) by (rewrite Hkb; reflexivity).
  vm_compute in Hrun. injection Hrun as ->. vm_compute. reflexivity.
Defined.

Lemma sample_logs_logged : logged sample_logs.
Proof.
  apply (logged_add sample_db (mk_logs (firstn 3 (log_rows sample_logs)) 3) sample_logs
           sample_now (Some 2) (u "общежитие") (u "Стоимость 36 000 в месяц"));
    [|vm_compute; reflexivity].
  apply (logged_add sample_db (mk_logs (firstn 2 (log_rows sample_logs)) 2) _
           sample_now (Some 2) (u "документы") (u "Полный перечень документов: /docs"));
    [|vm_compute; reflexivity].
  apply (logged_add sample_db (mk_logs (firstn 1 (log_rows sample_logs)) 1) _
           sample_now (Some 1) (u "адрес")
           (u "Наш адрес: г. Алматы, проспект Сейфуллина, 521"));
    [|vm_compute; reflexivity].
  apply (logged_add sample_db (mk_logs [] 0) _
           sample_now (Some 2) (u "Здравствуйте") (u "Здравствуйте!"));
    [apply logged_init | vm_compute; reflexivity].
Qed.

(** X22 at the sample log: the last two exchanges of the second user. *)
Lemma last_dialog_for_user_spec_witness :
  logged sample_logs
  /\ 0 <= 2
  /\ last_dialog_for_user sample_logs 2 2
     = [(u "документы", u "Полный перечень документов: /docs");
        (u "общежитие", u "Стоимость 36 000 в месяц")].
Proof.
  split; [exact sample_logs_logged|]. split; [lia|].
  rewrite (proj1 (last_dialog_for_user_spec sample_logs 2 2 sample_logs_logged
                    ltac:(lia))).
  vm_compute. reflexivity.
Defined.

(** X23 after one step from an empty session: a time button pressed out of
    the blue. *)
Lemma dialogue_never_KeyError_witness :
  bot_reachable (snd (cb_pick_time (sample_callback 200 "pick_time:2025-09-01:10:30")
                        sample_cworld))
  /\ session_ok (cw_session (snd (cb_pick_time
                                    (sample_callback 200 "pick_time:2025-09-01:10:30")
                                    sample_cworld))).
Proof.
  assert (Hreach : bot_reachable
            (snd (cb_pick_time (sample_callback 200 "pick_time:2025-09-01:10:30")
                    sample_cworld))).
  { apply (bot_next sample_cworld); [apply bot_start; reflexivity | apply step_cb_pick_time]. }
  split; [exact Hreach|].
  exact (proj1 (dialogue_never_KeyError _ Hreach)).
Defined.

(** X24 at the sample store: the second user confirms the free 10:30. *)
Lemma fsm_confirm_books_witness :
  In (str_lower (strip (or_empty (m_text (text_message " Да "))))) YES_WORDS
  /\ unique_date_time_ok (w_db (free_world confirm)) (u "2025-09-01") (u "10:30") = true
  /\ map b_id (bookings (w_db (snd (fsm_confirm sample_now (text_message " Да ")
                                      (free_world confirm)))))
     = [1; 2]
  /\ w_session (snd (fsm_confirm sample_now (text_message " Да ") (free_world confirm)))
     = mk_session None ∅.
Proof.
  assert (Hyes : In (str_lower (strip (or_empty (m_text (text_message " Да "))))) YES_WORDS).
  { apply pystr_in_In. vm_compute. reflexivity. }
  assert (Hfree : unique_date_time_ok (w_db (free_world confirm)) (u "2025-09-01") (u "10:30")
                  = true) by reflexivity.
  split; [exact Hyes|]. split; [exact Hfree|].
  destruct (fsm_confirm_books sample_now (text_message " Да ") (free_world confirm)
              (u "Иванов Иван") (u "+77001234567") (u "2025-09-01") (u "10:30")
              (u "Поступление") Hyes eq_refl eq_refl eq_refl eq_refl eq_refl Hfree)
    as (_ & _ & _ & _ & Hsession & _).
  split; [vm_compute; reflexivity | exact Hsession].
Defined.

(** X25 at the sample store: the second user confirms 10:30 and presses
    the cancel button. *)
Lemma cancel_button_undoes_booking_witness :
  In (str_lower (strip (or_empty (m_text (text_message " Да "))))) YES_WORDS
  /\ unique_date_time_ok (w_db (free_world confirm)) (u "2025-09-01") (u "10:30") = true
  /\ ~ In COLON (u "2025-09-01")
  /\ [[mk_button (u "❌ Отменить запись")
         (c_data (sample_callback 200 "cancel:2025-09-01:10:30"))]]
     = cancel_booking_kb (u "2025-09-01") (u "10:30")
  /\ bookings
       (cw_db (snd (cb_cancel sample_now (sample_callback 200 "cancel:2025-09-01:10:30")
                      (mk_cworld
                         (w_db (snd (fsm_confirm sample_now (text_message " Да ")
                                       (free_world confirm))))
                         [] (mk_session None ∅) []))))
     = sample_bookings.
Proof.
  assert (Hyes : In (str_lower (strip (or_empty (m_text (text_message " Да "))))) YES_WORDS).
  { apply pystr_in_In. vm_compute. reflexivity. }
  assert (Hfree : unique_date_time_ok (w_db (free_world confirm)) (u "2025-09-01") (u "10:30")
                  = true) by reflexivity.
  assert (Hbutton : [[mk_button (u "❌ Отменить запись")
                        (c_data (sample_callback 200 "cancel:2025-09-01:10:30"))]]
                    = cancel_booking_kb (u "2025-09-01") (u "10:30"))
    by (vm_compute; reflexivity).
  split; [exact Hyes|]. split; [exact Hfree|]. split; [exact sample_date_no_colon|].
  split; [exact Hbutton|].
  exact (proj1 (proj2
           (cancel_button_undoes_booking sample_now sample_now (text_message " Да ")
              (free_world confirm) (sample_callback 200 "cancel:2025-09-01:10:30")
              (mk_cworld
                 (w_db (snd (fsm_confirm sample_now (text_message " Да ")
                               (free_world confirm))))
                 [] (mk_session None ∅) [])
              (u "Иванов Иван") (u "+77001234567") (u "2025-09-01") (u "10:30")
              (u "Поступление") Hyes eq_refl eq_refl eq_refl eq_refl eq_refl Hfree
              sample_date_no_colon eq_refl eq_refl Hbutton))).
Defined.

(** X26 at the sample store: the second user, who has no profile, books
    10:30. *)
Lemma booking_dialogue_books_witness :
  ~ In COLON (u "2025-09-01")
  /\ profile_filled (get_profile (cw_profiles sample_cworld)
                       (c_from_id (sample_callback 200 "pick_time:2025-09-01:10:30")))
     = false
  /\ 5 <= len (strip (or_empty (m_text (text_message "  Иванов Иван "))))
  /\ phone_match (phone_chars (or_empty (m_text (text_message "+7 (700) 123-45-67"))))
     = true
  /\ 3 <= len (strip (or_empty (m_text (text_message "Поступление после 9 класса"))))
  /\ In (str_lower (strip (or_empty (m_text (text_message "ДА"))))) YES_WORDS
  /\ unique_date_time_ok (cw_db sample_cworld) (u "2025-09-01") (u "10:30") = true
  /\ exists w',
       dialogue_run sample_now
         [text_message "  Иванов Иван "; text_message "+7 (700) 123-45-67";
          text_message "Поступление после 9 класса"; text_message "ДА"]
         (mk_world
            (cw_db (snd (cb_pick_time (sample_callback 200 "pick_time:2025-09-01:10:30")
                           sample_cworld)))
            (cw_session (snd (cb_pick_time (sample_callback 200 "pick_time:2025-09-01:10:30")
                                sample_cworld)))
            [])
       = Some w'
       /\ bookings (w_db w')
          = sample_bookings
            ++ [mk_booking 2 2 (u "Иванов Иван") (u "+77001234567") (u "2025-09-01")
                  (u "10:30") (u "Поступление после 9 класса") CONFIRMED sample_now].
Proof.
  assert (Hdata : c_data (sample_callback 200 "pick_time:2025-09-01:10:30")
                  = u "pick_time:" ++ u "2025-09-01" ++ u ":" ++ u "10:30")
    by (vm_compute; reflexivity).
  assert (Hprof : profile_filled (get_profile (cw_profiles sample_cworld)
                                    (c_from_id (sample_callback 200
                                                  "pick_time:2025-09-01:10:30")))
                  = false) by reflexivity.
  assert (Hname : 5 <= len (strip (or_empty (m_text (text_message "  Иванов Иван ")))))
    by (vm_compute; discriminate).
  assert (Hphone : phone_match (phone_chars (or_empty (m_text (text_message
                                                                 "+7 (700) 123-45-67"))))
                   = true) by (vm_compute; reflexivity).
  assert (Htopic : 3 <= len (strip (or_empty (m_text (text_message
                                                        "Поступление после 9 класса")))))
    by (vm_compute; discriminate).
  assert (Hyes : In (str_lower (strip (or_empty (m_text (text_message "ДА"))))) YES_WORDS).
  { apply pystr_in_In. vm_compute. reflexivity. }
  assert (Hfree : unique_date_time_ok (cw_db sample_cworld) (u "2025-09-01") (u "10:30")
                  = true) by reflexivity.
  split; [exact sample_date_no_colon|]. split; [exact Hprof|]. split; [exact Hname|].
  split; [exact Hphone|]. split; [exact Htopic|]. split; [exact Hyes|].
  split; [exact Hfree|].
  destruct (booking_dialogue_books sample_now
              (sample_callback 200 "pick_time:2025-09-01:10:30") sample_cworld
              (text_message "  Иванов Иван ") (text_message "+7 (700) 123-45-67")
              (text_message "Поступление после 9 класса") (text_message "ДА")
              (u "2025-09-01") (u "10:30")
              sample_date_no_colon Hdata Hprof Hname Hphone Htopic Hyes Hfree)
    as (w' & id & Hrun & Hbs & _).
  exists w'. split; [exact Hrun|].
  assert (Hw : Some w' = dialogue_run sample_now
         [text_message "  Иванов Иван "; text_message "+7 (700) 123-45-67";
          text_message "Поступление после 9 класса"; text_message "ДА"]
         (mk_world
            (cw_db (snd (cb_pick_time (sample_callback 200 "pick_time:2025-09-01:10:30")
                           sample_cworld)))
            (cw_session (snd (cb_pick_time (sample_callback 200 "pick_time:2025-09-01:10:30")
                                sample_cworld)))
            [])) by (symmetry; exact Hrun).
  vm_compute in Hw. injection Hw as ->. vm_compute. reflexivity.
Defined.
